(** * Booking metrics platform: anomaly detection, correlation and insight scoring

    A shallow embedding of [src/analytics/anomaly-detector.service.ts],
    [src/insights/insights.service.ts], [src/insights/insights.controller.ts]
    and [src/seed/seed.service.ts].

    Conventions of the embedding.
    - Numbers are modelled twice.  In the first model a JavaScript [number]
      that holds a measurement or a statistic is a real number ([R]):
      arithmetic is exact, [Math.sqrt], [Math.abs], [Math.min], [Math.max]
      are [sqrt], [Rabs], [Rmin], [Rmax], and [Math.round x] is
      [Zfloor (x + 1/2)].  It carries the properties that do not hang on the
      last bit of a result: windows, provenance, deduplication, ranking,
      ranges and narrative.  Module [Binary64] gives detection, correlation
      and scoring once more over binary64 numbers ([PrimFloat]), every
      operation rounded as the engine rounds it.  The flagging rule, the rule
      for a baseline without spread, the correlation rule and the score
      formula are stated there, because their outcome can turn on a rounding.
    - A [Date] is its epoch value in milliseconds ([Z]); [toISOString] is
      injective on dates, so an ISO text is represented by the epoch it denotes.
    - A Prisma table is the list of its rows; [findMany] is [filter] with the
      [where] clause as predicate, [findFirst] is the first row that passes it.
    - [new Date()] is an explicit argument (the instant that was read), and
      so is what [Math.random()] returns: the sequence of values read.
    - A loop that pushes onto an array is the concatenation of what each
      iteration pushes, in iteration order.
    - Texts, instants, counts, binary64 values and the control flow compute;
      a value of [R] does not, so a concrete run over [R] is followed by
      rewriting with the facts about its numbers (see the sample
      repository). *)

From Stdlib Require Import Floats.
From Stdlib Require Import List String Ascii ZArith Reals Lra Lia Bool Zfloor.
From Stdlib Require Import Sorting.Permutation Sorting.Sorted.
From Stdlib Require Import DecimalString DecimalZ DecimalPos.
Import ListNotations.

#[local] Open Scope string_scope.
#[local] Open Scope Z_scope.
#[local] Open Scope R_scope.
#[local] Open Scope list_scope.

(** ** Numbers *)

Abbreviation number := R (only parsing).

(** [a > b], [a < b] and [a >= b] on numbers, as the booleans the source
    branches on. *)
Definition num_gt (a b : number) : bool := if Rgt_dec a b then true else false.
Definition num_lt (a b : number) : bool := if Rlt_dec a b then true else false.
Definition num_ge (a b : number) : bool := if Rge_dec a b then true else false.

(** [Math.round]: nearest integer, halves towards plus infinity. *)
Definition Math_round (x : number) : Z := Zfloor (x + / 2).

(** [String.prototype.includes]. *)
Fixpoint includes (needle hay : string) : bool :=
  if prefix needle hay then true
  else match hay with
       | EmptyString => false
       | String _ rest => includes needle rest
       end.

(** ** Stored rows (prisma schema; [id] and [createdAt], which the engine never
    reads, are left out) *)

Module PageViewsHourly.
Record t := mk {
    timestamp : Z;
    page : string;
    pageCategory : string;
    viewCount : Z;
    referrer : string;
    deviceType : string;
    region : string
  }.
End PageViewsHourly.

Module UserActionsHourly.
Record t := mk {
    timestamp : Z;
    page : string;
    pageCategory : string;
    avgSessionDuration : number;
    bounceRate : number;
    conversionRate : number;
    conversionCount : Z;
    deviceType : string;
    referrer : string;
    region : string
  }.
End UserActionsHourly.

Module PerformanceHourly.
Record t := mk {
    timestamp : Z;
    page : string;
    pageCategory : string;
    avgLoadTime : number;
    errorRate : number;
    deviceType : string;
    region : string
  }.
End PerformanceHourly.

(** ** Derived records ([insight.interface.ts]) *)

Record AnomalyContext := mkContext {
  ctx_deviceType : option string;
  ctx_region : option string;
  ctx_referrer : option string;
  ctx_pageCategory : option string
}.

Record AnomalyDetectionResult := mkAnomaly {
  page : string;
  metricType : string;
  metric : string;
  currentValue : number;
  baselineMean : number;
  baselineStdDev : number;
  percentageChange : number;
  timestamp : Z;
  context : AnomalyContext
}.

Record CorrelatedMetric := mkCorrelated {
  cm_metric : string;
  cm_value : number;
  cm_change : number;
  cm_correlation : string
}.

Record CorrelationResult := mkCorrelation {
  primaryAnomaly : AnomalyDetectionResult;
  correlatedMetrics : list CorrelatedMetric
}.

(** ** The repository *)

Record StoredInsight := mkStored {
  si_metricType : string;
  si_page : string;
  si_insightText : string;
  si_suggestedAction : string;
  si_impactScore : Z;
  si_timestamp : Z
}.

Record Prisma := mkPrisma {
  pageViewsHourly : list PageViewsHourly.t;
  userActionsHourly : list UserActionsHourly.t;
  performanceHourly : list PerformanceHourly.t;
  businessInsight : list StoredInsight
}.

(** [detectMetricAnomaly] receives rows typed [any] from one of two tables. *)
Inductive MetricRow :=
| UserActionsRow (u : UserActionsHourly.t)
| PerformanceRow (p : PerformanceHourly.t).

Definition row_page (d : MetricRow) : string :=
  match d with
  | UserActionsRow u => UserActionsHourly.page u
  | PerformanceRow p => PerformanceHourly.page p
  end.

Definition row_timestamp (d : MetricRow) : Z :=
  match d with
  | UserActionsRow u => UserActionsHourly.timestamp u
  | PerformanceRow p => PerformanceHourly.timestamp p
  end.

(** The context copied from a row; a performance row has no [referrer]. *)
Definition row_context (d : MetricRow) : AnomalyContext :=
  match d with
  | UserActionsRow u =>
      mkContext (Some (UserActionsHourly.deviceType u))
                (Some (UserActionsHourly.region u))
                (Some (UserActionsHourly.referrer u))
                (Some (UserActionsHourly.pageCategory u))
  | PerformanceRow p =>
      mkContext (Some (PerformanceHourly.deviceType p))
                (Some (PerformanceHourly.region p))
                None
                (Some (PerformanceHourly.pageCategory p))
  end.

(** ** Statistics helpers *)

Definition calculateMean (values : list number) : number :=
  match values with
  | [] => 0
  | _ => fold_left (fun sum val => sum + val) values 0 / INR (List.length values)
  end.

Definition calculateStdDev (values : list number) (mean : number) : number :=
  match values with
  | [] => 0
  | _ =>
      let variance :=
        fold_left (fun sum val => sum + (val - mean) * (val - mean)) values 0
        / INR (List.length values) in
      sqrt variance
  end.

(** ** Page-aggregate detection *)

Definition findTraffic (db : Prisma) (page : string) (gte : Z) (lt : option Z)
  : list PageViewsHourly.t :=
  filter (fun d =>
            (PageViewsHourly.page d =? page)%string
            && (gte <=? PageViewsHourly.timestamp d)%Z
            && match lt with
               | Some e => (PageViewsHourly.timestamp d <? e)%Z
               | None => true
               end)
         (pageViewsHourly db).

Definition trafficAnomaly (recent : PageViewsHourly.t)
    (baselineMean baselineStdDev : number) : AnomalyDetectionResult :=
  let percentageChange :=
    (IZR (PageViewsHourly.viewCount recent) - baselineMean) / baselineMean * 100 in
  mkAnomaly (PageViewsHourly.page recent) "Traffic" "PageViews"
            (IZR (PageViewsHourly.viewCount recent))
            baselineMean baselineStdDev percentageChange
            (PageViewsHourly.timestamp recent)
            (mkContext (Some (PageViewsHourly.deviceType recent))
                       (Some (PageViewsHourly.region recent))
                       (Some (PageViewsHourly.referrer recent))
                       (Some (PageViewsHourly.pageCategory recent))).

Definition detectTrafficAnomalies (db : Prisma) (page : string)
    (recentStart baselineStart baselineEnd : Z) : list AnomalyDetectionResult :=
  let baselineData := findTraffic db page baselineStart (Some baselineEnd) in
  match baselineData with
  | [] => []
  | _ =>
      let baselineValues :=
        map (fun d => IZR (PageViewsHourly.viewCount d)) baselineData in
      let baselineMean := calculateMean baselineValues in
      let baselineStdDev := calculateStdDev baselineValues baselineMean in
      let recentData := findTraffic db page recentStart None in
      flat_map
        (fun recent =>
           let deviation :=
             Rabs (IZR (PageViewsHourly.viewCount recent) - baselineMean) in
           let threshold := 2.5 * baselineStdDev in
           if num_gt deviation threshold && num_gt baselineMean 0
           then [trafficAnomaly recent baselineMean baselineStdDev]
           else [])
        recentData
  end.

(** The table a metric field is read from: the test on [metricField] that
    [detectMetricAnomaly] makes before each of its two queries. *)
Definition usesUserActions (metricField : string) : bool :=
  includes "Session" metricField
  || includes "bounce" metricField
  || includes "conversion" metricField.

Definition findMetricRows (db : Prisma) (metricField page : string)
    (gte : Z) (lt : option Z) : list MetricRow :=
  let inWindow (t : Z) :=
    ((gte <=? t)%Z && match lt with Some e => (t <? e)%Z | None => true end) in
  if usesUserActions metricField
  then map UserActionsRow
         (filter (fun d => (UserActionsHourly.page d =? page)%string
                           && inWindow (UserActionsHourly.timestamp d))
                 (userActionsHourly db))
  else map PerformanceRow
         (filter (fun d => (PerformanceHourly.page d =? page)%string
                           && inWindow (PerformanceHourly.timestamp d))
                 (performanceHourly db)).

Definition metricAnomaly (metricType metricName : string)
    (valueExtractor : MetricRow -> number) (recent : MetricRow)
    (baselineMean baselineStdDev : number) : AnomalyDetectionResult :=
  let currentValue := valueExtractor recent in
  let percentageChange := (currentValue - baselineMean) / baselineMean * 100 in
  mkAnomaly (row_page recent) metricType metricName currentValue
            baselineMean baselineStdDev percentageChange
            (row_timestamp recent) (row_context recent).

Definition detectMetricAnomaly (db : Prisma) (page : string)
    (recentStart baselineStart baselineEnd : Z)
    (metricField metricType metricName : string)
    (valueExtractor : MetricRow -> number) : list AnomalyDetectionResult :=
  let baselineData :=
    findMetricRows db metricField page baselineStart (Some baselineEnd) in
  match baselineData with
  | [] => []
  | _ =>
      let baselineValues := map valueExtractor baselineData in
      let baselineMean := calculateMean baselineValues in
      let baselineStdDev := calculateStdDev baselineValues baselineMean in
      let recentData := findMetricRows db metricField page recentStart None in
      flat_map
        (fun recent =>
           let currentValue := valueExtractor recent in
           let deviation := Rabs (currentValue - baselineMean) in
           let threshold := 2.5 * baselineStdDev in
           if num_gt deviation threshold && num_gt baselineMean 0
           then [metricAnomaly metricType metricName valueExtractor recent
                               baselineMean baselineStdDev]
           else [])
        recentData
  end.

(** The six value extractors passed to [detectMetricAnomaly].  Each reads one
    field of the table its [metricField] selects ([usesUserActions]); the
    other constructor is never met at these call sites (see
    [findMetricRows_family]), where JavaScript would read [undefined]. *)
Definition get_avgSessionDuration (data : MetricRow) : number :=
  match data with
  | UserActionsRow u => UserActionsHourly.avgSessionDuration u
  | PerformanceRow _ => 0
  end.

Definition get_bounceRate (data : MetricRow) : number :=
  match data with
  | UserActionsRow u => UserActionsHourly.bounceRate u
  | PerformanceRow _ => 0
  end.

Definition get_conversionRate (data : MetricRow) : number :=
  match data with
  | UserActionsRow u => UserActionsHourly.conversionRate u
  | PerformanceRow _ => 0
  end.

Definition get_avgLoadTime (data : MetricRow) : number :=
  match data with
  | PerformanceRow p => PerformanceHourly.avgLoadTime p
  | UserActionsRow _ => 0
  end.

Definition get_errorRate (data : MetricRow) : number :=
  match data with
  | PerformanceRow p => PerformanceHourly.errorRate p
  | UserActionsRow _ => 0
  end.

Definition detectEngagementAnomalies (db : Prisma) (page : string)
    (recentStart baselineStart baselineEnd : Z) : list AnomalyDetectionResult :=
  let sessionAnomalies :=
    detectMetricAnomaly db page recentStart baselineStart baselineEnd
      "avgSessionDuration" "UserActions" "Session Duration"
      get_avgSessionDuration in
  let bounceAnomalies :=
    detectMetricAnomaly db page recentStart baselineStart baselineEnd
      "bounceRate" "Engagement" "Bounce Rate" get_bounceRate in
  let conversionAnomalies :=
    detectMetricAnomaly db page recentStart baselineStart baselineEnd
      "conversionRate" "Conversion" "Conversion Rate" get_conversionRate in
  sessionAnomalies ++ bounceAnomalies ++ conversionAnomalies.

Definition detectPerformanceAnomalies (db : Prisma) (page : string)
    (recentStart baselineStart baselineEnd : Z) : list AnomalyDetectionResult :=
  let loadTimeAnomalies :=
    detectMetricAnomaly db page recentStart baselineStart baselineEnd
      "avgLoadTime" "Performance" "Load Time" get_avgLoadTime in
  let errorAnomalies :=
    detectMetricAnomaly db page recentStart baselineStart baselineEnd
      "errorRate" "Performance" "Error Rate" get_errorRate in
  loadTimeAnomalies ++ errorAnomalies.

(** [findMany] with [distinct: ['page']]: one entry per page, first
    occurrences in table order. *)
Fixpoint distinctPages (seen l : list string) : list string :=
  match l with
  | [] => []
  | p :: rest =>
      if existsb (String.eqb p) seen then distinctPages seen rest
      else p :: distinctPages (p :: seen) rest
  end.

Definition getUniquePages (db : Prisma) : list string :=
  distinctPages [] (map PageViewsHourly.page (pageViewsHourly db)).

Definition detectAnomalies (db : Prisma) (now : Z) : list AnomalyDetectionResult :=
  let recentStart := (now - 6 * 60 * 60 * 1000)%Z in
  let baselineStart := (now - 30 * 60 * 60 * 1000)%Z in
  let baselineEnd := (now - 6 * 60 * 60 * 1000)%Z in
  flat_map
    (fun page =>
       detectTrafficAnomalies db page recentStart baselineStart baselineEnd
       ++ detectEngagementAnomalies db page recentStart baselineStart baselineEnd
       ++ detectPerformanceAnomalies db page recentStart baselineStart baselineEnd)
    (getUniquePages db).

(** ** Granular detection *)

Record Combination := mkCombo {
  combo_page : string;
  combo_deviceType : option string;
  combo_referrer : option string;
  combo_region : option string
}.

(** [if (combo.f) where.f = combo.f]: an absent or empty tag adds no filter. *)
Definition whereTag (tag : option string) (value : string) : bool :=
  match tag with
  | Some s => if (s =? "")%string then true else (value =? s)%string
  | None => true
  end.

Definition findTrafficCombo (db : Prisma) (combo : Combination)
    (gte : Z) (lt : option Z) : list PageViewsHourly.t :=
  filter (fun d =>
            (PageViewsHourly.page d =? combo_page combo)%string
            && (gte <=? PageViewsHourly.timestamp d)%Z
            && match lt with
               | Some e => (PageViewsHourly.timestamp d <? e)%Z
               | None => true
               end
            && whereTag (combo_deviceType combo) (PageViewsHourly.deviceType d)
            && whereTag (combo_referrer combo) (PageViewsHourly.referrer d)
            && whereTag (combo_region combo) (PageViewsHourly.region d))
         (pageViewsHourly db).

Definition detectTrafficAnomaliesGranular (db : Prisma) (combo : Combination)
    (recentStart baselineStart baselineEnd : Z) : list AnomalyDetectionResult :=
  let baselineData := findTrafficCombo db combo baselineStart (Some baselineEnd) in
  match baselineData with
  | [] => []
  | _ =>
      let baselineValues :=
        map (fun d => IZR (PageViewsHourly.viewCount d)) baselineData in
      let baselineMean := calculateMean baselineValues in
      let baselineStdDev := calculateStdDev baselineValues baselineMean in
      let recentData := findTrafficCombo db combo recentStart None in
      flat_map
        (fun recent =>
           let deviation :=
             Rabs (IZR (PageViewsHourly.viewCount recent) - baselineMean) in
           let threshold := 2.5 * baselineStdDev in
           if num_gt deviation threshold && num_gt baselineMean 0
           then [trafficAnomaly recent baselineMean baselineStdDev]
           else [])
        recentData
  end.

Definition detectEngagementAnomaliesGranular (db : Prisma) (combo : Combination)
    (recentStart baselineStart baselineEnd : Z) : list AnomalyDetectionResult :=
  [].

Definition detectPerformanceAnomaliesGranular (db : Prisma) (combo : Combination)
    (recentStart baselineStart baselineEnd : Z) : list AnomalyDetectionResult :=
  [].

Definition getUniqueCombinations (db : Prisma) : list Combination :=
  map (fun page => mkCombo page None None None) (getUniquePages db).

Definition detectGranularAnomalies (db : Prisma) (now : Z)
  : list AnomalyDetectionResult :=
  let recentStart := (now - 6 * 60 * 60 * 1000)%Z in
  let baselineStart := (now - 30 * 60 * 60 * 1000)%Z in
  let baselineEnd := (now - 6 * 60 * 60 * 1000)%Z in
  flat_map
    (fun combo =>
       detectTrafficAnomaliesGranular db combo recentStart baselineStart baselineEnd
       ++ detectEngagementAnomaliesGranular db combo recentStart baselineStart
            baselineEnd
       ++ detectPerformanceAnomaliesGranular db combo recentStart baselineStart
            baselineEnd)
    (getUniqueCombinations db).

(** ** Correlation analysis *)

(** [setMinutes(0, 0, 0)] clears minutes, seconds and milliseconds of the
    local time; [tz] is the offset of local time from UTC in milliseconds. *)
Definition startOfHour (tz : Z) (t : Z) : Z :=
  (t - (t + tz) mod (60 * 60 * 1000))%Z.

Definition findUserActions (db : Prisma) (page : string) (gte lt : Z)
  : list UserActionsHourly.t :=
  filter (fun d =>
            (UserActionsHourly.page d =? page)%string
            && (gte <=? UserActionsHourly.timestamp d)%Z
            && (UserActionsHourly.timestamp d <? lt)%Z)
         (userActionsHourly db).

Record ConversionData := mkConversionData {
  cd_conversionRate : number;
  cd_baselineRate : number
}.

Record BounceData := mkBounceData {
  bd_bounceRate : number;
  bd_baselineBounceRate : number
}.

Definition getConversionDataForPage (db : Prisma) (tz : Z) (page : string)
    (timestamp : Z) : option ConversionData :=
  let hourStart := startOfHour tz timestamp in
  let hourEnd := (hourStart + 60 * 60 * 1000)%Z in
  match hd_error (findUserActions db page hourStart hourEnd) with
  | None => None
  | Some recent =>
      let baselineStart := (timestamp - 30 * 60 * 60 * 1000)%Z in
      let baselineEnd := (timestamp - 6 * 60 * 60 * 1000)%Z in
      let baseline := findUserActions db page baselineStart baselineEnd in
      let baselineRate :=
        if (0 <? List.length baseline)%nat
        then fold_left (fun sum d => sum + UserActionsHourly.conversionRate d)
                       baseline 0
             / INR (List.length baseline)
        else UserActionsHourly.conversionRate recent in
      Some (mkConversionData (UserActionsHourly.conversionRate recent) baselineRate)
  end.

Definition getBounceRateForPage (db : Prisma) (tz : Z) (page : string)
    (timestamp : Z) : option BounceData :=
  let hourStart := startOfHour tz timestamp in
  let hourEnd := (hourStart + 60 * 60 * 1000)%Z in
  match hd_error (findUserActions db page hourStart hourEnd) with
  | None => None
  | Some recent =>
      let baselineStart := (timestamp - 30 * 60 * 60 * 1000)%Z in
      let baselineEnd := (timestamp - 6 * 60 * 60 * 1000)%Z in
      let baseline := findUserActions db page baselineStart baselineEnd in
      let baselineBounceRate :=
        if (0 <? List.length baseline)%nat
        then fold_left (fun sum d => sum + UserActionsHourly.bounceRate d)
                       baseline 0
             / INR (List.length baseline)
        else UserActionsHourly.bounceRate recent in
      Some (mkBounceData (UserActionsHourly.bounceRate recent) baselineBounceRate)
  end.

(** The first check in the loop body of [analyzeCorrelations]: a traffic
    increase against the conversion rate. *)
Definition trafficConversionCheck (db : Prisma) (tz : Z)
    (anomaly : AnomalyDetectionResult) : list CorrelatedMetric :=
  if (metricType anomaly =? "Traffic")%string
     && num_gt (percentageChange anomaly) 0
  then
    match getConversionDataForPage db tz (page anomaly) (timestamp anomaly) with
    | Some conversionData =>
        if num_lt (cd_conversionRate conversionData)
                  (cd_baselineRate conversionData * 0.9)
        then [mkCorrelated "Conversion Rate"
                (cd_conversionRate conversionData)
                ((cd_conversionRate conversionData - cd_baselineRate conversionData)
                 / cd_baselineRate conversionData * 100)
                "traffic_up_conversions_down"]
        else []
    | None => []
    end
  else [].

(** The second check: a load-time increase against the bounce rate. *)
Definition loadTimeBounceCheck (db : Prisma) (tz : Z)
    (anomaly : AnomalyDetectionResult) : list CorrelatedMetric :=
  if (metricType anomaly =? "Performance")%string
     && (metric anomaly =? "Load Time")%string
     && num_gt (percentageChange anomaly) 0
  then
    match getBounceRateForPage db tz (page anomaly) (timestamp anomaly) with
    | Some bounceData =>
        if num_gt (bd_bounceRate bounceData)
                  (bd_baselineBounceRate bounceData * 1.1)
        then [mkCorrelated "Bounce Rate"
                (bd_bounceRate bounceData)
                ((bd_bounceRate bounceData - bd_baselineBounceRate bounceData)
                 / bd_baselineBounceRate bounceData * 100)
                "load_time_up_bounce_rate_up"]
        else []
    | None => []
    end
  else [].

(** The [correlated] array of one iteration. *)
Definition correlatedFor (db : Prisma) (tz : Z) (anomaly : AnomalyDetectionResult)
  : list CorrelatedMetric :=
  trafficConversionCheck db tz anomaly ++ loadTimeBounceCheck db tz anomaly.

Definition analyzeCorrelations (db : Prisma) (tz : Z)
    (anomalies : list AnomalyDetectionResult) : list CorrelationResult :=
  flat_map
    (fun anomaly =>
       let correlated := correlatedFor db tz anomaly in
       if (0 <? List.length correlated)%nat
       then [mkCorrelation anomaly correlated]
       else [])
    anomalies.

(** ** Insights ([insights.service.ts]) *)

(** Template-literal rendering of an integral number. *)
Definition numberToString (z : Z) : string :=
  DecimalString.NilZero.string_of_int (Z.to_int z).

Fixpoint zeros (n : nat) : string :=
  match n with
  | O => ""
  | S k => String "0" (zeros k)
  end.

(** The decimal text of [n / 10^f] with [f] fraction digits. *)
Definition fixedDigits (n : Z) (f : nat) : string :=
  let m := numberToString n in
  match f with
  | O => m
  | _ =>
      let k := String.length m in
      let m := if (k <=? f)%nat then (zeros (f + 1 - k) ++ m)%string else m in
      let k := String.length m in
      (substring 0 (k - f) m ++ "." ++ substring (k - f) f m)%string
  end.

(** [Number.prototype.toFixed]: the sign, then the nearest multiple of
    [10^-f] to the magnitude (the larger one on a tie), in decimal with [f]
    fraction digits.  The exponent form of magnitudes from [10^21] on is not
    represented. *)
Definition toFixed (x : number) (f : nat) : string :=
  let s := if num_lt x 0 then "-" else "" in
  let x := if num_lt x 0 then - x else x in
  let n := Zfloor (x * 10 ^ f + / 2) in
  (s ++ fixedDigits n f)%string.

(** [value || fallback] on an optional text: absent and empty are falsy. *)
Definition orDefault (value : option string) (fallback : string) : string :=
  match value with
  | Some v => if (v =? "")%string then fallback else v
  | None => fallback
  end.

Module BusinessInsight.
Record t := mk {
    type : string;
    metric : string;
    page : string;
    change : string;
    businessInsight : string;
    suggestedAction : string;
    impactScore : Z;
    detectedAt : Z;
    context : list (string * option string)
  }.
End BusinessInsight.

(** [correlation?.correlatedMetrics?.some(m => m.correlation === tag)]. *)
Definition hasCorrelation (correlation : option CorrelationResult) (tag : string)
  : bool :=
  match correlation with
  | Some c =>
      existsb (fun m => (cm_correlation m =? tag)%string) (correlatedMetrics c)
  | None => false
  end.

(** [correlation?.correlatedMetrics?.find(m => m.correlation === tag)]; the
    guard [some(...)] that precedes it in [generatePerformanceInsight] holds
    exactly when this finds a metric. *)
Definition findCorrelated (correlation : option CorrelationResult) (tag : string)
  : option CorrelatedMetric :=
  match correlation with
  | Some c =>
      find (fun m => (cm_correlation m =? tag)%string) (correlatedMetrics c)
  | None => None
  end.

(** In the generators below [businessInsight] and [suggestedAction], which
    the source builds side by side in two variables, travel as a pair
    [texts]: first the insight, second the action. *)
Definition generateTrafficInsight (anomaly : AnomalyDetectionResult)
    (change : string) (correlation : option CorrelationResult)
  : BusinessInsight.t :=
  let referrer := orDefault (ctx_referrer (context anomaly)) "Unknown" in
  let region := orDefault (ctx_region (context anomaly)) "All regions" in
  let businessInsight :=
    ("Traffic "
     ++ (if num_gt (percentageChange anomaly) 0 then "surge" else "drop")
     ++ " of " ++ change ++ " detected on " ++ page anomaly ++ ". ")%string in
  let texts :=
    if num_gt (percentageChange anomaly) 0 then
      let texts :=
        if (referrer =? "Instagram")%string then
          ((businessInsight
            ++ "Organic traffic spike from Instagram campaign — likely viral post engagement. Primary traffic from "
            ++ region ++ ".")%string,
           ("Increase ad spend for " ++ region
            ++ " audiences. Create follow-up content to maintain momentum.")%string)
        else if (referrer =? "Google")%string then
          ((businessInsight
            ++ "Significant increase in organic search traffic. Page may have improved search ranking.")%string,
           "Analyze SEO performance, ensure content quality, and consider increasing paid search budget.")
        else
          ((businessInsight ++ "Traffic increase from " ++ referrer
            ++ ". Monitor conversion rates to ensure quality traffic.")%string,
           "Verify campaign performance and ensure sufficient inventory for increased demand.") in
      if hasCorrelation correlation "traffic_up_conversions_down" then
        ((fst texts
          ++ " However, conversion rate has dropped, indicating potential UX or pricing issues.")%string,
         (snd texts
          ++ " Review pricing competitiveness and checkout flow.")%string)
      else texts
    else
      ((businessInsight ++ "Significant drop in traffic from " ++ referrer
        ++ ". Page may have lost visibility or interest has declined.")%string,
       "Audit SEO performance, check for technical issues, and consider refreshing content or running paid campaigns.") in
  BusinessInsight.mk
    (if num_gt (percentageChange anomaly) 0 then "Traffic Surge" else "Traffic Drop")
    "PageViews" (page anomaly) change (fst texts) (snd texts) 0
    (timestamp anomaly)
    [("referrer", Some referrer); ("region", Some region);
     ("deviceType", ctx_deviceType (context anomaly))].

Definition generatePerformanceInsight (anomaly : AnomalyDetectionResult)
    (change : string) (correlation : option CorrelationResult)
  : BusinessInsight.t :=
  let deviceType := orDefault (ctx_deviceType (context anomaly)) "All devices" in
  let loadTimeSeconds := toFixed (currentValue anomaly / 1000) 1 in
  let businessInsight :=
    ("Performance degradation detected: " ++ deviceType
     ++ " load time increased by " ++ change ++ " (now " ++ loadTimeSeconds
     ++ "s). ")%string in
  let texts :=
    if (deviceType =? "Mobile")%string then
      ((businessInsight
        ++ "Mobile load time significantly increased. Images may be unoptimized affecting conversion.")%string,
       "Optimize images for mobile (WebP format, lazy loading), check CDN performance, and review recent code deployments.")
    else
      ((businessInsight
        ++ "Load time increase may be impacting user experience and conversions.")%string,
       "Check server performance, optimize assets, review CDN configuration, and investigate recent deployments.") in
  let texts :=
    match findCorrelated correlation "load_time_up_bounce_rate_up" with
    | Some bounceChange =>
        ((fst texts ++ " Bounce rate increased by "
          ++ toFixed (cm_change bounceChange) 0
          ++ "% in correlation, confirming performance impact.")%string,
         (snd texts
          ++ " Priority: Fix performance issues immediately to prevent further engagement loss.")%string)
    | None => texts
    end in
  BusinessInsight.mk "Performance Issue" "Load Time" (page anomaly) change
    (fst texts) (snd texts) 0 (timestamp anomaly)
    [("deviceType", Some deviceType);
     ("bounceRateIncrease",
      Some (match findCorrelated correlation "load_time_up_bounce_rate_up" with
            | Some m => (toFixed (cm_change m) 0 ++ "%")%string
            | None => "undefined%"
            end))].

Definition generateEngagementInsight (anomaly : AnomalyDetectionResult)
    (change : string) (correlation : option CorrelationResult)
  : BusinessInsight.t :=
  let page := page anomaly in
  let sessionDurationMinutes := toFixed (currentValue anomaly / 60) 1 in
  let businessInsight :=
    ("Engagement drop detected: Average session duration decreased by "
     ++ change ++ " (now " ++ sessionDurationMinutes ++ " minutes). ")%string in
  let texts :=
    if includes "checkout" page then
      ((businessInsight
        ++ "Users dropping off during checkout. Possible payment gateway issue or confusing checkout flow.")%string,
       "Immediately verify Razorpay integration, check error logs, and consider A/B testing a simplified checkout process.")
    else
      ((businessInsight
        ++ "Users spending less time on page. Content may not be engaging or page may have usability issues.")%string,
       "Review page content, check for broken elements, improve CTAs, and analyze user flow.") in
  BusinessInsight.mk "Engagement Drop" "Session Duration" page change
    (fst texts) (snd texts) 0 (timestamp anomaly)
    [("deviceType", ctx_deviceType (context anomaly));
     ("region", ctx_region (context anomaly))].

Definition generateConversionInsight (anomaly : AnomalyDetectionResult)
    (change : string) (correlation : option CorrelationResult)
  : BusinessInsight.t :=
  let page := page anomaly in
  let conversionRate := toFixed (currentValue anomaly) 2 in
  let businessInsight :=
    ("Conversion rate dropped by " ++ change ++ " (now " ++ conversionRate
     ++ "%). ")%string in
  let texts :=
    if hasCorrelation correlation "traffic_up_conversions_down" then
      ((businessInsight
        ++ "High traffic but low conversions. Possible pricing, availability, or trust issues.")%string,
       "Review package pricing competitiveness, ensure availability is shown correctly, and add more customer reviews/testimonials.")
    else
      ((businessInsight
        ++ "Conversion rate decline may indicate pricing issues, lack of trust, or technical problems.")%string,
       "Review pricing strategy, add trust signals (reviews, badges), verify booking flow, and check for errors.") in
  BusinessInsight.mk "Conversion Drop" "Conversion Rate" page change
    (fst texts) (snd texts) 0 (timestamp anomaly)
    [("referrer", ctx_referrer (context anomaly));
     ("deviceType", ctx_deviceType (context anomaly))].

Definition generateBounceRateInsight (anomaly : AnomalyDetectionResult)
    (change : string) (correlation : option CorrelationResult)
  : BusinessInsight.t :=
  let bounceRate := toFixed (currentValue anomaly) 1 in
  let businessInsight :=
    ("Bounce rate increased by " ++ change ++ " (now " ++ bounceRate
     ++ "%). ")%string in
  let businessInsight :=
    (businessInsight
     ++ "Users leaving page quickly may indicate content mismatch, slow load times, or poor user experience.")%string in
  let suggestedAction :=
    "Improve page content relevance, optimize load times, enhance mobile experience, and review landing page design." in
  BusinessInsight.mk "Engagement Drop" "Bounce Rate" (page anomaly) change
    businessInsight suggestedAction 0 (timestamp anomaly)
    [("deviceType", ctx_deviceType (context anomaly))].

Definition generateErrorRateInsight (anomaly : AnomalyDetectionResult)
    (change : string) (correlation : option CorrelationResult)
  : BusinessInsight.t :=
  let errorRate := toFixed (currentValue anomaly) 2 in
  let businessInsight :=
    ("Error rate increased by " ++ change ++ " (now " ++ errorRate
     ++ "%). ")%string in
  let businessInsight :=
    (businessInsight
     ++ "Increased error rate indicates technical issues that may be preventing bookings and damaging user trust.")%string in
  let suggestedAction :=
    "Immediately check server logs, verify API endpoints, test payment gateway, and review recent deployments. Consider rolling back if recent changes were made." in
  BusinessInsight.mk "Performance Issue" "Error Rate" (page anomaly) change
    businessInsight suggestedAction 0 (timestamp anomaly)
    [("deviceType", ctx_deviceType (context anomaly));
     ("region", ctx_region (context anomaly))].

Definition generateInsightForAnomaly (anomaly : AnomalyDetectionResult)
    (correlations : list CorrelationResult) : option BusinessInsight.t :=
  let correlation :=
    find (fun c => (page (primaryAnomaly c) =? page anomaly)%string
                   && (timestamp (primaryAnomaly c) =? timestamp anomaly)%Z)
         correlations in
  let changeSign := if num_ge (percentageChange anomaly) 0 then "+" else "" in
  let change :=
    (changeSign ++ toFixed (percentageChange anomaly) 0 ++ "%")%string in
  if (metricType anomaly =? "Traffic")%string
     && (metric anomaly =? "PageViews")%string
  then Some (generateTrafficInsight anomaly change correlation)
  else if (metricType anomaly =? "Performance")%string
          && (metric anomaly =? "Load Time")%string
  then Some (generatePerformanceInsight anomaly change correlation)
  else if (metricType anomaly =? "UserActions")%string
          && (metric anomaly =? "Session Duration")%string
  then Some (generateEngagementInsight anomaly change correlation)
  else if (metricType anomaly =? "Conversion")%string
          && (metric anomaly =? "Conversion Rate")%string
  then Some (generateConversionInsight anomaly change correlation)
  else if (metricType anomaly =? "Engagement")%string
          && (metric anomaly =? "Bounce Rate")%string
  then Some (generateBounceRateInsight anomaly change correlation)
  else if (metricType anomaly =? "Performance")%string
          && (metric anomaly =? "Error Rate")%string
  then Some (generateErrorRateInsight anomaly change correlation)
  else None.

(** *** Impact score *)

(** The criticality ladder of [calculateImpactScore]. *)
Definition criticalityScore (type : string) : number :=
  if includes "Conversion" type || includes "Error" type then 90
  else if includes "Performance" type || includes "Engagement" type then 70
  else if includes "Traffic" type then 60
  else 50.

Definition findAnomalyFor (insight : BusinessInsight.t)
    (allAnomalies : list AnomalyDetectionResult) : option AnomalyDetectionResult :=
  find (fun a => (page a =? BusinessInsight.page insight)%string
                 && (timestamp a =? BusinessInsight.detectedAt insight)%Z)
       allAnomalies.

Definition calculateImpactScore (insight : BusinessInsight.t)
    (allAnomalies : list AnomalyDetectionResult) (now : Z) : Z :=
  match findAnomalyFor insight allAnomalies with
  | None => 50%Z
  | Some anomaly =>
      let magnitudeScore := Rmin (Rabs (percentageChange anomaly) / 5) 100 in
      let magnitudeWeight := 0.3 in
      let criticality := criticalityScore (BusinessInsight.type insight) in
      let criticalityWeight := 0.4 in
      let detectedAt := BusinessInsight.detectedAt insight in
      let hoursAgo := (IZR now - IZR detectedAt) / (1000 * 60 * 60) in
      let recencyScore := Rmax 0 (100 - hoursAgo * 10) in
      let recencyWeight := 0.3 in
      let impactScore :=
        magnitudeScore * magnitudeWeight
        + criticality * criticalityWeight
        + recencyScore * recencyWeight in
      Math_round impactScore
  end.

(** *** Deduplication *)

Definition anomalyKey (anomaly : AnomalyDetectionResult) : string :=
  (page anomaly ++ "-" ++ metric anomaly ++ "-"
   ++ numberToString (timestamp anomaly))%string.

(** One iteration of the loop of [deduplicateAnomalies]: the state is the
    [seen] key set and the [unique] array. *)
Definition dedupStep (st : list string * list AnomalyDetectionResult)
    (anomaly : AnomalyDetectionResult)
  : list string * list AnomalyDetectionResult :=
  let (seen, unique) := st in
  let key := anomalyKey anomaly in
  if negb (existsb (String.eqb key) seen)
  then (key :: seen, unique ++ [anomaly])
  else (seen, unique).

Definition deduplicateAnomalies (anomalies : list AnomalyDetectionResult)
  : list AnomalyDetectionResult :=
  snd (fold_left dedupStep anomalies ([], [])).

(** *** Ranking *)

(** [Array.prototype.sort] with a comparator is a stable sort; the stable
    sorted arrangement of a list is unique, and insertion from the right
    computes it. *)
Fixpoint insertBy {A : Type} (cmp : A -> A -> Z) (x : A) (l : list A) : list A :=
  match l with
  | [] => [x]
  | y :: rest =>
      if (cmp x y <=? 0)%Z then x :: y :: rest else y :: insertBy cmp x rest
  end.

Definition jsSort {A : Type} (cmp : A -> A -> Z) (l : list A) : list A :=
  fold_right (insertBy cmp) [] l.

Definition byImpactDesc (a b : BusinessInsight.t) : Z :=
  (BusinessInsight.impactScore b - BusinessInsight.impactScore a)%Z.

Definition withImpactScore (insight : BusinessInsight.t) (score : Z)
  : BusinessInsight.t :=
  BusinessInsight.mk (BusinessInsight.type insight)
                     (BusinessInsight.metric insight)
                     (BusinessInsight.page insight)
                     (BusinessInsight.change insight)
                     (BusinessInsight.businessInsight insight)
                     (BusinessInsight.suggestedAction insight)
                     score
                     (BusinessInsight.detectedAt insight)
                     (BusinessInsight.context insight).

(** The [map] that scores each insight; [nowAt i] is the instant
    [calculateImpactScore] reads while scoring the insight at index [i]. *)
Fixpoint scoreInsights (nowAt : nat -> Z) (i : nat)
    (insights : list BusinessInsight.t)
    (uniqueAnomalies : list AnomalyDetectionResult) : list BusinessInsight.t :=
  match insights with
  | [] => []
  | insight :: rest =>
      withImpactScore insight
        (calculateImpactScore insight uniqueAnomalies (nowAt i))
      :: scoreInsights nowAt (S i) rest uniqueAnomalies
  end.

(** The anomalies both passes produced, merged and deduplicated. *)
Definition uniqueAnomaliesOf (db : Prisma) (nowAggregated nowGranular : Z)
  : list AnomalyDetectionResult :=
  let aggregatedAnomalies := detectAnomalies db nowAggregated in
  let granularAnomalies := detectGranularAnomalies db nowGranular in
  let allAnomalies := aggregatedAnomalies ++ granularAnomalies in
  deduplicateAnomalies allAnomalies.

(** The insights before scoring: one per anomaly that has a template. *)
Definition insightsOf (db : Prisma) (tz : Z) (nowAggregated nowGranular : Z)
  : list BusinessInsight.t :=
  let uniqueAnomalies := uniqueAnomaliesOf db nowAggregated nowGranular in
  let correlations := analyzeCorrelations db tz uniqueAnomalies in
  flat_map
    (fun anomaly =>
       match generateInsightForAnomaly anomaly correlations with
       | Some insight => [insight]
       | None => []
       end)
    uniqueAnomalies.

(** The list [generateBusinessInsights] sorts: every insight with its score. *)
Definition scoredInsightsOf (db : Prisma) (tz : Z) (nowAggregated nowGranular : Z)
    (nowScoring : nat -> Z) : list BusinessInsight.t :=
  scoreInsights nowScoring 0
    (insightsOf db tz nowAggregated nowGranular)
    (uniqueAnomaliesOf db nowAggregated nowGranular).

Definition generateBusinessInsights (db : Prisma) (tz : Z)
    (nowAggregated nowGranular : Z) (nowScoring : nat -> Z)
  : list BusinessInsight.t :=
  let scoredInsights :=
    jsSort byImpactDesc
      (scoredInsightsOf db tz nowAggregated nowGranular nowScoring) in
  firstn 5 scoredInsights.

(** ** Controller ([insights.controller.ts]) *)

Record InsightsResponseDto := mkResponse {
  success : bool;
  resp_timestamp : Z;
  cachedUntil : Z;
  insights : list BusinessInsight.t
}.

Definition storedOf (insight : BusinessInsight.t) : StoredInsight :=
  mkStored (BusinessInsight.type insight) (BusinessInsight.page insight)
           (BusinessInsight.businessInsight insight)
           (BusinessInsight.suggestedAction insight)
           (BusinessInsight.impactScore insight)
           (BusinessInsight.detectedAt insight).

(** [storeInsights] creates one row per insight; [createFails k] tells whether
    the [k]-th [create] throws.  The result is the repository reached and
    whether the call returned normally. *)
Fixpoint storeInsights (createFails : nat -> bool) (k : nat)
    (l : list BusinessInsight.t) (db : Prisma) : Prisma * bool :=
  match l with
  | [] => (db, true)
  | insight :: rest =>
      if createFails k then (db, false)
      else storeInsights createFails (S k) rest
             (mkPrisma (pageViewsHourly db) (userActionsHourly db)
                       (performanceHourly db)
                       (businessInsight db ++ [storedOf insight]))
  end.

(** The handler: the [try]/[catch] around [storeInsights] swallows a failed
    write; [now] is the instant read after generation. *)
Definition getBusinessInsights (db : Prisma) (tz : Z)
    (nowAggregated nowGranular : Z) (nowScoring : nat -> Z)
    (createFails : nat -> bool) (now : Z) : InsightsResponseDto * Prisma :=
  let generated :=
    generateBusinessInsights db tz nowAggregated nowGranular nowScoring in
  let db' :=
    if (0 <? List.length generated)%nat
    then fst (storeInsights createFails 0 generated db)
    else db in
  let cachedUntil := (now + 15 * 60 * 1000)%Z in
  (mkResponse true now cachedUntil
     (map (fun insight =>
             BusinessInsight.mk (BusinessInsight.type insight)
                                (BusinessInsight.metric insight)
                                (BusinessInsight.page insight)
                                (BusinessInsight.change insight)
                                (BusinessInsight.businessInsight insight)
                                (BusinessInsight.suggestedAction insight)
                                (BusinessInsight.impactScore insight)
                                (BusinessInsight.detectedAt insight)
                                (BusinessInsight.context insight))
          generated),
   db').

(** ** Seeding ([seed.service.ts]) *)

(** [getRandomInt]; [random] is the value [Math.random()] returns, a number
    from 0 (included) to 1 (excluded). *)
Definition getRandomInt (random : number) (min max : Z) : Z :=
  (Zfloor (random * IZR (max - min + 1)) + min)%Z.

(** The pages ([path], [category]) and the three weighted dimensions. *)
Definition pages : list (string * string) :=
  [("/coorg-adventure-trek", "Adventure");
   ("/maldives-packages", "Beach");
   ("/ladakh-bike-trip", "Adventure");
   ("/goa-beach-resort", "Beach");
   ("/rajasthan-heritage-tour", "Heritage");
   ("/kerala-backwaters", "Hill Station");
   ("/manali-snow-adventure", "Adventure");
   ("/andaman-diving", "Wildlife");
   ("/uttarakhand-trekking", "Trekking");
   ("/kashmir-houseboat", "Hill Station");
   ("/checkout", "Checkout")].

Definition referrers : list string :=
  ["Instagram"; "Google"; "Facebook"; "Direct"; "Email"].
Definition referrerWeights : list number := [0.2; 0.35; 0.15; 0.2; 0.1].
Definition devices : list string := ["Mobile"; "Desktop"; "Tablet"].
Definition deviceWeights : list number := [0.6; 0.35; 0.05].
Definition regions : list string := ["South India"; "North India"; "International"].
Definition regionWeights : list number := [0.3; 0.4; 0.3].

Definition hoursToGenerate : nat := 48.

(** One pass through the body of the innermost loop: the hour index [i], the
    page and the indices [j], [k], [l] into the three dimensions. *)
Record SeedCell := mkCell {
  cell_i : Z;
  cell_page : string * string;
  cell_j : nat;
  cell_k : nat;
  cell_l : nat
}.

(** The passes in the order the five nested loops make them; [i] runs from
    [hoursToGenerate] down to 0. *)
Definition seedCells : list SeedCell :=
  flat_map
    (fun i =>
       flat_map
         (fun page =>
            flat_map
              (fun j =>
                 flat_map
                   (fun k =>
                      map (fun l => mkCell i page j k l)
                          (seq 0 (List.length regions)))
                   (seq 0 (List.length devices)))
              (seq 0 (List.length referrers)))
         pages)
    (map (fun n => (Z.of_nat hoursToGenerate - Z.of_nat n)%Z)
         (seq 0 (hoursToGenerate + 1))).

(** The loop body.  It calls [getRandomInt] six times, which reads
    [random n] to [random (n + 5)], and creates up to three rows. *)
Definition seedIteration (now tz : Z) (random : nat -> number) (n : nat)
    (c : SeedCell) (db : Prisma) : Prisma :=
  let i := cell_i c in
  let timestamp := startOfHour tz (now - i * 60 * 60 * 1000)%Z in
  let path := fst (cell_page c) in
  let category := snd (cell_page c) in
  let j := cell_j c in
  let referrer := nth j referrers "" in
  let referrerWeight := nth j referrerWeights 0 in
  let k := cell_k c in
  let device := nth k devices "" in
  let deviceWeight := nth k deviceWeights 0 in
  let l := cell_l c in
  let region := nth l regions "" in
  let regionWeight := nth l regionWeights 0 in
  let baseViews := getRandomInt (random n) 50 500 in
  let views :=
    Math_round (IZR baseViews * referrerWeight * deviceWeight * regionWeight) in
  let viewCount := views in
  let loadTime := IZR (getRandomInt (random (n + 1)%nat) 800 2000) in
  let sessionDuration := IZR (getRandomInt (random (n + 2)%nat) 120 300) in
  let bounceRate := IZR (getRandomInt (random (n + 3)%nat) 20 50) in
  let conversionRate := IZR (getRandomInt (random (n + 4)%nat) 200 500) / 100 in
  let errorRate := IZR (getRandomInt (random (n + 5)%nat) 0 2) in
  let viewCount :=
    if (path =? "/coorg-adventure-trek")%string
       && (referrer =? "Instagram")%string
       && (region =? "South India")%string
       && (i <=? 6)%Z && (4 <=? i)%Z
    then Math_round (IZR views * 4.4)
    else viewCount in
  let degraded :=
    (path =? "/maldives-packages")%string && (device =? "Mobile")%string
    && (i <=? 6)%Z && (5 <=? i)%Z in
  let loadTime :=
    if degraded then IZR (Math_round (loadTime * 2.5)) else loadTime in
  let bounceRate :=
    if degraded then IZR (Math_round (bounceRate * 1.25)) else bounceRate in
  let sessionDuration :=
    if (path =? "/checkout")%string && (i <=? 6)%Z && (4 <=? i)%Z
    then IZR (Math_round (sessionDuration * 0.55))
    else sessionDuration in
  let conversionRate :=
    if (path =? "/ladakh-bike-trip")%string && (i <=? 6)%Z && (3 <=? i)%Z
    then conversionRate * 0.62
    else conversionRate in
  let pageViews :=
    if (0 <? viewCount)%Z
    then [PageViewsHourly.mk timestamp path category viewCount referrer
                             device region]
    else [] in
  let userActions :=
    if (j mod 3 =? 0)%nat && (k mod 2 =? 0)%nat
    then
      let conversionCount :=
        Math_round (IZR viewCount * conversionRate / 100) in
      [UserActionsHourly.mk timestamp path category sessionDuration
                            bounceRate conversionRate conversionCount
                            device referrer region]
    else [] in
  let performance :=
    if (j mod 3 =? 0)%nat && (k mod 2 =? 0)%nat
    then [PerformanceHourly.mk timestamp path category loadTime errorRate
                               device region]
    else [] in
  mkPrisma (pageViewsHourly db ++ pageViews)
           (userActionsHourly db ++ userActions)
           (performanceHourly db ++ performance)
           (businessInsight db).

(** [seedDatabase]: the four tables are cleared, then the loops run; the
    state threaded through them is the number of random values read so far
    and the repository. *)
Definition seedDatabase (db : Prisma) (now tz : Z) (random : nat -> number)
  : Prisma :=
  let cleared := mkPrisma [] [] [] [] in
  snd (fold_left
         (fun st c =>
            ((fst st + 6)%nat, seedIteration now tz random (fst st) c (snd st)))
         seedCells (0%nat, cleared)).

(** ** The engine's arithmetic in binary64

    The definitions above take a [number] as an exact real.  The engine
    computes in binary64, and where two values lie within a rounding error of
    each other the outcome of a comparison, a stored percentage or a rounded
    score depends on that.  [Binary64] gives detection, correlation and
    scoring once more with the arithmetic of the code: every [number] is a
    binary64 value ([float]), every operation is the correctly rounded IEEE
    754 operation JavaScript performs, in the order the source writes them.
    Rows of the page-view table hold no fractional number and are shared with
    the definitions above; texts, instants and the control flow are the same.
    [Math.pow (x, 2)] is taken as the rounded product [x * x]. *)

Module Binary64.

#[local] Open Scope float_scope.
#[local] Set Warnings "-inexact-float".

(** An integral [number]: the binary64 value nearest to the integer (the
    integer itself up to 2^53). *)
Definition ofInteger (z : Z) : float :=
  SF2Prim (binary_normalize prec emax z 0 false).

(** [Math.min] and [Math.max] of two numbers: [NaN] if either is; of two
    zeros, [Math.min] prefers the negative and [Math.max] the positive. *)
Definition Math_min (x y : float) : float :=
  if PrimFloat.is_nan x || PrimFloat.is_nan y then PrimFloat.nan
  else if x <? y then x
  else if y <? x then y
  else if PrimFloat.get_sign x then x else y.

Definition Math_max (x y : float) : float :=
  if PrimFloat.is_nan x || PrimFloat.is_nan y then PrimFloat.nan
  else if x <? y then y
  else if y <? x then x
  else if PrimFloat.get_sign x then y else x.

(** [Math.round]: a number that is not finite or already integral is
    returned as it is; any other is [m * 2^e] with [e < 0], and the result
    is the integer [floor (m * 2^e + 1/2)], with the sign of the argument
    when that integer is 0. *)
Definition Math_round (x : float) : float :=
  match Prim2SF x with
  | S754_finite s m e =>
      if (0 <=? e)%Z then x
      else
        let scaled := (if s then - Z.pos m else Z.pos m)%Z in
        let n := ((2 * scaled + 2 ^ (- e)) / 2 ^ (1 - e))%Z in
        if (n =? 0)%Z
        then (if s then PrimFloat.neg_zero else PrimFloat.zero)
        else ofInteger n
  | _ => x
  end.

(** *** Rows with fractional fields *)

Module UserActionsHourly.
Record t := mk {
    timestamp : Z;
    page : string;
    pageCategory : string;
    avgSessionDuration : float;
    bounceRate : float;
    conversionRate : float;
    conversionCount : Z;
    deviceType : string;
    referrer : string;
    region : string
  }.
End UserActionsHourly.

Module PerformanceHourly.
Record t := mk {
    timestamp : Z;
    page : string;
    pageCategory : string;
    avgLoadTime : float;
    errorRate : float;
    deviceType : string;
    region : string
  }.
End PerformanceHourly.

Record AnomalyDetectionResult := mkAnomaly {
  page : string;
  metricType : string;
  metric : string;
  currentValue : float;
  baselineMean : float;
  baselineStdDev : float;
  percentageChange : float;
  timestamp : Z;
  context : AnomalyContext
}.

Record CorrelatedMetric := mkCorrelated {
  cm_metric : string;
  cm_value : float;
  cm_change : float;
  cm_correlation : string
}.

Record CorrelationResult := mkCorrelation {
  primaryAnomaly : AnomalyDetectionResult;
  correlatedMetrics : list CorrelatedMetric
}.

(** The three metric tables. *)
Record Prisma := mkPrisma {
  pageViewsHourly : list PageViewsHourly.t;
  userActionsHourly : list UserActionsHourly.t;
  performanceHourly : list PerformanceHourly.t
}.

Inductive MetricRow :=
| UserActionsRow (u : UserActionsHourly.t)
| PerformanceRow (p : PerformanceHourly.t).

Definition row_page (d : MetricRow) : string :=
  match d with
  | UserActionsRow u => UserActionsHourly.page u
  | PerformanceRow p => PerformanceHourly.page p
  end.

Definition row_timestamp (d : MetricRow) : Z :=
  match d with
  | UserActionsRow u => UserActionsHourly.timestamp u
  | PerformanceRow p => PerformanceHourly.timestamp p
  end.

Definition row_context (d : MetricRow) : AnomalyContext :=
  match d with
  | UserActionsRow u =>
      mkContext (Some (UserActionsHourly.deviceType u))
                (Some (UserActionsHourly.region u))
                (Some (UserActionsHourly.referrer u))
                (Some (UserActionsHourly.pageCategory u))
  | PerformanceRow p =>
      mkContext (Some (PerformanceHourly.deviceType p))
                (Some (PerformanceHourly.region p))
                None
                (Some (PerformanceHourly.pageCategory p))
  end.

(** *** Statistics helpers *)

Definition calculateMean (values : list float) : float :=
  match values with
  | [] => 0
  | _ =>
      fold_left (fun sum val => sum + val) values 0
      / ofInteger (Z.of_nat (List.length values))
  end.

Definition calculateStdDev (values : list float) (mean : float) : float :=
  match values with
  | [] => 0
  | _ =>
      let variance :=
        fold_left (fun sum val => sum + (val - mean) * (val - mean)) values 0
        / ofInteger (Z.of_nat (List.length values)) in
      PrimFloat.sqrt variance
  end.

(** *** Page-aggregate detection *)

Definition findTraffic (db : Prisma) (page : string) (gte : Z) (lt : option Z)
  : list PageViewsHourly.t :=
  filter (fun d =>
            (PageViewsHourly.page d =? page)%string
            && (gte <=? PageViewsHourly.timestamp d)%Z
            && match lt with
               | Some e => (PageViewsHourly.timestamp d <? e)%Z
               | None => true
               end)
         (pageViewsHourly db).

Definition trafficAnomaly (recent : PageViewsHourly.t)
    (baselineMean baselineStdDev : float) : AnomalyDetectionResult :=
  let percentageChange :=
    (ofInteger (PageViewsHourly.viewCount recent) - baselineMean)
    / baselineMean * 100 in
  mkAnomaly (PageViewsHourly.page recent) "Traffic" "PageViews"
            (ofInteger (PageViewsHourly.viewCount recent))
            baselineMean baselineStdDev percentageChange
            (PageViewsHourly.timestamp recent)
            (mkContext (Some (PageViewsHourly.deviceType recent))
                       (Some (PageViewsHourly.region recent))
                       (Some (PageViewsHourly.referrer recent))
                       (Some (PageViewsHourly.pageCategory recent))).

Definition detectTrafficAnomalies (db : Prisma) (page : string)
    (recentStart baselineStart baselineEnd : Z) : list AnomalyDetectionResult :=
  let baselineData := findTraffic db page baselineStart (Some baselineEnd) in
  match baselineData with
  | [] => []
  | _ =>
      let baselineValues :=
        map (fun d => ofInteger (PageViewsHourly.viewCount d)) baselineData in
      let baselineMean := calculateMean baselineValues in
      let baselineStdDev := calculateStdDev baselineValues baselineMean in
      let recentData := findTraffic db page recentStart None in
      flat_map
        (fun recent =>
           let deviation :=
             PrimFloat.abs (ofInteger (PageViewsHourly.viewCount recent) - baselineMean) in
           let threshold := 2.5 * baselineStdDev in
           if (threshold <? deviation) && (0 <? baselineMean)
           then [trafficAnomaly recent baselineMean baselineStdDev]
           else [])
        recentData
  end.

Definition findMetricRows (db : Prisma) (metricField page : string)
    (gte : Z) (lt : option Z) : list MetricRow :=
  let inWindow (t : Z) :=
    ((gte <=? t)%Z && match lt with Some e => (t <? e)%Z | None => true end) in
  if usesUserActions metricField
  then map UserActionsRow
         (filter (fun d => (UserActionsHourly.page d =? page)%string
                           && inWindow (UserActionsHourly.timestamp d))
                 (userActionsHourly db))
  else map PerformanceRow
         (filter (fun d => (PerformanceHourly.page d =? page)%string
                           && inWindow (PerformanceHourly.timestamp d))
                 (performanceHourly db)).

Definition metricAnomaly (metricType metricName : string)
    (valueExtractor : MetricRow -> float) (recent : MetricRow)
    (baselineMean baselineStdDev : float) : AnomalyDetectionResult :=
  let currentValue := valueExtractor recent in
  let percentageChange := (currentValue - baselineMean) / baselineMean * 100 in
  mkAnomaly (row_page recent) metricType metricName currentValue
            baselineMean baselineStdDev percentageChange
            (row_timestamp recent) (row_context recent).

Definition detectMetricAnomaly (db : Prisma) (page : string)
    (recentStart baselineStart baselineEnd : Z)
    (metricField metricType metricName : string)
    (valueExtractor : MetricRow -> float) : list AnomalyDetectionResult :=
  let baselineData :=
    findMetricRows db metricField page baselineStart (Some baselineEnd) in
  match baselineData with
  | [] => []
  | _ =>
      let baselineValues := map valueExtractor baselineData in
      let baselineMean := calculateMean baselineValues in
      let baselineStdDev := calculateStdDev baselineValues baselineMean in
      let recentData := findMetricRows db metricField page recentStart None in
      flat_map
        (fun recent =>
           let currentValue := valueExtractor recent in
           let deviation := PrimFloat.abs (currentValue - baselineMean) in
           let threshold := 2.5 * baselineStdDev in
           if (threshold <? deviation) && (0 <? baselineMean)
           then [metricAnomaly metricType metricName valueExtractor recent
                               baselineMean baselineStdDev]
           else [])
        recentData
  end.

(** The value extractors; a field read from a row of the other table is
    [undefined] in the source and never occurs at the call sites. *)
Definition get_avgSessionDuration (data : MetricRow) : float :=
  match data with
  | UserActionsRow u => UserActionsHourly.avgSessionDuration u
  | PerformanceRow _ => PrimFloat.nan
  end.

Definition get_bounceRate (data : MetricRow) : float :=
  match data with
  | UserActionsRow u => UserActionsHourly.bounceRate u
  | PerformanceRow _ => PrimFloat.nan
  end.

Definition get_conversionRate (data : MetricRow) : float :=
  match data with
  | UserActionsRow u => UserActionsHourly.conversionRate u
  | PerformanceRow _ => PrimFloat.nan
  end.

Definition get_avgLoadTime (data : MetricRow) : float :=
  match data with
  | PerformanceRow p => PerformanceHourly.avgLoadTime p
  | UserActionsRow _ => PrimFloat.nan
  end.

Definition get_errorRate (data : MetricRow) : float :=
  match data with
  | PerformanceRow p => PerformanceHourly.errorRate p
  | UserActionsRow _ => PrimFloat.nan
  end.

Definition detectEngagementAnomalies (db : Prisma) (page : string)
    (recentStart baselineStart baselineEnd : Z) : list AnomalyDetectionResult :=
  let sessionAnomalies :=
    detectMetricAnomaly db page recentStart baselineStart baselineEnd
      "avgSessionDuration" "UserActions" "Session Duration"
      get_avgSessionDuration in
  let bounceAnomalies :=
    detectMetricAnomaly db page recentStart baselineStart baselineEnd
      "bounceRate" "Engagement" "Bounce Rate" get_bounceRate in
  let conversionAnomalies :=
    detectMetricAnomaly db page recentStart baselineStart baselineEnd
      "conversionRate" "Conversion" "Conversion Rate" get_conversionRate in
  sessionAnomalies ++ bounceAnomalies ++ conversionAnomalies.

Definition detectPerformanceAnomalies (db : Prisma) (page : string)
    (recentStart baselineStart baselineEnd : Z) : list AnomalyDetectionResult :=
  let loadTimeAnomalies :=
    detectMetricAnomaly db page recentStart baselineStart baselineEnd
      "avgLoadTime" "Performance" "Load Time" get_avgLoadTime in
  let errorAnomalies :=
    detectMetricAnomaly db page recentStart baselineStart baselineEnd
      "errorRate" "Performance" "Error Rate" get_errorRate in
  loadTimeAnomalies ++ errorAnomalies.

Definition getUniquePages (db : Prisma) : list string :=
  distinctPages [] (map PageViewsHourly.page (pageViewsHourly db)).

Definition detectAnomalies (db : Prisma) (now : Z) : list AnomalyDetectionResult :=
  let recentStart := (now - 6 * 60 * 60 * 1000)%Z in
  let baselineStart := (now - 30 * 60 * 60 * 1000)%Z in
  let baselineEnd := (now - 6 * 60 * 60 * 1000)%Z in
  flat_map
    (fun page =>
       detectTrafficAnomalies db page recentStart baselineStart baselineEnd
       ++ detectEngagementAnomalies db page recentStart baselineStart baselineEnd
       ++ detectPerformanceAnomalies db page recentStart baselineStart baselineEnd)
    (getUniquePages db).

(** *** Granular detection *)

Definition findTrafficCombo (db : Prisma) (combo : Combination)
    (gte : Z) (lt : option Z) : list PageViewsHourly.t :=
  filter (fun d =>
            (PageViewsHourly.page d =? combo_page combo)%string
            && (gte <=? PageViewsHourly.timestamp d)%Z
            && match lt with
               | Some e => (PageViewsHourly.timestamp d <? e)%Z
               | None => true
               end
            && whereTag (combo_deviceType combo) (PageViewsHourly.deviceType d)
            && whereTag (combo_referrer combo) (PageViewsHourly.referrer d)
            && whereTag (combo_region combo) (PageViewsHourly.region d))
         (pageViewsHourly db).

Definition detectTrafficAnomaliesGranular (db : Prisma) (combo : Combination)
    (recentStart baselineStart baselineEnd : Z) : list AnomalyDetectionResult :=
  let baselineData := findTrafficCombo db combo baselineStart (Some baselineEnd) in
  match baselineData with
  | [] => []
  | _ =>
      let baselineValues :=
        map (fun d => ofInteger (PageViewsHourly.viewCount d)) baselineData in
      let baselineMean := calculateMean baselineValues in
      let baselineStdDev := calculateStdDev baselineValues baselineMean in
      let recentData := findTrafficCombo db combo recentStart None in
      flat_map
        (fun recent =>
           let deviation :=
             PrimFloat.abs (ofInteger (PageViewsHourly.viewCount recent) - baselineMean) in
           let threshold := 2.5 * baselineStdDev in
           if (threshold <? deviation) && (0 <? baselineMean)
           then [trafficAnomaly recent baselineMean baselineStdDev]
           else [])
        recentData
  end.

Definition detectEngagementAnomaliesGranular (db : Prisma) (combo : Combination)
    (recentStart baselineStart baselineEnd : Z) : list AnomalyDetectionResult :=
  [].

Definition detectPerformanceAnomaliesGranular (db : Prisma) (combo : Combination)
    (recentStart baselineStart baselineEnd : Z) : list AnomalyDetectionResult :=
  [].

Definition getUniqueCombinations (db : Prisma) : list Combination :=
  map (fun page => mkCombo page None None None) (getUniquePages db).

Definition detectGranularAnomalies (db : Prisma) (now : Z)
  : list AnomalyDetectionResult :=
  let recentStart := (now - 6 * 60 * 60 * 1000)%Z in
  let baselineStart := (now - 30 * 60 * 60 * 1000)%Z in
  let baselineEnd := (now - 6 * 60 * 60 * 1000)%Z in
  flat_map
    (fun combo =>
       detectTrafficAnomaliesGranular db combo recentStart baselineStart baselineEnd
       ++ detectEngagementAnomaliesGranular db combo recentStart baselineStart
            baselineEnd
       ++ detectPerformanceAnomaliesGranular db combo recentStart baselineStart
            baselineEnd)
    (getUniqueCombinations db).

(** *** Correlation analysis *)

Definition findUserActions (db : Prisma) (page : string) (gte lt : Z)
  : list UserActionsHourly.t :=
  filter (fun d =>
            (UserActionsHourly.page d =? page)%string
            && (gte <=? UserActionsHourly.timestamp d)%Z
            && (UserActionsHourly.timestamp d <? lt)%Z)
         (userActionsHourly db).

Record ConversionData := mkConversionData {
  cd_conversionRate : float;
  cd_baselineRate : float
}.

Record BounceData := mkBounceData {
  bd_bounceRate : float;
  bd_baselineBounceRate : float
}.

Definition getConversionDataForPage (db : Prisma) (tz : Z) (page : string)
    (timestamp : Z) : option ConversionData :=
  let hourStart := startOfHour tz timestamp in
  let hourEnd := (hourStart + 60 * 60 * 1000)%Z in
  match hd_error (findUserActions db page hourStart hourEnd) with
  | None => None
  | Some recent =>
      let baselineStart := (timestamp - 30 * 60 * 60 * 1000)%Z in
      let baselineEnd := (timestamp - 6 * 60 * 60 * 1000)%Z in
      let baseline := findUserActions db page baselineStart baselineEnd in
      let baselineRate :=
        if (0 <? List.length baseline)%nat
        then fold_left (fun sum d => sum + UserActionsHourly.conversionRate d)
                       baseline 0
             / ofInteger (Z.of_nat (List.length baseline))
        else UserActionsHourly.conversionRate recent in
      Some (mkConversionData (UserActionsHourly.conversionRate recent) baselineRate)
  end.

Definition getBounceRateForPage (db : Prisma) (tz : Z) (page : string)
    (timestamp : Z) : option BounceData :=
  let hourStart := startOfHour tz timestamp in
  let hourEnd := (hourStart + 60 * 60 * 1000)%Z in
  match hd_error (findUserActions db page hourStart hourEnd) with
  | None => None
  | Some recent =>
      let baselineStart := (timestamp - 30 * 60 * 60 * 1000)%Z in
      let baselineEnd := (timestamp - 6 * 60 * 60 * 1000)%Z in
      let baseline := findUserActions db page baselineStart baselineEnd in
      let baselineBounceRate :=
        if (0 <? List.length baseline)%nat
        then fold_left (fun sum d => sum + UserActionsHourly.bounceRate d)
                       baseline 0
             / ofInteger (Z.of_nat (List.length baseline))
        else UserActionsHourly.bounceRate recent in
      Some (mkBounceData (UserActionsHourly.bounceRate recent) baselineBounceRate)
  end.

Definition trafficConversionCheck (db : Prisma) (tz : Z)
    (anomaly : AnomalyDetectionResult) : list CorrelatedMetric :=
  if (metricType anomaly =? "Traffic")%string
     && (0 <? percentageChange anomaly)
  then
    match getConversionDataForPage db tz (page anomaly) (timestamp anomaly) with
    | Some conversionData =>
        if cd_conversionRate conversionData
           <? cd_baselineRate conversionData * 0.9
        then [mkCorrelated "Conversion Rate"
                (cd_conversionRate conversionData)
                ((cd_conversionRate conversionData - cd_baselineRate conversionData)
                 / cd_baselineRate conversionData * 100)
                "traffic_up_conversions_down"]
        else []
    | None => []
    end
  else [].

Definition loadTimeBounceCheck (db : Prisma) (tz : Z)
    (anomaly : AnomalyDetectionResult) : list CorrelatedMetric :=
  if (metricType anomaly =? "Performance")%string
     && (metric anomaly =? "Load Time")%string
     && (0 <? percentageChange anomaly)
  then
    match getBounceRateForPage db tz (page anomaly) (timestamp anomaly) with
    | Some bounceData =>
        if bd_baselineBounceRate bounceData * 1.1 <? bd_bounceRate bounceData
        then [mkCorrelated "Bounce Rate"
                (bd_bounceRate bounceData)
                ((bd_bounceRate bounceData - bd_baselineBounceRate bounceData)
                 / bd_baselineBounceRate bounceData * 100)
                "load_time_up_bounce_rate_up"]
        else []
    | None => []
    end
  else [].

Definition correlatedFor (db : Prisma) (tz : Z) (anomaly : AnomalyDetectionResult)
  : list CorrelatedMetric :=
  trafficConversionCheck db tz anomaly ++ loadTimeBounceCheck db tz anomaly.

Definition analyzeCorrelations (db : Prisma) (tz : Z)
    (anomalies : list AnomalyDetectionResult) : list CorrelationResult :=
  flat_map
    (fun anomaly =>
       let correlated := correlatedFor db tz anomaly in
       if (0 <? List.length correlated)%nat
       then [mkCorrelation anomaly correlated]
       else [])
    anomalies.

(** *** Impact score *)

Definition criticalityScore (type : string) : float :=
  if includes "Conversion" type || includes "Error" type then 90
  else if includes "Performance" type || includes "Engagement" type then 70
  else if includes "Traffic" type then 60
  else 50.

Definition findAnomalyFor (insight : BusinessInsight.t)
    (allAnomalies : list AnomalyDetectionResult) : option AnomalyDetectionResult :=
  find (fun a => (page a =? BusinessInsight.page insight)%string
                 && (timestamp a =? BusinessInsight.detectedAt insight)%Z)
       allAnomalies.

(** The two instants are integral numbers of milliseconds; their difference
    is the binary64 value nearest to the exact one. *)
Definition calculateImpactScore (insight : BusinessInsight.t)
    (allAnomalies : list AnomalyDetectionResult) (now : Z) : float :=
  match findAnomalyFor insight allAnomalies with
  | None => 50
  | Some anomaly =>
      let magnitudeScore := Math_min (PrimFloat.abs (percentageChange anomaly) / 5) 100 in
      let magnitudeWeight := 0.3 in
      let criticality := criticalityScore (BusinessInsight.type insight) in
      let criticalityWeight := 0.4 in
      let detectedAt := BusinessInsight.detectedAt insight in
      let hoursAgo := ofInteger (now - detectedAt) / (1000 * 60 * 60) in
      let recencyScore := Math_max 0 (100 - hoursAgo * 10) in
      let recencyWeight := 0.3 in
      let impactScore :=
        magnitudeScore * magnitudeWeight
        + criticality * criticalityWeight
        + recencyScore * recencyWeight in
      Math_round impactScore
  end.

End Binary64.

(** ** Specification-side notions *)

(** The guard of every detection loop. *)
Definition flagged (value baselineMean baselineStdDev : number) : bool :=
  num_gt (Rabs (value - baselineMean)) (2.5 * baselineStdDev)
  && num_gt baselineMean 0.

(** The baseline observations the two detection routines take their
    statistics from. *)
Definition trafficBaselineValues (db : Prisma) (page : string)
    (baselineStart baselineEnd : Z) : list number :=
  map (fun d => IZR (PageViewsHourly.viewCount d))
      (findTraffic db page baselineStart (Some baselineEnd)).

Definition metricBaselineValues (db : Prisma) (metricField page : string)
    (valueExtractor : MetricRow -> number) (baselineStart baselineEnd : Z)
  : list number :=
  map valueExtractor
      (findMetricRows db metricField page baselineStart (Some baselineEnd)).

(** ** Sample repository

    The two scenarios of the specification: view counts 100, 120, 110, 90,
    105 in the baseline window and 400 in the recent one; conversion rates
    3.0, 3.2, 2.8, 3.1 in the baseline window and 1.8 in the recent one. *)

Definition hours (n : Z) : Z := (n * (60 * 60 * 1000))%Z.

Definition trekViews (h viewCount : Z) : PageViewsHourly.t :=
  PageViewsHourly.mk (hours h) "/coorg-adventure-trek" "Adventure" viewCount
                     "Instagram" "Mobile" "South India".

Definition bikeViews (h viewCount : Z) : PageViewsHourly.t :=
  PageViewsHourly.mk (hours h) "/ladakh-bike-trip" "Adventure" viewCount
                     "Google" "Desktop" "North India".

Definition bikeActions (h : Z) (conversionRate : number) : UserActionsHourly.t :=
  UserActionsHourly.mk (hours h) "/ladakh-bike-trip" "Adventure" 200 35
                       conversionRate 4 "Desktop" "Google" "North India".

Definition maldivesLoad (h : Z) (avgLoadTime : number) : PerformanceHourly.t :=
  PerformanceHourly.mk (hours h) "/maldives-packages" "Beach" avgLoadTime 1
                       "Mobile" "International".

Definition maldivesViews (h viewCount : Z) : PageViewsHourly.t :=
  PageViewsHourly.mk (hours h) "/maldives-packages" "Beach" viewCount
                     "Facebook" "Mobile" "International".

Definition sampleDb : Prisma :=
  mkPrisma
    [trekViews 80 100; trekViews 81 120; trekViews 82 110; trekViews 83 90;
     trekViews 84 105; trekViews 98 400;
     bikeViews 80 50; bikeViews 81 50; bikeViews 98 50; bikeViews 99 51;
     maldivesViews 80 70; maldivesViews 98 70]
    [bikeActions 80 3.0; bikeActions 81 3.2; bikeActions 82 2.8;
     bikeActions 83 3.1; bikeActions 98 1.8]
    [maldivesLoad 80 1200; maldivesLoad 81 1200; maldivesLoad 82 1200;
     maldivesLoad 98 3000]
    [].

(** The criticality rule in the words of the specification: 90 for a type
    that mentions Conversion or Error; otherwise 70 for one that mentions
    Performance or Engagement; otherwise 60 for one that mentions Traffic;
    otherwise 50. *)
Inductive criticalityIs (type : string) : number -> Prop :=
| criticality_high :
    includes "Conversion" type = true \/ includes "Error" type = true ->
    criticalityIs type 90
| criticality_medium_high :
    includes "Conversion" type = false -> includes "Error" type = false ->
    includes "Performance" type = true \/ includes "Engagement" type = true ->
    criticalityIs type 70
| criticality_medium :
    includes "Conversion" type = false -> includes "Error" type = false ->
    includes "Performance" type = false -> includes "Engagement" type = false ->
    includes "Traffic" type = true ->
    criticalityIs type 60
| criticality_default :
    includes "Conversion" type = false -> includes "Error" type = false ->
    includes "Performance" type = false -> includes "Engagement" type = false ->
    includes "Traffic" type = false ->
    criticalityIs type 50.

(** An insight and the anomaly behind it for the scoring scenario: detected at
    hour 97, a change of +340%. *)
Definition surgeAnomaly : AnomalyDetectionResult :=
  mkAnomaly "/coorg-adventure-trek" "Traffic" "PageViews" 440 100 10 340
            (hours 97)
            (mkContext (Some "Mobile") (Some "South India") (Some "Instagram")
                       (Some "Adventure")).

Definition surgeInsight : BusinessInsight.t :=
  BusinessInsight.mk
    "Traffic Surge" "PageViews" "/coorg-adventure-trek" "+340%"
    "Traffic surge of +340% detected on /coorg-adventure-trek. Organic traffic spike from Instagram campaign — likely viral post engagement. Primary traffic from South India."
    "Increase ad spend for South India audiences. Create follow-up content to maintain momentum."
    0 (hours 97)
    [("referrer", Some "Instagram"); ("region", Some "South India");
     ("deviceType", Some "Mobile")].

(** Descending order of impact score. *)
Definition scoreGe (a b : BusinessInsight.t) : Prop :=
  (BusinessInsight.impactScore b <= BusinessInsight.impactScore a)%Z.

(** The elements of [l] that the loop of [deduplicateAnomalies] keeps when
    it starts with the key set [seen]. *)
Fixpoint firstOccurrences (seen : list string) (l : list AnomalyDetectionResult)
  : list AnomalyDetectionResult :=
  match l with
  | [] => []
  | a :: rest =>
      if existsb (String.eqb (anomalyKey a)) seen
      then firstOccurrences seen rest
      else a :: firstOccurrences (anomalyKey a :: seen) rest
  end.

(** A text without the separator of [anomalyKey]. *)
Fixpoint noHyphen (s : string) : bool :=
  match s with
  | EmptyString => true
  | String c rest => negb (Ascii.eqb c "-") && noHyphen rest
  end.

(** A metric label that cannot blur the key: not empty, no hyphen.  The six
    labels the detector writes are of this kind. *)
Definition plainLabel (label : string) : Prop :=
  label <> "" /\ noHyphen label = true.

(** A second reading of the surge of [surgeAnomaly]: same page, metric and
    instant, another dimensional context and value. *)
Definition surgeAnomalyDesktop : AnomalyDetectionResult :=
  mkAnomaly "/coorg-adventure-trek" "Traffic" "PageViews" 300 100 10 200
            (hours 97)
            (mkContext (Some "Desktop") (Some "North India") (Some "Google")
                       (Some "Adventure")).

(** A repository with a row stamped one hour after the instant of detection
    (hour 100): steady counts of 40 in the baseline window, 90 at hour 101. *)
Definition goaViews (h viewCount : Z) : PageViewsHourly.t :=
  PageViewsHourly.mk (hours h) "/goa-beach-resort" "Beach" viewCount
                     "Direct" "Desktop" "International".

Definition futureDb : Prisma :=
  mkPrisma [goaViews 80 40; goaViews 81 40; goaViews 101 90] [] [] [].

(** A repository whose spike is confined to one referrer: Instagram traffic of
    the page is steady at 10 and jumps to 60, Google traffic is steady at
    1000. *)
Definition keralaViews (h viewCount : Z) (referrer : string) : PageViewsHourly.t :=
  PageViewsHourly.mk (hours h) "/kerala-backwaters" "Hill Station" viewCount
                     referrer "Mobile" "South India".

Definition referrerDb : Prisma :=
  mkPrisma
    [keralaViews 80 10 "Instagram"; keralaViews 80 1000 "Google";
     keralaViews 81 10 "Instagram"; keralaViews 81 1000 "Google";
     keralaViews 98 60 "Instagram"]
    [] [] [].

Definition instagramCombo : Combination :=
  mkCombo "/kerala-backwaters" (Some "Mobile") (Some "Instagram")
          (Some "South India").

(** The user-action row [analyzeCorrelations] reads for an anomaly: the first
    stored row of the page within the hour bucket of the anomaly. *)
Definition hourBucketRow (db : Prisma) (tz : Z) (page : string) (timestamp : Z)
  : option UserActionsHourly.t :=
  hd_error (findUserActions db page (startOfHour tz timestamp)
                            (startOfHour tz timestamp + 60 * 60 * 1000)%Z).

(** The baseline of a user-action field for an anomaly stamped [timestamp]:
    the mean of the field over the rows of the page stamped from
    [timestamp - 30h] (included) to [timestamp - 6h] (excluded), or the recent
    value itself when there is no such row. *)
Definition windowBaseline (field : UserActionsHourly.t -> number) (db : Prisma)
    (page : string) (timestamp : Z) (recent : UserActionsHourly.t) : number :=
  let rows :=
    filter (fun d =>
              (UserActionsHourly.page d =? page)%string
              && (timestamp - 30 * 60 * 60 * 1000 <=? UserActionsHourly.timestamp d)%Z
              && (UserActionsHourly.timestamp d <? timestamp - 6 * 60 * 60 * 1000)%Z)
           (userActionsHourly db) in
  match rows with
  | [] => field recent
  | _ => calculateMean (map field rows)
  end.

(** The same baseline over the open window
    [(timestamp - 30h, timestamp - 6h)], as the specification writes it. *)
Definition openWindowBaseline (field : UserActionsHourly.t -> number)
    (db : Prisma) (page : string) (timestamp : Z) (recent : UserActionsHourly.t)
  : number :=
  let rows :=
    filter (fun d =>
              (UserActionsHourly.page d =? page)%string
              && (timestamp - 30 * 60 * 60 * 1000 <? UserActionsHourly.timestamp d)%Z
              && (UserActionsHourly.timestamp d <? timestamp - 6 * 60 * 60 * 1000)%Z)
           (userActionsHourly db) in
  match rows with
  | [] => field recent
  | _ => calculateMean (map field rows)
  end.

(** A repository with one user-action row exactly 30 hours before the
    anomalous hour (conversion rate 5) and one in the anomalous hour
    (conversion rate 4). *)
Definition goaActions (h : Z) (conversionRate : number) : UserActionsHourly.t :=
  UserActionsHourly.mk (hours h) "/goa-beach-resort" "Beach" 180 30
                       conversionRate 2 "Desktop" "Direct" "International".

Definition boundaryDb : Prisma :=
  mkPrisma [] [goaActions 70 5; goaActions 100 4] [] [].

Definition goaSurge : AnomalyDetectionResult :=
  mkAnomaly "/goa-beach-resort" "Traffic" "PageViews" 90 40 0 125 (hours 100)
            (mkContext (Some "Desktop") (Some "International") (Some "Direct")
                       (Some "Beach")).

(** The anomalies and insights expected from [sampleDb] at hour 100. *)
Definition trekSurge : AnomalyDetectionResult :=
  trafficAnomaly (trekViews 98 400) 105 10.

Definition bikeSurge : AnomalyDetectionResult :=
  trafficAnomaly (bikeViews 99 51) 50 0.

Definition bikeConversionDrop : AnomalyDetectionResult :=
  metricAnomaly "Conversion" "Conversion Rate" get_conversionRate
                (UserActionsRow (bikeActions 98 1.8)) 3.025 (sqrt 0.021875).

Definition maldivesSlowdown : AnomalyDetectionResult :=
  metricAnomaly "Performance" "Load Time" get_avgLoadTime
                (PerformanceRow (maldivesLoad 98 3000)) 1200 0.

(** What a reader of the response sees first of an insight. *)
Definition headline (insight : BusinessInsight.t) : string * string * string * Z :=
  (BusinessInsight.type insight, BusinessInsight.page insight,
   BusinessInsight.change insight, BusinessInsight.impactScore insight).

(** The insights of the four sample anomalies. *)
Definition trekInsight : BusinessInsight.t :=
  generateTrafficInsight trekSurge "+281%" None.

Definition bikeInsight : BusinessInsight.t :=
  generateTrafficInsight bikeSurge "+2%" None.

Definition bikeConversionInsight : BusinessInsight.t :=
  generateConversionInsight bikeConversionDrop "-40%" None.

Definition maldivesInsight : BusinessInsight.t :=
  generatePerformanceInsight maldivesSlowdown "+150%" None.

(** ** Further notions for the properties of the engine *)

(** The six (metricType, metric) pairs that have an insight template. *)
Definition trackedPairs : list (string * string) :=
  [("Traffic", "PageViews"); ("Performance", "Load Time");
   ("UserActions", "Session Duration"); ("Conversion", "Conversion Rate");
   ("Engagement", "Bounce Rate"); ("Performance", "Error Rate")].

(** The stored row an anomaly record was read from: a page-view row for a
    traffic anomaly, a user-action row for the three engagement metrics, a
    performance row for the two performance metrics.  In each case the record
    carries the row's page, instant and tags (a performance row has no
    referrer). *)
Definition readFromRow (db : Prisma) (a : AnomalyDetectionResult) : Prop :=
  (metricType a = "Traffic"
   /\ exists r, In r (pageViewsHourly db)
        /\ PageViewsHourly.page r = page a
        /\ PageViewsHourly.timestamp r = timestamp a
        /\ IZR (PageViewsHourly.viewCount r) = currentValue a
        /\ context a
           = mkContext (Some (PageViewsHourly.deviceType r))
                       (Some (PageViewsHourly.region r))
                       (Some (PageViewsHourly.referrer r))
                       (Some (PageViewsHourly.pageCategory r)))
  \/ (In (metricType a) ["UserActions"; "Engagement"; "Conversion"]
      /\ exists u, In u (userActionsHourly db)
           /\ UserActionsHourly.page u = page a
           /\ UserActionsHourly.timestamp u = timestamp a
           /\ context a = row_context (UserActionsRow u))
  \/ (metricType a = "Performance"
      /\ exists p, In p (performanceHourly db)
           /\ PerformanceHourly.page p = page a
           /\ PerformanceHourly.timestamp p = timestamp a
           /\ context a = row_context (PerformanceRow p)).

(** Stored rates are percentages: never negative. *)
Definition nonNegativeRates (db : Prisma) : Prop :=
  forall u, In u (userActionsHourly db) ->
            0 <= UserActionsHourly.conversionRate u
            /\ 0 <= UserActionsHourly.bounceRate u.

(** The baseline rows of the correlation helpers for an anomaly. *)
Definition correlationBaselineRows (db : Prisma) (anomaly : AnomalyDetectionResult)
  : list UserActionsHourly.t :=
  findUserActions db (page anomaly)
                  (timestamp anomaly - 30 * 60 * 60 * 1000)%Z
                  (timestamp anomaly - 6 * 60 * 60 * 1000)%Z.

(** The instants of all stored metric rows. *)
Definition storedInstants (db : Prisma) : list Z :=
  map PageViewsHourly.timestamp (pageViewsHourly db)
  ++ map UserActionsHourly.timestamp (userActionsHourly db)
  ++ map PerformanceHourly.timestamp (performanceHourly db).


(** A tag of a combination, when given and not empty, is the tag of the
    record. *)
Definition tagHolds (tag value : option string) : Prop :=
  forall s, tag = Some s -> s <> "" -> value = Some s.

(** An empty tag written as an absent one. *)
Definition dropEmptyTag (tag : option string) : option string :=
  match tag with
  | Some s => if (s =? "")%string then None else Some s
  | None => None
  end.

(** What seeding promises about the values of a row. *)
Definition seededActionValues (u : UserActionsHourly.t) : Prop :=
  66 <= UserActionsHourly.avgSessionDuration u <= 300
  /\ 20 <= UserActionsHourly.bounceRate u <= 63
  /\ 1.24 <= UserActionsHourly.conversionRate u <= 5
  /\ (0 <= UserActionsHourly.conversionCount u)%Z.

Definition seededPerformanceValues (p : PerformanceHourly.t) : Prop :=
  800 <= PerformanceHourly.avgLoadTime p <= 5000
  /\ 0 <= PerformanceHourly.errorRate p <= 2.

(** An instant on the (local) hour within the seeded period. *)
Definition seededInstant (now tz t : Z) : Prop :=
  startOfHour tz t = t
  /\ (now - 49 * (60 * 60 * 1000) < t <= now)%Z.

(** The loop passes that create a user-action row and a performance row. *)
Definition createsActionRow (c : SeedCell) : bool :=
  (cell_j c mod 3 =? 0)%nat && (cell_k c mod 2 =? 0)%nat.

(** ** Notions and sample repositories for the statements in binary64 *)

#[local] Set Warnings "-inexact-float".

(** The baseline observations of the two detection routines of [Binary64]. *)
Definition trafficBaselineValues64 (db : Binary64.Prisma) (page : string)
    (baselineStart baselineEnd : Z) : list float :=
  map (fun d => Binary64.ofInteger (PageViewsHourly.viewCount d))
      (Binary64.findTraffic db page baselineStart (Some baselineEnd)).

Definition metricBaselineValues64 (db : Binary64.Prisma)
    (metricField page : string) (valueExtractor : Binary64.MetricRow -> float)
    (baselineStart baselineEnd : Z) : list float :=
  map valueExtractor
      (Binary64.findMetricRows db metricField page baselineStart
                               (Some baselineEnd)).


(** The user-action row read for an anomaly, and the baseline of one of its
    fields: the mean, as the code sums and divides, over the rows of the page
    stamped from [timestamp - 30h] (included) to [timestamp - 6h] (excluded),
    or the recent value itself when there is no such row. *)
Definition hourBucketRow64 (db : Binary64.Prisma) (tz : Z) (page : string)
    (timestamp : Z) : option Binary64.UserActionsHourly.t :=
  hd_error (Binary64.findUserActions db page (startOfHour tz timestamp)
              (startOfHour tz timestamp + 60 * 60 * 1000)%Z).

Definition windowBaseline64 (field : Binary64.UserActionsHourly.t -> float)
    (db : Binary64.Prisma) (page : string) (timestamp : Z)
    (recent : Binary64.UserActionsHourly.t) : float :=
  let rows :=
    filter (fun d =>
              (Binary64.UserActionsHourly.page d =? page)%string
              && (timestamp - 30 * 60 * 60 * 1000
                  <=? Binary64.UserActionsHourly.timestamp d)%Z
              && (Binary64.UserActionsHourly.timestamp d
                  <? timestamp - 6 * 60 * 60 * 1000)%Z)
           (Binary64.userActionsHourly db) in
  match rows with
  | [] => field recent
  | _ => Binary64.calculateMean (map field rows)
  end.

(** The same baseline over the open window
    [(timestamp - 30h, timestamp - 6h)], as the specification writes it. *)
Definition openWindowBaseline64 (field : Binary64.UserActionsHourly.t -> float)
    (db : Binary64.Prisma) (page : string) (timestamp : Z)
    (recent : Binary64.UserActionsHourly.t) : float :=
  let rows :=
    filter (fun d =>
              (Binary64.UserActionsHourly.page d =? page)%string
              && (timestamp - 30 * 60 * 60 * 1000
                  <? Binary64.UserActionsHourly.timestamp d)%Z
              && (Binary64.UserActionsHourly.timestamp d
                  <? timestamp - 6 * 60 * 60 * 1000)%Z)
           (Binary64.userActionsHourly db) in
  match rows with
  | [] => field recent
  | _ => Binary64.calculateMean (map field rows)
  end.

(** The sample repository with its rates as binary64 values. *)
Definition bikeActions64 (h : Z) (conversionRate : float)
  : Binary64.UserActionsHourly.t :=
  Binary64.UserActionsHourly.mk (hours h) "/ladakh-bike-trip" "Adventure" 200 35
                                conversionRate 4 "Desktop" "Google" "North India".

Definition maldivesLoad64 (h : Z) (avgLoadTime : float)
  : Binary64.PerformanceHourly.t :=
  Binary64.PerformanceHourly.mk (hours h) "/maldives-packages" "Beach"
                                avgLoadTime 1 "Mobile" "International".

Definition sampleDb64 : Binary64.Prisma :=
  Binary64.mkPrisma
    (pageViewsHourly sampleDb)
    [bikeActions64 80 3.0; bikeActions64 81 3.2; bikeActions64 82 2.8;
     bikeActions64 83 3.1; bikeActions64 98 1.8]
    [maldivesLoad64 80 1200; maldivesLoad64 81 1200; maldivesLoad64 82 1200;
     maldivesLoad64 98 3000].

(** Page views whose baseline has mean 4/3 and standard deviation 2/3, with a
    recent count of 3: in exact arithmetic the deviation 5/3 equals the
    threshold 2.5 * 2/3. *)
Definition thirdsViews : list PageViewsHourly.t :=
  [goaViews 71 1; goaViews 72 1; goaViews 73 1; goaViews 74 1; goaViews 75 1;
   goaViews 76 1; goaViews 77 1; goaViews 78 2; goaViews 79 3; goaViews 98 3].

Definition thirdsDb : Prisma := mkPrisma thirdsViews [] [] [].
Definition thirdsDb64 : Binary64.Prisma := Binary64.mkPrisma thirdsViews [] [].

(** Page views with a baseline of 40 and a recent count of 63: the exact
    change is 57.5 percent. *)
Definition fortyDb64 : Binary64.Prisma :=
  Binary64.mkPrisma [goaViews 80 40; goaViews 81 40; goaViews 98 63] [] [].

(** Six baseline hours with the one conversion rate 2.04, and a recent rate
    one unit in the last place above it. *)
Definition goaActions64 (h : Z) (conversionRate bounceRate : float)
  : Binary64.UserActionsHourly.t :=
  Binary64.UserActionsHourly.mk (hours h) "/goa-beach-resort" "Beach" 180
                                bounceRate conversionRate 2 "Desktop" "Direct"
                                "International".


(** The repository of [boundaryDb]: one row exactly 30 hours before the
    anomalous hour. *)
Definition boundaryDb64 : Binary64.Prisma :=
  Binary64.mkPrisma [] [goaActions64 70 5 30; goaActions64 100 4 30] [].

(** Baseline conversion rates 1.9 and 2.5 (exact mean 2.2, of which nine
    tenths are 1.98) with a recent rate of 1.98, and a bounce rate that was 0
    throughout the baseline. *)
Definition thresholdDb64 : Binary64.Prisma :=
  Binary64.mkPrisma []
    [goaActions64 80 1.9 0; goaActions64 81 2.5 0; goaActions64 100 1.98 5] [].

Definition goaSurge64 : Binary64.AnomalyDetectionResult :=
  Binary64.mkAnomaly "/goa-beach-resort" "Traffic" "PageViews" 90 40 0 125
                     (hours 100)
                     (mkContext (Some "Desktop") (Some "International")
                                (Some "Direct") (Some "Beach")).

Definition goaSlowdown64 : Binary64.AnomalyDetectionResult :=
  Binary64.mkAnomaly "/goa-beach-resort" "Performance" "Load Time" 3000 1200 0
                     150 (hours 100)
                     (mkContext (Some "Desktop") (Some "International") None
                                (Some "Beach")).





(** * Properties *)

(** ** Comparisons and rounding *)

Lemma num_gt_true (a b : number) : num_gt a b = true <-> a > b.
Proof.
  unfold num_gt; destruct (Rgt_dec a b); split; intros; auto; discriminate.
Qed.

Lemma num_gt_false (a b : number) : num_gt a b = false <-> a <= b.
Proof.
  unfold num_gt; destruct (Rgt_dec a b); split; intros; auto;
    try discriminate; lra.
Qed.

Lemma num_lt_true (a b : number) : num_lt a b = true <-> a < b.
Proof.
  unfold num_lt; destruct (Rlt_dec a b); split; intros; auto; discriminate.
Qed.

Lemma num_lt_false (a b : number) : num_lt a b = false <-> b <= a.
Proof.
  unfold num_lt; destruct (Rlt_dec a b); split; intros; auto;
    try discriminate; lra.
Qed.

Lemma flagged_spec (V M S : number) :
  flagged V M S = true <-> Rabs (V - M) > 2.5 * S /\ M > 0.
Proof.
  unfold flagged; rewrite andb_true_iff, !num_gt_true; tauto.
Qed.

Lemma Math_round_eq (x : number) (z : Z) :
  IZR z - / 2 <= x < IZR z + / 2 -> Math_round x = z.
Proof.
  intros H; unfold Math_round; apply Zfloor_eq; lra.
Qed.

Lemma Math_round_between (x : number) (lo hi : Z) :
  IZR lo <= x <= IZR hi -> (lo <= Math_round x <= hi)%Z.
Proof.
  intros [Hlo Hhi]; unfold Math_round; split.
  - apply Zfloor_lub; lra.
  - assert (Hle : (Zfloor (x + / 2) <= Zfloor (IZR hi + / 2))%Z)
      by (apply Zfloor_le; lra).
    rewrite (Zfloor_eq hi (IZR hi + / 2)) in Hle by lra; exact Hle.
Qed.

(** ** Statistics *)

Lemma fold_left_sum_shift (l : list number) (a : number) :
  fold_left (fun sum val => sum + val) l a
  = a + fold_left (fun sum val => sum + val) l 0.
Proof.
  revert a; induction l as [|x l IH]; intros a; simpl.
  - lra.
  - rewrite (IH (a + x)), (IH (0 + x)); lra.
Qed.

Lemma fold_left_sum_const (l : list number) (m : number) :
  Forall (fun v => v = m) l ->
  fold_left (fun sum val => sum + val) l 0 = INR (List.length l) * m.
Proof.
  induction 1 as [|x l Hx _ IH].
  - simpl; lra.
  - cbn [fold_left]; rewrite fold_left_sum_shift, IH.
    change (List.length (x :: l)) with (S (List.length l)).
    rewrite S_INR; subst x; lra.
Qed.

Lemma fold_left_sq_const (l : list number) (m a : number) :
  Forall (fun v => v = m) l ->
  fold_left (fun sum val => sum + (val - m) * (val - m)) l a = a.
Proof.
  intros H; revert a; induction H as [|x l Hx _ IH]; intros a; simpl.
  - reflexivity.
  - rewrite IH; subst x; ring.
Qed.

Lemma INR_length_pos {A : Type} (l : list A) : l <> [] -> 0 < INR (List.length l).
Proof.
  destruct l as [|x l]; [congruence|intros _].
  change (List.length (x :: l)) with (S (List.length l)).
  rewrite S_INR; generalize (pos_INR (List.length l)); lra.
Qed.

(** A baseline whose observations all equal [m] has mean [m] ... *)
Lemma calculateMean_const (values : list number) (m : number) :
  values <> [] -> Forall (fun v => v = m) values -> calculateMean values = m.
Proof.
  intros Hne Hall; unfold calculateMean.
  destruct values as [|x l] eqn:E; [congruence|]; rewrite <- E in *.
  rewrite (fold_left_sum_const values m) by assumption.
  pose proof (INR_length_pos values Hne); field; lra.
Qed.

(** ... and population standard deviation [0]. *)
Lemma calculateStdDev_const (values : list number) (m : number) :
  Forall (fun v => v = m) values -> calculateStdDev values m = 0.
Proof.
  intros Hall; unfold calculateStdDev.
  destruct values as [|x l] eqn:E; [reflexivity|]; rewrite <- E in *.
  rewrite (fold_left_sq_const values m 0) by assumption.
  unfold Rdiv; rewrite Rmult_0_l; apply sqrt_0.
Qed.


(** ** Detection loops *)

Lemma map_neq_nil {A B : Type} (f : A -> B) (l : list A) :
  map f l <> [] -> l <> [].
Proof. destruct l; simpl; congruence. Qed.

Lemma findMetricRows_family (db : Prisma) (metricField page : string)
    (gte : Z) (lt : option Z) (d : MetricRow) :
  In d (findMetricRows db metricField page gte lt) ->
  if usesUserActions metricField
  then exists u, d = UserActionsRow u
  else exists p, d = PerformanceRow p.
Proof.
  unfold findMetricRows; destruct (usesUserActions metricField);
    rewrite in_map_iff; intros [x [<- _]]; eauto.
Qed.

(** The table each of the five metric fields is read from. *)
Lemma metric_field_tables :
  usesUserActions "avgSessionDuration" = true
  /\ usesUserActions "bounceRate" = true
  /\ usesUserActions "conversionRate" = true
  /\ usesUserActions "avgLoadTime" = false
  /\ usesUserActions "errorRate" = false.
Proof. repeat split; reflexivity. Qed.

Lemma detectTrafficAnomalies_unfold (db : Prisma) (page : string)
    (recentStart baselineStart baselineEnd : Z) :
  let values := trafficBaselineValues db page baselineStart baselineEnd in
  let M := calculateMean values in
  let S := calculateStdDev values M in
  values <> [] ->
  detectTrafficAnomalies db page recentStart baselineStart baselineEnd
  = flat_map (fun recent =>
                if flagged (IZR (PageViewsHourly.viewCount recent)) M S
                then [trafficAnomaly recent M S] else [])
             (findTraffic db page recentStart None).
Proof.
  intros values M S Hne; apply map_neq_nil in Hne.
  subst S M values; unfold detectTrafficAnomalies, trafficBaselineValues, flagged.
  destruct (findTraffic db page baselineStart (Some baselineEnd));
    [congruence|reflexivity].
Qed.

Lemma detectMetricAnomaly_unfold (db : Prisma) (page : string)
    (recentStart baselineStart baselineEnd : Z)
    (metricField metricType metricName : string)
    (valueExtractor : MetricRow -> number) :
  let values :=
    metricBaselineValues db metricField page valueExtractor
                         baselineStart baselineEnd in
  let M := calculateMean values in
  let S := calculateStdDev values M in
  values <> [] ->
  detectMetricAnomaly db page recentStart baselineStart baselineEnd
                      metricField metricType metricName valueExtractor
  = flat_map (fun recent =>
                if flagged (valueExtractor recent) M S
                then [metricAnomaly metricType metricName valueExtractor
                                    recent M S]
                else [])
             (findMetricRows db metricField page recentStart None).
Proof.
  intros values M S Hne; apply map_neq_nil in Hne.
  subst S M values; unfold detectMetricAnomaly, metricBaselineValues, flagged.
  destruct (findMetricRows db metricField page baselineStart (Some baselineEnd));
    [congruence|reflexivity].
Qed.

(** Membership in the output of a flag-and-push loop. *)
Lemma in_flag_loop {A : Type} (value : A -> number)
    (mk : A -> AnomalyDetectionResult) (M S : number) (l : list A)
    (a : AnomalyDetectionResult) :
  In a (flat_map (fun r => if flagged (value r) M S then [mk r] else []) l)
  <-> exists r, In r l /\ flagged (value r) M S = true /\ a = mk r.
Proof.
  rewrite in_flat_map; split.
  - intros [r [Hin Ha]]; exists r.
    destruct (flagged (value r) M S); simpl in Ha; [|tauto].
    destruct Ha as [<-|[]]; auto.
  - intros [r [Hin [Hf ->]]]; exists r; rewrite Hf; simpl; auto.
Qed.

Lemma flag_loop_nil {A : Type} (value : A -> number)
    (mk : A -> AnomalyDetectionResult) (M S : number) (l : list A) :
  M <= 0 ->
  flat_map (fun r => if flagged (value r) M S then [mk r] else []) l = [].
Proof.
  intros HM; induction l as [|r l IH]; simpl; [reflexivity|].
  rewrite IH; unfold flagged.
  replace (num_gt M 0) with false by (symmetry; apply num_gt_false; exact HM).
  rewrite andb_false_r; reflexivity.
Qed.

Lemma traffic_detection_sound_complete (db : Prisma) (page : string)
    (recentStart baselineStart baselineEnd : Z) :
  let values := trafficBaselineValues db page baselineStart baselineEnd in
  let M := calculateMean values in
  let S := calculateStdDev values M in
  let out :=
    detectTrafficAnomalies db page recentStart baselineStart baselineEnd in
  values <> [] ->
  (forall recent,
     In recent (findTraffic db page recentStart None) ->
     let V := IZR (PageViewsHourly.viewCount recent) in
     (In (trafficAnomaly recent M S) out <-> Rabs (V - M) > 2.5 * S /\ M > 0)
     /\ percentageChange (trafficAnomaly recent M S) = (V - M) / M * 100)
  /\ (forall a, In a out ->
        exists recent,
          In recent (findTraffic db page recentStart None)
          /\ a = trafficAnomaly recent M S)
  /\ (M <= 0 -> out = []).
Proof.
  intros values M S out Hne; subst out.
  rewrite (detectTrafficAnomalies_unfold db page recentStart baselineStart
             baselineEnd Hne); fold values M S.
  split; [|split].
  - intros recent Hin V; split; [|reflexivity].
    rewrite in_flag_loop, <- flagged_spec; split.
    + intros [r [_ [Hf Heq]]].
      apply (f_equal currentValue) in Heq; simpl in Heq.
      fold V in Heq; rewrite Heq; exact Hf.
    + intros Hf; exists recent; auto.
  - intros a Ha; apply in_flag_loop in Ha.
    destruct Ha as [r [Hin [_ ->]]]; eauto.
  - apply flag_loop_nil.
Qed.

(** ** Statistics of the sample baselines, in exact arithmetic *)

Lemma sample_traffic_mean : calculateMean [100; 120; 110; 90; 105] = 105.
Proof. unfold calculateMean; simpl; lra. Qed.

Lemma sample_traffic_stddev : calculateStdDev [100; 120; 110; 90; 105] 105 = 10.
Proof.
  unfold calculateStdDev; simpl.
  replace (_ / _) with (10 * 10) by lra.
  apply sqrt_square; lra.
Qed.

Lemma sample_conversion_mean : calculateMean [3.0; 3.2; 2.8; 3.1] = 3.025.
Proof. unfold calculateMean; simpl; lra. Qed.

Lemma sample_conversion_stddev :
  calculateStdDev [3.0; 3.2; 2.8; 3.1] 3.025 = sqrt 0.021875.
Proof. unfold calculateStdDev; simpl; f_equal; lra. Qed.

Lemma sqrt_lt_of_sq (x y : R) : 0 <= x -> 0 < y -> x < y * y -> sqrt x < y.
Proof.
  intros Hx Hy Hlt.
  rewrite <- (sqrt_square y) by lra.
  apply sqrt_lt_1_alt; lra.
Qed.

(** ** C6: the impact score *)

Lemma criticalityScore_spec (type : string) :
  criticalityIs type (criticalityScore type).
Proof.
  unfold criticalityScore.
  destruct (includes "Conversion" type) eqn:Hc; simpl.
  { apply criticality_high; auto. }
  destruct (includes "Error" type) eqn:He; simpl.
  { apply criticality_high; auto. }
  destruct (includes "Performance" type) eqn:Hp; simpl.
  { apply criticality_medium_high; auto. }
  destruct (includes "Engagement" type) eqn:Hg; simpl.
  { apply criticality_medium_high; auto. }
  destruct (includes "Traffic" type) eqn:Ht.
  - apply criticality_medium; auto.
  - apply criticality_default; auto.
Qed.

Lemma criticalityIs_range (type : string) (c : number) :
  criticalityIs type c -> 50 <= c <= 90.
Proof. destruct 1; lra. Qed.

Lemma magnitude_range (percentageChange : number) :
  0 <= Rmin (Rabs percentageChange / 5) 100 <= 100.
Proof.
  pose proof (Rabs_pos percentageChange).
  unfold Rmin; destruct (Rle_dec _ _); lra.
Qed.

Lemma recency_range (hoursAgo : number) :
  0 <= hoursAgo -> 0 <= Rmax 0 (100 - hoursAgo * 10) <= 100.
Proof.
  intros H; unfold Rmax; destruct (Rle_dec _ _); lra.
Qed.

Lemma hoursAgo_nonneg (now detectedAt : Z) :
  (detectedAt <= now)%Z -> 0 <= (IZR now - IZR detectedAt) / (1000 * 60 * 60).
Proof.
  intros H; apply IZR_le in H.
  apply Rmult_le_pos; [lra|].
  apply Rlt_le, Rinv_0_lt_compat; lra.
Qed.

(** C6. Whatever the percentage change of the matching anomaly (or without
    one) and whatever the insight type, an insight scored no earlier than it
    was detected gets an integer score between 0 and 100. *)
Theorem C6_impact_score_in_range :
  forall (insight : BusinessInsight.t)
         (allAnomalies : list AnomalyDetectionResult) (now : Z),
    (BusinessInsight.detectedAt insight <= now)%Z ->
    (0 <= calculateImpactScore insight allAnomalies now <= 100)%Z.
Proof.
  intros insight allAnomalies now Hnow.
  unfold calculateImpactScore.
  destruct (findAnomalyFor insight allAnomalies) as [anomaly|]; [|lia].
  pose proof (magnitude_range (percentageChange anomaly)).
  pose proof (recency_range _ (hoursAgo_nonneg _ _ Hnow)).
  pose proof (criticalityIs_range _ _
                (criticalityScore_spec (BusinessInsight.type insight))).
  apply Math_round_between; lra.
Qed.

Lemma C6_impact_score_in_range_witness :
  (0 <= calculateImpactScore surgeInsight [surgeAnomaly] (hours 100) <= 100)%Z.
Proof.
  apply (C6_impact_score_in_range surgeInsight [surgeAnomaly] (hours 100)).
  vm_compute; discriminate.
Defined.

(** ** C3: ranking *)

Section Sorting.
Context {A : Type} (cmp : A -> A -> Z).

(** [a] may stand before [b]. *)
Let before (a b : A) : Prop := (cmp a b <= 0)%Z.

Hypothesis cmp_total : forall a b, (0 < cmp a b)%Z -> (cmp b a <= 0)%Z.

Lemma insertBy_perm (x : A) (l : list A) : Permutation (insertBy cmp x l) (x :: l).
Proof.
  induction l as [|y l IH]; simpl; [reflexivity|].
  destruct (cmp x y <=? 0)%Z; [reflexivity|].
  rewrite IH; apply perm_swap.
Qed.

Lemma jsSort_perm (l : list A) : Permutation (jsSort cmp l) l.
Proof.
  induction l as [|x l IH]; simpl; [reflexivity|].
  rewrite insertBy_perm; constructor; exact IH.
Qed.

Lemma insertBy_hdrel (x y : A) (l : list A) :
  before y x -> HdRel before y l -> HdRel before y (insertBy cmp x l).
Proof.
  intros Hyx Hl; destruct l as [|z l]; simpl; [constructor; exact Hyx|].
  destruct (cmp x z <=? 0)%Z; constructor; auto.
  inversion Hl; assumption.
Qed.

Lemma insertBy_sorted (x : A) (l : list A) :
  Sorted before l -> Sorted before (insertBy cmp x l).
Proof.
  induction 1 as [|y l Hs IH Hhd]; simpl; [repeat constructor|].
  destruct (cmp x y <=? 0)%Z eqn:E.
  - constructor; [constructor; assumption|].
    constructor; apply Z.leb_le; exact E.
  - constructor; [exact IH|].
    apply insertBy_hdrel; [|exact Hhd].
    apply cmp_total; apply Z.leb_gt in E; lia.
Qed.

Lemma jsSort_sorted (l : list A) : Sorted before (jsSort cmp l).
Proof.
  induction l as [|x l IH]; simpl; [constructor|].
  apply insertBy_sorted; exact IH.
Qed.

End Sorting.

Lemma byImpactDesc_total (a b : BusinessInsight.t) :
  (0 < byImpactDesc a b)%Z -> (byImpactDesc b a <= 0)%Z.
Proof. unfold byImpactDesc; lia. Qed.

Lemma scoreGe_trans : Relations_1.Transitive scoreGe.
Proof. unfold Relations_1.Transitive, scoreGe; intros; lia. Qed.

Lemma jsSort_byImpactDesc_sorted (l : list BusinessInsight.t) :
  StronglySorted scoreGe (jsSort byImpactDesc l).
Proof.
  apply Sorted_StronglySorted; [exact scoreGe_trans|].
  pose proof (jsSort_sorted byImpactDesc byImpactDesc_total l) as H.
  eapply Sorted_ind with (P := Sorted scoreGe); [constructor| |exact H].
  intros a l' _ IH Hhd; constructor; [exact IH|].
  destruct Hhd as [|b l'' Hab]; constructor.
  unfold scoreGe; unfold byImpactDesc in Hab; lia.
Qed.

Lemma in_firstn {A : Type} (n : nat) (l : list A) (x : A) :
  In x (firstn n l) -> In x l.
Proof.
  revert n; induction l as [|y l IH]; intros [|n]; simpl; try tauto.
  intros [->|H]; eauto.
Qed.

Lemma in_skipn {A : Type} (n : nat) (l : list A) (x : A) :
  In x (skipn n l) -> In x l.
Proof.
  revert n; induction l as [|y l IH]; intros [|n]; simpl; try tauto.
  intros H; eauto.
Qed.

Lemma StronglySorted_firstn {A : Type} (R : A -> A -> Prop) (n : nat)
    (l : list A) :
  StronglySorted R l -> StronglySorted R (firstn n l).
Proof.
  intros H; revert n; induction H as [|x l Hs IH Hall]; intros n.
  - rewrite firstn_nil; constructor.
  - destruct n as [|n]; simpl; constructor; [apply IH|].
    rewrite Forall_forall in *; intros y Hy.
    apply Hall; eapply in_firstn; exact Hy.
Qed.

Lemma StronglySorted_split {A : Type} (R : A -> A -> Prop) (n : nat)
    (l : list A) :
  StronglySorted R l ->
  forall x y, In x (firstn n l) -> In y (skipn n l) -> R x y.
Proof.
  intros H; revert n; induction H as [|z l Hs IH Hall]; intros n x y Hx Hy.
  - rewrite firstn_nil in Hx; destruct Hx.
  - destruct n as [|n]; simpl in Hx, Hy; [destruct Hx|].
    destruct Hx as [<-|Hx].
    + rewrite Forall_forall in Hall; apply Hall.
      eapply in_skipn; exact Hy.
    + eapply IH; eauto.
Qed.

Lemma scoreInsights_length (nowAt : nat -> Z) (i : nat)
    (l : list BusinessInsight.t) (anomalies : list AnomalyDetectionResult) :
  List.length (scoreInsights nowAt i l anomalies) = List.length l.
Proof.
  revert i; induction l as [|x l IH]; intros i; simpl; [|rewrite IH];
    reflexivity.
Qed.

(** What [sort] followed by [slice(0, 5)] guarantees for any scored list. *)
Lemma top5_ranking (scored : list BusinessInsight.t) :
  let out := firstn 5 (jsSort byImpactDesc scored) in
  StronglySorted scoreGe out
  /\ (List.length out <= 5)%nat
  /\ (List.length out <= List.length scored)%nat
  /\ (exists dropped,
        Permutation (out ++ dropped) scored
        /\ forall x y, In x out -> In y dropped -> scoreGe x y)
  /\ ((List.length scored <= 5)%nat -> Permutation out scored)
  /\ (scored = [] -> out = []).
Proof.
  intros out; subst out.
  pose proof (jsSort_byImpactDesc_sorted scored) as Hs.
  pose proof (jsSort_perm byImpactDesc scored) as Hp.
  pose proof (Permutation_length Hp) as Hlen.
  repeat split.
  - apply StronglySorted_firstn; exact Hs.
  - apply firstn_le_length.
  - rewrite length_firstn; lia.
  - exists (skipn 5 (jsSort byImpactDesc scored)); split.
    + rewrite firstn_skipn; exact Hp.
    + apply StronglySorted_split; exact Hs.
  - intros Hle; rewrite firstn_all2 by lia; exact Hp.
  - intros ->; reflexivity.
Qed.

(** C3. The ranked output of [generateBusinessInsights] is sorted by impact
    score in descending order, has at most 5 entries and never more than the
    scored insights it was produced from; it is the top of that list (what is
    dropped scores no higher than what is kept); when fewer than 5 insights
    exist all of them are returned, and when none exist the result is empty. *)
Theorem C3_ranked_output_sorted_top5 :
  forall (db : Prisma) (tz nowAggregated nowGranular : Z) (nowScoring : nat -> Z),
    let found := insightsOf db tz nowAggregated nowGranular in
    let scored := scoredInsightsOf db tz nowAggregated nowGranular nowScoring in
    let out :=
      generateBusinessInsights db tz nowAggregated nowGranular nowScoring in
    StronglySorted scoreGe out
    /\ (List.length out <= 5)%nat
    /\ (List.length out <= List.length scored)%nat
    /\ List.length scored = List.length found
    /\ (exists dropped,
          Permutation (out ++ dropped) scored
          /\ forall x y, In x out -> In y dropped -> scoreGe x y)
    /\ ((List.length found < 5)%nat ->
        Permutation out scored /\ List.length out = List.length found)
    /\ (found = [] -> out = []).
Proof.
  intros db tz nowAggregated nowGranular nowScoring found scored out.
  assert (Hlen : List.length scored = List.length found)
    by apply scoreInsights_length.
  destruct (top5_ranking scored) as [Hs [H5 [Hle [Hdrop [Hall Hnil]]]]].
  fold out in Hs, H5, Hle, Hdrop, Hall, Hnil |- *.
  repeat split; auto.
  - apply Hall; lia.
  - rewrite <- Hlen; apply Permutation_length, Hall; lia.
  - intros Hfound; apply Hnil.
    destruct scored; [reflexivity|].
    rewrite Hfound in Hlen; discriminate.
Qed.

(** ** C4: deduplication *)

Lemma seen_has (seen : list string) (key : string) :
  existsb (String.eqb key) seen = true <-> In key seen.
Proof.
  rewrite existsb_exists; split.
  - intros [k [Hin Heq]]; apply String.eqb_eq in Heq; subst; exact Hin.
  - intros Hin; exists key; split; [exact Hin|apply String.eqb_refl].
Qed.

Lemma seen_has_not (seen : list string) (key : string) :
  existsb (String.eqb key) seen = false <-> ~ In key seen.
Proof.
  rewrite <- seen_has; destruct (existsb _ seen); split; intros; auto;
    try discriminate; exfalso; auto.
Qed.

(** The loop, started in any state, appends the first occurrences. *)
Lemma dedup_loop (l : list AnomalyDetectionResult) :
  forall seen unique,
    snd (fold_left dedupStep l (seen, unique))
    = unique ++ firstOccurrences seen l.
Proof.
  induction l as [|a l IH]; intros seen unique; simpl.
  - rewrite app_nil_r; reflexivity.
  - destruct (existsb (String.eqb (anomalyKey a)) seen); simpl.
    + apply IH.
    + rewrite IH, <- app_assoc; reflexivity.
Qed.

Lemma deduplicateAnomalies_firstOccurrences (l : list AnomalyDetectionResult) :
  deduplicateAnomalies l = firstOccurrences [] l.
Proof. unfold deduplicateAnomalies; rewrite dedup_loop; reflexivity. Qed.

Lemma firstOccurrences_ext (l : list AnomalyDetectionResult) :
  forall s1 s2,
    (forall k, In k s1 <-> In k s2) ->
    firstOccurrences s1 l = firstOccurrences s2 l.
Proof.
  induction l as [|a l IH]; intros s1 s2 Hs; simpl; [reflexivity|].
  destruct (existsb (String.eqb (anomalyKey a)) s1) eqn:E1.
  - apply seen_has in E1; apply Hs in E1; apply seen_has in E1.
    rewrite E1; apply IH; exact Hs.
  - apply seen_has_not in E1.
    assert (E2 : existsb (String.eqb (anomalyKey a)) s2 = false)
      by (apply seen_has_not; rewrite <- Hs; exact E1).
    rewrite E2; f_equal; apply IH.
    intros k; simpl; rewrite Hs; tauto.
Qed.

Lemma firstOccurrences_app (l1 l2 : list AnomalyDetectionResult) :
  forall seen,
    firstOccurrences seen (l1 ++ l2)
    = firstOccurrences seen l1
      ++ firstOccurrences (map anomalyKey l1 ++ seen) l2.
Proof.
  induction l1 as [|a l1 IH]; intros seen; simpl; [reflexivity|].
  destruct (existsb (String.eqb (anomalyKey a)) seen) eqn:E.
  - rewrite IH; f_equal; apply firstOccurrences_ext.
    apply seen_has in E; intros k; simpl; rewrite !in_app_iff.
    split; [tauto|intros [<-|H]; tauto].
  - simpl; rewrite IH; do 2 f_equal; apply firstOccurrences_ext.
    intros k; simpl; rewrite !in_app_iff; simpl; tauto.
Qed.

Lemma firstOccurrences_covered (l : list AnomalyDetectionResult) :
  forall seen,
    (forall a, In a l -> In (anomalyKey a) seen) ->
    firstOccurrences seen l = [].
Proof.
  induction l as [|a l IH]; intros seen Hcov; simpl; [reflexivity|].
  replace (existsb (String.eqb (anomalyKey a)) seen) with true
    by (symmetry; apply seen_has, Hcov; left; reflexivity).
  apply IH; intros b Hb; apply Hcov; right; exact Hb.
Qed.

(** An element is kept exactly when one of its occurrences has a fresh key
    that no earlier element carries. *)
Lemma in_firstOccurrences (l : list AnomalyDetectionResult) :
  forall seen a,
    In a (firstOccurrences seen l)
    <-> exists pre post,
          l = pre ++ a :: post
          /\ ~ In (anomalyKey a) seen
          /\ forall b, In b pre -> anomalyKey b <> anomalyKey a.
Proof.
  induction l as [|x l IH]; intros seen a; simpl.
  - split; [tauto|].
    intros [pre [post [H _]]]; destruct pre; discriminate.
  - destruct (existsb (String.eqb (anomalyKey x)) seen) eqn:E.
    + apply seen_has in E; rewrite IH; split.
      * intros [pre [post [-> [Hs Hpre]]]].
        exists (x :: pre), post; repeat split; auto.
        intros b [<-|Hb]; [congruence|auto].
      * intros [pre [post [Hl [Hs Hpre]]]].
        destruct pre as [|y pre]; simpl in Hl; inversion Hl; subst.
        { tauto. }
        exists pre, post; repeat split; auto.
        intros b Hb; apply Hpre; right; exact Hb.
    + apply seen_has_not in E; simpl; rewrite IH; split.
      * intros [<-|[pre [post [-> [Hs Hpre]]]]].
        { exists [], l; repeat split; auto; intros b []. }
        exists (x :: pre), post; simpl in Hs; repeat split; auto.
        intros b [<-|Hb]; [intuition congruence|auto].
      * intros [pre [post [Hl [Hs Hpre]]]].
        destruct pre as [|y pre]; simpl in Hl; inversion Hl; subst; auto.
        right; exists pre, post; repeat split.
        { simpl; intros [Hk|Hk]; [|tauto].
          apply (Hpre y); [left; reflexivity|exact Hk]. }
        intros b Hb; apply Hpre; right; exact Hb.
Qed.

Lemma firstOccurrences_NoDup (l : list AnomalyDetectionResult) :
  forall seen, NoDup (map anomalyKey (firstOccurrences seen l)).
Proof.
  induction l as [|x l IH]; intros seen; simpl; [constructor|].
  destruct (existsb (String.eqb (anomalyKey x)) seen); [apply IH|].
  simpl; constructor; [|apply IH].
  rewrite in_map_iff; intros [b [Hk Hb]].
  apply in_firstOccurrences in Hb.
  destruct Hb as [_ [_ [_ [Hs _]]]]; apply Hs; left; congruence.
Qed.

Lemma anomalyKey_determined (a b : AnomalyDetectionResult) :
  page a = page b -> metric a = metric b -> timestamp a = timestamp b ->
  anomalyKey a = anomalyKey b.
Proof. unfold anomalyKey; intros -> -> ->; reflexivity. Qed.

(** *** The key text determines page, metric and instant *)

Lemma append_assoc (a b c : string) :
  ((a ++ b) ++ c = a ++ (b ++ c))%string.
Proof. induction a as [|x a IH]; simpl; [|rewrite IH]; reflexivity. Qed.

Lemma noHyphen_append_hyphen (x u : string) :
  noHyphen (x ++ String "-" u) = false.
Proof.
  induction x as [|c x IH]; simpl; [reflexivity|].
  rewrite IH; apply andb_false_r.
Qed.

(** A text splits in one way only at its last hyphen. *)
Lemma split_last_hyphen (x y u v : string) :
  noHyphen u = true -> noHyphen v = true ->
  (x ++ String "-" u = y ++ String "-" v)%string ->
  x = y /\ u = v.
Proof.
  intros Hu Hv; revert y; induction x as [|c x IH]; intros [|d y] H;
    simpl in H.
  - inversion H; auto.
  - inversion H as [[Hc Hrest]]; subst u.
    rewrite noHyphen_append_hyphen in Hu; discriminate.
  - inversion H as [[Hc Hrest]]; subst v.
    rewrite noHyphen_append_hyphen in Hv; discriminate.
  - inversion H as [[Hc Hrest]].
    destruct (IH y Hrest) as [-> ->]; auto.
Qed.

Lemma digits_noHyphen (d : Decimal.uint) :
  noHyphen (NilEmpty.string_of_uint d) = true.
Proof. induction d; simpl; auto. Qed.

Lemma uint_text (d : Decimal.uint) :
  noHyphen (NilZero.string_of_uint d) = true
  /\ NilZero.string_of_uint d <> "".
Proof.
  destruct d; simpl; try (split; [apply digits_noHyphen|discriminate]).
  split; [reflexivity|discriminate].
Qed.

(** The rendering of an instant: an optional minus sign, then digits. *)
Lemma numberToString_shape (z : Z) :
  exists sign digits,
    numberToString z = (sign ++ digits)%string
    /\ (sign = "" \/ sign = "-")
    /\ noHyphen digits = true /\ digits <> "".
Proof.
  unfold numberToString; destruct z as [|p|p]; simpl.
  - exists "", "0"; repeat split; auto; discriminate.
  - exists "", (NilZero.string_of_uint (Pos.to_uint p)).
    destruct (uint_text (Pos.to_uint p)); auto.
  - exists "-", (NilZero.string_of_uint (Pos.to_uint p)).
    destruct (uint_text (Pos.to_uint p)); auto.
Qed.

Lemma numberToString_inj (z z' : Z) :
  numberToString z = numberToString z' -> z = z'.
Proof.
  unfold numberToString; intros H.
  apply DecimalZ.to_int_inj.
  assert (Hnn : forall n, Z.to_int n <> Decimal.Pos Decimal.Nil
                          /\ Z.to_int n <> Decimal.Neg Decimal.Nil).
  { intros [|p|p]; simpl; split; try discriminate;
      intros [= E]; exact (DecimalPos.Unsigned.to_uint_nonnil p E). }
  apply (f_equal NilZero.int_of_string) in H.
  rewrite !NilZero.isi in H by apply Hnn.
  congruence.
Qed.

(** The text before the digits: [page-metric-] or [page-metric--]. *)
Lemma key_prefix_inj (p p' m m' sign sign' : string) :
  plainLabel m -> plainLabel m' ->
  sign = "" \/ sign = "-" -> sign' = "" \/ sign' = "-" ->
  (p ++ "-" ++ m ++ "-" ++ sign = p' ++ "-" ++ m' ++ "-" ++ sign')%string ->
  p = p' /\ m = m' /\ sign = sign'.
Proof.
  intros [Hm Hmh] [Hm' Hmh'] Hs Hs' H.
  assert (Hsplit : forall (q n : string),
             (q ++ "-" ++ n ++ "-" ++ "" = (q ++ "-" ++ n) ++ String "-" "")%string).
  { intros; rewrite !append_assoc; reflexivity. }
  assert (Hsplit2 : forall (q n : string),
             (q ++ "-" ++ n ++ "-" ++ "-"
              = (q ++ "-" ++ n ++ "-") ++ String "-" "")%string).
  { intros; rewrite !append_assoc; reflexivity. }
  assert (Hpm : forall q n q' n',
             noHyphen n = true -> noHyphen n' = true ->
             (q ++ "-" ++ n = q' ++ "-" ++ n')%string -> q = q' /\ n = n').
  { intros q n q' n' Hn Hn' E; apply (split_last_hyphen q q' n n'); auto. }
  destruct Hs as [-> | ->], Hs' as [-> | ->].
  - rewrite !Hsplit in H.
    apply split_last_hyphen in H; auto; destruct H as [H _].
    apply Hpm in H; tauto.
  - rewrite Hsplit, Hsplit2 in H.
    apply split_last_hyphen in H; auto; destruct H as [H _].
    change (p' ++ "-" ++ m' ++ "-")%string
      with (p' ++ "-" ++ m' ++ "-" ++ "")%string in H.
    rewrite Hsplit in H.
    apply split_last_hyphen in H; auto; destruct H as [_ H]; congruence.
  - rewrite Hsplit, Hsplit2 in H.
    apply split_last_hyphen in H; auto; destruct H as [H _].
    change (p ++ "-" ++ m ++ "-")%string
      with (p ++ "-" ++ m ++ "-" ++ "")%string in H.
    rewrite Hsplit in H.
    apply split_last_hyphen in H; auto; destruct H as [_ H]; congruence.
  - rewrite !Hsplit2 in H.
    apply split_last_hyphen in H; auto; destruct H as [H _].
    change (p ++ "-" ++ m ++ "-")%string
      with (p ++ "-" ++ m ++ "-" ++ "")%string in H.
    change (p' ++ "-" ++ m' ++ "-")%string
      with (p' ++ "-" ++ m' ++ "-" ++ "")%string in H.
    rewrite !Hsplit in H.
    apply split_last_hyphen in H; auto; destruct H as [H _].
    apply Hpm in H; tauto.
Qed.

Lemma key_digits_split (p m sign digits : string) :
  sign = "" \/ sign = "-" ->
  exists y,
    (p ++ "-" ++ m ++ "-" ++ sign ++ digits = y ++ String "-" digits)%string
    /\ (p ++ "-" ++ m ++ "-" ++ sign = y ++ String "-" "")%string.
Proof.
  intros [-> | ->].
  - exists (p ++ "-" ++ m)%string; rewrite !append_assoc; auto.
  - exists (p ++ "-" ++ m ++ "-")%string; rewrite !append_assoc; auto.
Qed.

(** Two anomalies with plain metric labels share a key only if they share
    page, metric and instant. *)
Lemma anomalyKey_inj (a b : AnomalyDetectionResult) :
  plainLabel (metric a) -> plainLabel (metric b) ->
  anomalyKey a = anomalyKey b ->
  page a = page b /\ metric a = metric b /\ timestamp a = timestamp b.
Proof.
  intros Ha Hb H; unfold anomalyKey in H.
  destruct (numberToString_shape (timestamp a)) as [sa [da [Ea [Hsa [Hda _]]]]].
  destruct (numberToString_shape (timestamp b)) as [sb [db [Eb [Hsb [Hdb _]]]]].
  rewrite Ea, Eb in H.
  destruct (key_digits_split (page a) (metric a) sa da Hsa) as [ya [Eka Epa]].
  destruct (key_digits_split (page b) (metric b) sb db Hsb) as [yb [Ekb Epb]].
  rewrite Eka, Ekb in H.
  apply split_last_hyphen in H; auto; destruct H as [Hy Hd].
  rewrite Hy in Epa; rewrite <- Epb in Epa.
  apply key_prefix_inj in Epa; auto.
  destruct Epa as [Hp [Hm Hs]]; repeat split; auto.
  apply numberToString_inj; congruence.
Qed.

(** *** Where emitted anomalies come from *)

Lemma detectTrafficAnomalies_origin (db : Prisma) (page : string)
    (recentStart baselineStart baselineEnd : Z) (a : AnomalyDetectionResult) :
  In a (detectTrafficAnomalies db page recentStart baselineStart baselineEnd) ->
  exists recent M S,
    In recent (findTraffic db page recentStart None)
    /\ a = trafficAnomaly recent M S.
Proof.
  unfold detectTrafficAnomalies.
  destruct (findTraffic db page baselineStart (Some baselineEnd)); [intros []|].
  rewrite in_flat_map; intros [recent [Hin Ha]].
  destruct (_ && _) in Ha; [|destruct Ha].
  destruct Ha as [<-|[]]; eauto.
Qed.

Lemma detectTrafficAnomaliesGranular_origin (db : Prisma) (combo : Combination)
    (recentStart baselineStart baselineEnd : Z) (a : AnomalyDetectionResult) :
  In a (detectTrafficAnomaliesGranular db combo recentStart baselineStart
                                       baselineEnd) ->
  exists recent M S,
    In recent (findTrafficCombo db combo recentStart None)
    /\ a = trafficAnomaly recent M S.
Proof.
  unfold detectTrafficAnomaliesGranular.
  destruct (findTrafficCombo db combo baselineStart (Some baselineEnd));
    [intros []|].
  rewrite in_flat_map; intros [recent [Hin Ha]].
  destruct (_ && _) in Ha; [|destruct Ha].
  destruct Ha as [<-|[]]; eauto.
Qed.

Lemma detectMetricAnomaly_origin (db : Prisma) (page : string)
    (recentStart baselineStart baselineEnd : Z)
    (metricField metricType metricName : string)
    (valueExtractor : MetricRow -> number) (a : AnomalyDetectionResult) :
  In a (detectMetricAnomaly db page recentStart baselineStart baselineEnd
                            metricField metricType metricName valueExtractor) ->
  exists recent M S,
    In recent (findMetricRows db metricField page recentStart None)
    /\ a = metricAnomaly metricType metricName valueExtractor recent M S.
Proof.
  unfold detectMetricAnomaly.
  destruct (findMetricRows db metricField page baselineStart (Some baselineEnd));
    [intros []|].
  rewrite in_flat_map; intros [recent [Hin Ha]].
  destruct (_ && _) in Ha; [|destruct Ha].
  destruct Ha as [<-|[]]; eauto.
Qed.

(** The six labels the detector writes. *)
Lemma detectAnomalies_labels (db : Prisma) (now : Z) (a : AnomalyDetectionResult) :
  In a (detectAnomalies db now) ->
  In (metricType a, metric a)
     [("Traffic", "PageViews"); ("UserActions", "Session Duration");
      ("Engagement", "Bounce Rate"); ("Conversion", "Conversion Rate");
      ("Performance", "Load Time"); ("Performance", "Error Rate")].
Proof.
  unfold detectAnomalies, detectEngagementAnomalies, detectPerformanceAnomalies.
  rewrite in_flat_map; intros [pg [_ Ha]].
  repeat rewrite in_app_iff in Ha.
  destruct Ha as [Ha|[[Ha|[Ha|Ha]]|[Ha|Ha]]];
    [apply detectTrafficAnomalies_origin in Ha
    |apply detectMetricAnomaly_origin in Ha ..];
    destruct Ha as [r [M [S [_ ->]]]]; simpl; auto 10.
Qed.

Lemma detectGranularAnomalies_labels (db : Prisma) (now : Z)
    (a : AnomalyDetectionResult) :
  In a (detectGranularAnomalies db now) ->
  metricType a = "Traffic" /\ metric a = "PageViews".
Proof.
  unfold detectGranularAnomalies, detectEngagementAnomaliesGranular,
    detectPerformanceAnomaliesGranular.
  rewrite in_flat_map; intros [combo [_ Ha]].
  rewrite app_nil_r in Ha.
  apply detectTrafficAnomaliesGranular_origin in Ha.
  destruct Ha as [r [M [S [_ ->]]]]; simpl; auto.
Qed.

Lemma detected_labels_plain (db : Prisma) (nowAggregated nowGranular : Z)
    (a : AnomalyDetectionResult) :
  In a (detectAnomalies db nowAggregated
        ++ detectGranularAnomalies db nowGranular) ->
  plainLabel (metric a).
Proof.
  rewrite in_app_iff; intros [Ha|Ha].
  - apply detectAnomalies_labels in Ha; simpl in Ha.
    repeat (destruct Ha as [Ha|Ha];
            [inversion Ha as [[Ht Hm]]; split; [discriminate|reflexivity]|]).
    destruct Ha.
  - apply detectGranularAnomalies_labels in Ha; destruct Ha as [_ ->].
    split; [discriminate|reflexivity].
Qed.

(** C4. Deduplication keeps, in order, the first anomaly of every key and
    drops later ones; the key is determined by page, metric and instant, and
    for the plain metric labels (all the detector writes) it determines them;
    and deduplication is idempotent: for every list [L], deduplicating
    [L ++ L] gives the same list, hence the same size, as deduplicating [L]. *)
Theorem C4_deduplication_first_wins_idempotent :
  forall L : list AnomalyDetectionResult,
    deduplicateAnomalies (L ++ L) = deduplicateAnomalies L
    /\ List.length (deduplicateAnomalies (L ++ L))
       = List.length (deduplicateAnomalies L)
    /\ (forall a,
          In a (deduplicateAnomalies L)
          <-> exists pre post,
                L = pre ++ a :: post
                /\ forall b, In b pre -> anomalyKey b <> anomalyKey a)
    /\ NoDup (map anomalyKey (deduplicateAnomalies L))
    /\ (forall a b,
          page a = page b -> metric a = metric b -> timestamp a = timestamp b ->
          anomalyKey a = anomalyKey b)
    /\ (forall a b,
          plainLabel (metric a) -> plainLabel (metric b) ->
          anomalyKey a = anomalyKey b ->
          page a = page b /\ metric a = metric b /\ timestamp a = timestamp b)
    /\ (forall db nowAggregated nowGranular a,
          In a (detectAnomalies db nowAggregated
                ++ detectGranularAnomalies db nowGranular) ->
          plainLabel (metric a)).
Proof.
  intros L.
  assert (Hidem : deduplicateAnomalies (L ++ L) = deduplicateAnomalies L).
  { rewrite !deduplicateAnomalies_firstOccurrences, firstOccurrences_app.
    rewrite (firstOccurrences_covered L (map anomalyKey L ++ [])).
    - apply app_nil_r.
    - intros a Ha; rewrite app_nil_r; apply in_map; exact Ha. }
  split; [exact Hidem|].
  split; [rewrite Hidem; reflexivity|].
  split.
  { intros a; rewrite deduplicateAnomalies_firstOccurrences, in_firstOccurrences.
    split; intros [pre [post H]]; exists pre, post; simpl in *; tauto. }
  split; [rewrite deduplicateAnomalies_firstOccurrences;
          apply firstOccurrences_NoDup|].
  split; [exact anomalyKey_determined|].
  split; [exact anomalyKey_inj|exact detected_labels_plain].
Qed.

(** C4 at a list that holds two readings of one surge: the first stays, and
    doubling the list changes nothing. *)
Lemma C4_deduplication_first_wins_idempotent_witness :
  deduplicateAnomalies [surgeAnomaly; surgeAnomalyDesktop] = [surgeAnomaly]
  /\ deduplicateAnomalies ([surgeAnomaly; surgeAnomalyDesktop]
                           ++ [surgeAnomaly; surgeAnomalyDesktop])
     = [surgeAnomaly].
Proof.
  assert (H : deduplicateAnomalies [surgeAnomaly; surgeAnomalyDesktop]
              = [surgeAnomaly]) by reflexivity.
  split; [exact H|].
  destruct (C4_deduplication_first_wins_idempotent
              [surgeAnomaly; surgeAnomalyDesktop]) as [Hidem _].
  rewrite Hidem; exact H.
Defined.

(** ** C7: the recent window *)

Lemma findTraffic_spec (db : Prisma) (page : string) (gte : Z) (lt : option Z)
    (r : PageViewsHourly.t) :
  In r (findTraffic db page gte lt)
  <-> In r (pageViewsHourly db)
      /\ PageViewsHourly.page r = page
      /\ (gte <= PageViewsHourly.timestamp r)%Z
      /\ match lt with
         | Some e => (PageViewsHourly.timestamp r < e)%Z
         | None => True
         end.
Proof.
  unfold findTraffic; rewrite filter_In, !andb_true_iff, String.eqb_eq,
    Z.leb_le.
  destruct lt; [rewrite Z.ltb_lt|]; intuition.
Qed.

Lemma findMetricRows_spec (db : Prisma) (metricField page : string)
    (gte : Z) (lt : option Z) (d : MetricRow) :
  In d (findMetricRows db metricField page gte lt)
  <-> (if usesUserActions metricField
       then exists u, d = UserActionsRow u /\ In u (userActionsHourly db)
       else exists p, d = PerformanceRow p /\ In p (performanceHourly db))
      /\ row_page d = page
      /\ (gte <= row_timestamp d)%Z
      /\ match lt with
         | Some e => (row_timestamp d < e)%Z
         | None => True
         end.
Proof.
  unfold findMetricRows; destruct (usesUserActions metricField);
    rewrite in_map_iff; split.
  - intros [u [<- Hu]]; apply filter_In in Hu; destruct Hu as [Hin Hu].
    rewrite !andb_true_iff, String.eqb_eq, Z.leb_le in Hu; simpl.
    destruct lt; [rewrite Z.ltb_lt in Hu|]; intuition eauto.
  - intros [[u [-> Hin]] H]; exists u; split; [reflexivity|].
    apply filter_In; split; [exact Hin|]; simpl in H.
    rewrite !andb_true_iff, String.eqb_eq, Z.leb_le.
    destruct lt; [rewrite Z.ltb_lt|]; intuition.
  - intros [u [<- Hu]]; apply filter_In in Hu; destruct Hu as [Hin Hu].
    rewrite !andb_true_iff, String.eqb_eq, Z.leb_le in Hu; simpl.
    destruct lt; [rewrite Z.ltb_lt in Hu|]; intuition eauto.
  - intros [[u [-> Hin]] H]; exists u; split; [reflexivity|].
    apply filter_In; split; [exact Hin|]; simpl in H.
    rewrite !andb_true_iff, String.eqb_eq, Z.leb_le.
    destruct lt; [rewrite Z.ltb_lt|]; intuition.
Qed.

Lemma findTrafficCombo_timestamp (db : Prisma) (combo : Combination)
    (gte : Z) (lt : option Z) (r : PageViewsHourly.t) :
  In r (findTrafficCombo db combo gte lt) ->
  (gte <= PageViewsHourly.timestamp r)%Z.
Proof.
  unfold findTrafficCombo; rewrite filter_In, !andb_true_iff, Z.leb_le.
  tauto.
Qed.

Lemma findTraffic_since (db : Prisma) (page : string) (gte : Z) (lt : option Z)
    (r : PageViewsHourly.t) :
  In r (findTraffic db page gte lt) -> (gte <= PageViewsHourly.timestamp r)%Z.
Proof. rewrite findTraffic_spec; tauto. Qed.

Lemma findMetricRows_since (db : Prisma) (metricField page : string)
    (gte : Z) (lt : option Z) (d : MetricRow) :
  In d (findMetricRows db metricField page gte lt) -> (gte <= row_timestamp d)%Z.
Proof. rewrite findMetricRows_spec; tauto. Qed.

Lemma detectAnomalies_since (db : Prisma) (now : Z) (a : AnomalyDetectionResult) :
  In a (detectAnomalies db now) -> (now - 6 * 60 * 60 * 1000 <= timestamp a)%Z.
Proof.
  unfold detectAnomalies, detectEngagementAnomalies, detectPerformanceAnomalies.
  rewrite in_flat_map; intros [pg [_ Ha]].
  repeat rewrite in_app_iff in Ha.
  destruct Ha as [Ha|[[Ha|[Ha|Ha]]|[Ha|Ha]]];
    [apply detectTrafficAnomalies_origin in Ha;
     destruct Ha as [r [M [S [Hr ->]]]];
     apply findTraffic_since in Hr; exact Hr
    |apply detectMetricAnomaly_origin in Ha;
     destruct Ha as [r [M [S [Hr ->]]]];
     apply findMetricRows_since in Hr; exact Hr ..].
Qed.

Lemma detectGranularAnomalies_since (db : Prisma) (now : Z)
    (a : AnomalyDetectionResult) :
  In a (detectGranularAnomalies db now) ->
  (now - 6 * 60 * 60 * 1000 <= timestamp a)%Z.
Proof.
  unfold detectGranularAnomalies, detectEngagementAnomaliesGranular,
    detectPerformanceAnomaliesGranular.
  rewrite in_flat_map; intros [combo [_ Ha]].
  rewrite app_nil_r in Ha.
  apply detectTrafficAnomaliesGranular_origin in Ha.
  destruct Ha as [r [M [S [Hr ->]]]].
  apply findTrafficCombo_timestamp in Hr; exact Hr.
Qed.

(** Pages listed by [getUniquePages]. *)
Lemma distinctPages_In (l seen : list string) (p : string) :
  In p (distinctPages seen l) <-> In p l /\ ~ In p seen.
Proof.
  revert seen; induction l as [|q l IH]; intros seen; simpl; [tauto|].
  destruct (existsb (String.eqb q) seen) eqn:E.
  - apply seen_has in E; rewrite IH; split; [tauto|].
    intros [[<-|H] Hn]; tauto.
  - apply seen_has_not in E; simpl; rewrite IH; simpl.
    destruct (string_dec q p) as [<-|Hne]; tauto.
Qed.

Lemma getUniquePages_In (db : Prisma) (p : string) :
  In p (getUniquePages db)
  <-> exists r, In r (pageViewsHourly db) /\ PageViewsHourly.page r = p.
Proof.
  unfold getUniquePages; rewrite distinctPages_In, in_map_iff; simpl.
  split; [intros [[r [Hp Hr]] _]; eauto|intros [r [Hr Hp]]; eauto].
Qed.

(** A constant positive baseline of page views flags every other count. *)
Lemma constant_traffic_baseline_flags (db : Prisma) (page : string)
    (recentStart baselineStart baselineEnd : Z) (m : number)
    (recent : PageViewsHourly.t) :
  trafficBaselineValues db page baselineStart baselineEnd <> [] ->
  Forall (fun v => v = m)
         (trafficBaselineValues db page baselineStart baselineEnd) ->
  m > 0 ->
  In recent (findTraffic db page recentStart None) ->
  IZR (PageViewsHourly.viewCount recent) <> m ->
  In (trafficAnomaly recent m 0)
     (detectTrafficAnomalies db page recentStart baselineStart baselineEnd).
Proof.
  intros Hne Hall Hm Hin Hdiff.
  destruct (traffic_detection_sound_complete db page recentStart
              baselineStart baselineEnd Hne) as [Hiff _].
  rewrite (calculateMean_const _ m Hne Hall),
    (calculateStdDev_const _ m Hall) in Hiff.
  apply (Hiff recent Hin); split; [|exact Hm].
  rewrite Rmult_0_r; apply Rabs_pos_lt; lra.
Qed.

(** C7 as worded fails at [futureDb]: detection at hour 100 compares and
    flags the row stamped hour 101, which lies after the instant of
    detection. *)
Lemma C7_future_row_is_flagged :
  In (trafficAnomaly (goaViews 101 90) 40 0) (detectAnomalies futureDb (hours 100))
  /\ (hours 100 <= timestamp (trafficAnomaly (goaViews 101 90) 40 0))%Z
  /\ In (goaViews 101 90)
        (findTraffic futureDb "/goa-beach-resort"
                     (hours 100 - 6 * 60 * 60 * 1000) None).
Proof.
  split; [|split; [vm_compute; discriminate|simpl; auto]].
  unfold detectAnomalies; apply in_flat_map.
  exists "/goa-beach-resort"; split; [simpl; auto|].
  apply in_or_app; left.
  apply constant_traffic_baseline_flags.
  - discriminate.
  - repeat constructor.
  - lra.
  - simpl; auto.
  - simpl; lra.
Qed.

(** C7 (amended). Every observation tested against the baseline has a
    timestamp of at least [now - 6h], and the test has no upper bound: the
    rows compared for a page are exactly the stored rows of that page stamped
    [now - 6h] or later, those stamped at or after [now] included; every
    anomaly either pass emits is stamped [now - 6h] or later. *)
Theorem C7_recent_window_has_lower_bound_only :
  forall (db : Prisma) (now : Z),
    let recentStart := (now - 6 * 60 * 60 * 1000)%Z in
    (forall page r,
        In r (findTraffic db page recentStart None)
        <-> In r (pageViewsHourly db)
            /\ PageViewsHourly.page r = page
            /\ (recentStart <= PageViewsHourly.timestamp r)%Z)
    /\ (forall metricField page d,
          In d (findMetricRows db metricField page recentStart None)
          <-> (if usesUserActions metricField
               then exists u,
                   d = UserActionsRow u /\ In u (userActionsHourly db)
               else exists p,
                   d = PerformanceRow p /\ In p (performanceHourly db))
              /\ row_page d = page
              /\ (recentStart <= row_timestamp d)%Z)
    /\ (forall combo r,
          In r (findTrafficCombo db combo recentStart None) ->
          (recentStart <= PageViewsHourly.timestamp r)%Z)
    /\ (forall a,
          In a (detectAnomalies db now) \/ In a (detectGranularAnomalies db now) ->
          (recentStart <= timestamp a)%Z).
Proof.
  intros db now recentStart; split; [|split; [|split]].
  - intros page r; rewrite findTraffic_spec; tauto.
  - intros metricField page d; rewrite findMetricRows_spec; tauto.
  - intros combo r; apply findTrafficCombo_timestamp.
  - intros a [Ha|Ha];
      [exact (detectAnomalies_since db now a Ha)
      |exact (detectGranularAnomalies_since db now a Ha)].
Qed.

(** ** C8: the granular pass *)

Lemma flagged_false_within (V M S : number) :
  Rabs (V - M) <= 2.5 * S -> flagged V M S = false.
Proof.
  intros H; unfold flagged.
  replace (num_gt (Rabs (V - M)) (2.5 * S)) with false
    by (symmetry; apply num_gt_false; exact H).
  reflexivity.
Qed.

Lemma flagged_true_beyond (V M S : number) :
  Rabs (V - M) > 2.5 * S -> M > 0 -> flagged V M S = true.
Proof. intros H1 H2; apply flagged_spec; auto. Qed.

(** Evaluation of the detection routines once the baseline is known. *)
Lemma detectTrafficAnomalies_eval (db : Prisma) (page : string)
    (recentStart baselineStart baselineEnd : Z)
    (values : list number) (M S : number) (recentData : list PageViewsHourly.t) :
  trafficBaselineValues db page baselineStart baselineEnd = values ->
  values <> [] ->
  calculateMean values = M ->
  calculateStdDev values M = S ->
  findTraffic db page recentStart None = recentData ->
  detectTrafficAnomalies db page recentStart baselineStart baselineEnd
  = flat_map (fun recent =>
                if flagged (IZR (PageViewsHourly.viewCount recent)) M S
                then [trafficAnomaly recent M S] else [])
             recentData.
Proof.
  intros Hv Hne HM HS Hr; subst values M S recentData.
  apply detectTrafficAnomalies_unfold; exact Hne.
Qed.

Lemma detectMetricAnomaly_eval (db : Prisma) (page : string)
    (recentStart baselineStart baselineEnd : Z)
    (metricField metricType metricName : string)
    (valueExtractor : MetricRow -> number)
    (values : list number) (M S : number) (recentData : list MetricRow) :
  metricBaselineValues db metricField page valueExtractor
                       baselineStart baselineEnd = values ->
  values <> [] ->
  calculateMean values = M ->
  calculateStdDev values M = S ->
  findMetricRows db metricField page recentStart None = recentData ->
  detectMetricAnomaly db page recentStart baselineStart baselineEnd
                      metricField metricType metricName valueExtractor
  = flat_map (fun recent =>
                if flagged (valueExtractor recent) M S
                then [metricAnomaly metricType metricName valueExtractor
                                    recent M S]
                else [])
             recentData.
Proof.
  intros Hv Hne HM HS Hr; subst values M S recentData.
  apply detectMetricAnomaly_unfold; exact Hne.
Qed.

Lemma detectTrafficAnomaliesGranular_eval (db : Prisma) (combo : Combination)
    (recentStart baselineStart baselineEnd : Z)
    (values : list number) (M S : number) (recentData : list PageViewsHourly.t) :
  map (fun d => IZR (PageViewsHourly.viewCount d))
      (findTrafficCombo db combo baselineStart (Some baselineEnd)) = values ->
  values <> [] ->
  calculateMean values = M ->
  calculateStdDev values M = S ->
  findTrafficCombo db combo recentStart None = recentData ->
  detectTrafficAnomaliesGranular db combo recentStart baselineStart baselineEnd
  = flat_map (fun recent =>
                if flagged (IZR (PageViewsHourly.viewCount recent)) M S
                then [trafficAnomaly recent M S] else [])
             recentData.
Proof.
  intros Hv Hne HM HS Hr; subst values M S recentData.
  apply map_neq_nil in Hne.
  unfold detectTrafficAnomaliesGranular, flagged.
  destruct (findTrafficCombo db combo baselineStart (Some baselineEnd));
    [congruence|reflexivity].
Qed.

(** A combination that names only the page selects what the page query
    selects. *)
Lemma findTrafficCombo_page_only (db : Prisma) (page : string)
    (gte : Z) (lt : option Z) :
  findTrafficCombo db (mkCombo page None None None) gte lt
  = findTraffic db page gte lt.
Proof.
  unfold findTrafficCombo, findTraffic; apply filter_ext; intros d; simpl.
  rewrite !andb_true_r; reflexivity.
Qed.

Lemma detectTrafficAnomaliesGranular_page_only (db : Prisma) (page : string)
    (recentStart baselineStart baselineEnd : Z) :
  detectTrafficAnomaliesGranular db (mkCombo page None None None)
                                 recentStart baselineStart baselineEnd
  = detectTrafficAnomalies db page recentStart baselineStart baselineEnd.
Proof.
  unfold detectTrafficAnomaliesGranular, detectTrafficAnomalies.
  rewrite !findTrafficCombo_page_only; reflexivity.
Qed.

Lemma detectGranularAnomalies_is_page_traffic (db : Prisma) (now : Z) :
  detectGranularAnomalies db now
  = flat_map (fun page =>
                detectTrafficAnomalies db page
                  (now - 6 * 60 * 60 * 1000)%Z
                  (now - 30 * 60 * 60 * 1000)%Z
                  (now - 6 * 60 * 60 * 1000)%Z)
             (getUniquePages db).
Proof.
  unfold detectGranularAnomalies, getUniqueCombinations,
    detectEngagementAnomaliesGranular, detectPerformanceAnomaliesGranular.
  cbv zeta.
  induction (getUniquePages db) as [|pg l IH]; cbn [flat_map map];
    [reflexivity|].
  rewrite IH; cbn [app]; rewrite app_nil_r.
  rewrite detectTrafficAnomaliesGranular_page_only; reflexivity.
Qed.

Lemma detectGranularAnomalies_incl (db : Prisma) (now : Z)
    (a : AnomalyDetectionResult) :
  In a (detectGranularAnomalies db now) -> In a (detectAnomalies db now).
Proof.
  rewrite detectGranularAnomalies_is_page_traffic; unfold detectAnomalies.
  rewrite !in_flat_map; intros [pg [Hpg Ha]]; exists pg; split; [exact Hpg|].
  apply in_or_app; left; exact Ha.
Qed.

Lemma kerala_page_stats :
  calculateMean [10; 1000; 10; 1000] = 505
  /\ calculateStdDev [10; 1000; 10; 1000] 505 = 495.
Proof.
  split; [unfold calculateMean; simpl; lra|].
  unfold calculateStdDev; simpl.
  replace (_ / _) with (495 * 495) by lra.
  apply sqrt_square; lra.
Qed.

Lemma kerala_page_traffic_quiet :
  detectTrafficAnomalies referrerDb "/kerala-backwaters"
                         (hours 94) (hours 70) (hours 94) = [].
Proof.
  destruct kerala_page_stats as [HM HS].
  rewrite (detectTrafficAnomalies_eval referrerDb "/kerala-backwaters"
             (hours 94) (hours 70) (hours 94) [10; 1000; 10; 1000] 505 495
             [keralaViews 98 60 "Instagram"]);
    try reflexivity; try assumption; try discriminate.
  simpl; rewrite flagged_false_within; [reflexivity|].
  rewrite Rabs_left by lra; lra.
Qed.

Lemma referrerDb_instagram_flagged :
  detectTrafficAnomaliesGranular referrerDb instagramCombo
                                 (hours 94) (hours 70) (hours 94)
  = [trafficAnomaly (keralaViews 98 60 "Instagram") 10 0].
Proof.
  rewrite (detectTrafficAnomaliesGranular_eval referrerDb instagramCombo
             (hours 94) (hours 70) (hours 94) [10; 10] 10 0
             [keralaViews 98 60 "Instagram"]);
    try reflexivity; try discriminate.
  - simpl; rewrite flagged_true_beyond; [reflexivity| |lra].
    rewrite Rabs_right by lra; lra.
  - apply calculateMean_const; [discriminate|repeat constructor].
  - apply calculateStdDev_const; repeat constructor.
Qed.

Lemma referrerDb_granular_quiet :
  detectGranularAnomalies referrerDb (hours 100) = [].
Proof.
  rewrite detectGranularAnomalies_is_page_traffic.
  change (getUniquePages referrerDb) with ["/kerala-backwaters"].
  cbn [flat_map]; rewrite app_nil_r.
  change (hours 100 - 6 * 60 * 60 * 1000)%Z with (hours 94).
  change (hours 100 - 30 * 60 * 60 * 1000)%Z with (hours 70).
  exact kerala_page_traffic_quiet.
Qed.

Lemma referrerDb_aggregate_quiet :
  detectAnomalies referrerDb (hours 100) = [].
Proof.
  unfold detectAnomalies.
  change (getUniquePages referrerDb) with ["/kerala-backwaters"].
  cbv zeta; cbn [flat_map].
  change (hours 100 - 6 * 60 * 60 * 1000)%Z with (hours 94).
  change (hours 100 - 30 * 60 * 60 * 1000)%Z with (hours 70).
  rewrite kerala_page_traffic_quiet; reflexivity.
Qed.

(** C8 as worded fails at [referrerDb]: run on the Instagram combination,
    the detection routine flags the jump from 10 to 60, yet the granular pass
    (like the page-aggregate pass) reports nothing. *)
Lemma C8_confined_spike_not_surfaced :
  detectTrafficAnomaliesGranular referrerDb instagramCombo
                                 (hours 94) (hours 70) (hours 94)
  = [trafficAnomaly (keralaViews 98 60 "Instagram") 10 0]
  /\ detectGranularAnomalies referrerDb (hours 100) = []
  /\ detectAnomalies referrerDb (hours 100) = [].
Proof.
  split; [exact referrerDb_instagram_flagged|].
  split; [exact referrerDb_granular_quiet|exact referrerDb_aggregate_quiet].
Qed.

(** C8 (amended). The granular pass enumerates one combination per distinct
    page, without device, referrer or region, and runs on it the page-view
    detection only: the engagement and performance routines of the pass
    return nothing.  Its output is therefore the page-view part of the
    page-aggregate pass (for the same instant), and every anomaly it reports
    is one the page-aggregate pass reports too. *)
Theorem C8_granular_pass_is_page_level_traffic :
  forall (db : Prisma) (now : Z),
    getUniqueCombinations db
    = map (fun page => mkCombo page None None None) (getUniquePages db)
    /\ (forall p,
          In p (getUniquePages db)
          <-> exists r, In r (pageViewsHourly db) /\ PageViewsHourly.page r = p)
    /\ (forall combo recentStart baselineStart baselineEnd,
          detectEngagementAnomaliesGranular db combo recentStart baselineStart
                                            baselineEnd = []
          /\ detectPerformanceAnomaliesGranular db combo recentStart
                                                baselineStart baselineEnd = [])
    /\ detectGranularAnomalies db now
       = flat_map (fun page =>
                     detectTrafficAnomalies db page
                       (now - 6 * 60 * 60 * 1000)%Z
                       (now - 30 * 60 * 60 * 1000)%Z
                       (now - 6 * 60 * 60 * 1000)%Z)
                  (getUniquePages db)
    /\ (forall a,
          In a (detectGranularAnomalies db now) ->
          In a (detectAnomalies db now)
          /\ metricType a = "Traffic" /\ metric a = "PageViews").
Proof.
  intros db now; split; [reflexivity|].
  split; [apply getUniquePages_In|].
  split; [intros; split; reflexivity|].
  split; [apply detectGranularAnomalies_is_page_traffic|].
  intros a Ha; split; [apply detectGranularAnomalies_incl; exact Ha|].
  exact (detectGranularAnomalies_labels db now a Ha).
Qed.

(** ** Correlation analysis *)

Lemma fold_left_sum_map {A : Type} (f : A -> number) (l : list A) (a : number) :
  fold_left (fun sum d => sum + f d) l a
  = fold_left (fun sum val => sum + val) (map f l) a.
Proof.
  revert a; induction l as [|x l IH]; intros a; simpl; [|rewrite IH];
    reflexivity.
Qed.

(** The inline average of the correlation helpers is [calculateMean]. *)
Lemma inline_baseline (field : UserActionsHourly.t -> number) (db : Prisma)
    (page : string) (timestamp : Z) (recent : UserActionsHourly.t) :
  (let baseline :=
     findUserActions db page (timestamp - 30 * 60 * 60 * 1000)%Z
                     (timestamp - 6 * 60 * 60 * 1000)%Z in
   if (0 <? List.length baseline)%nat
   then fold_left (fun sum d => sum + field d) baseline 0
        / INR (List.length baseline)
   else field recent)
  = windowBaseline field db page timestamp recent.
Proof.
  unfold windowBaseline, findUserActions; cbv zeta.
  destruct (filter _ (userActionsHourly db)) as [|x l]; [reflexivity|].
  change (0 <? List.length (x :: l))%nat with true; cbv iota.
  unfold calculateMean.
  rewrite fold_left_sum_map, length_map; reflexivity.
Qed.

Lemma getConversionDataForPage_spec (db : Prisma) (tz : Z) (page : string)
    (timestamp : Z) :
  getConversionDataForPage db tz page timestamp
  = match hourBucketRow db tz page timestamp with
    | None => None
    | Some recent =>
        Some (mkConversionData
                (UserActionsHourly.conversionRate recent)
                (windowBaseline UserActionsHourly.conversionRate db page
                                timestamp recent))
    end.
Proof.
  unfold getConversionDataForPage, hourBucketRow; cbv zeta.
  destruct (hd_error _) as [recent|]; [|reflexivity].
  rewrite <- (inline_baseline UserActionsHourly.conversionRate); reflexivity.
Qed.

Lemma getBounceRateForPage_spec (db : Prisma) (tz : Z) (page : string)
    (timestamp : Z) :
  getBounceRateForPage db tz page timestamp
  = match hourBucketRow db tz page timestamp with
    | None => None
    | Some recent =>
        Some (mkBounceData
                (UserActionsHourly.bounceRate recent)
                (windowBaseline UserActionsHourly.bounceRate db page
                                timestamp recent))
    end.
Proof.
  unfold getBounceRateForPage, hourBucketRow; cbv zeta.
  destruct (hd_error _) as [recent|]; [|reflexivity].
  rewrite <- (inline_baseline UserActionsHourly.bounceRate); reflexivity.
Qed.

(** The anomaly's hour bucket contains the anomaly's own instant. *)
Lemma startOfHour_bucket (tz t : Z) :
  (startOfHour tz t <= t < startOfHour tz t + 60 * 60 * 1000)%Z.
Proof.
  unfold startOfHour.
  pose proof (Z.mod_pos_bound (t + tz) (60 * 60 * 1000)); lia.
Qed.

Lemma hourBucketRow_in (db : Prisma) (tz : Z) (page : string) (timestamp : Z)
    (recent : UserActionsHourly.t) :
  hourBucketRow db tz page timestamp = Some recent ->
  In recent (userActionsHourly db)
  /\ UserActionsHourly.page recent = page
  /\ (startOfHour tz timestamp <= UserActionsHourly.timestamp recent
      < startOfHour tz timestamp + 60 * 60 * 1000)%Z.
Proof.
  unfold hourBucketRow, findUserActions; intros H.
  assert (Hin : In recent
                   (filter (fun d =>
                              (UserActionsHourly.page d =? page)%string
                              && (startOfHour tz timestamp
                                  <=? UserActionsHourly.timestamp d)%Z
                              && (UserActionsHourly.timestamp d
                                  <? startOfHour tz timestamp + 60 * 60 * 1000)%Z)
                           (userActionsHourly db))).
  { destruct (filter _ _); [discriminate|].
    inversion H; left; reflexivity. }
  apply filter_In in Hin; destruct Hin as [Hin Hc].
  rewrite !andb_true_iff, String.eqb_eq, Z.leb_le, Z.ltb_lt in Hc; tauto.
Qed.

Lemma in_trafficConversionCheck (db : Prisma) (tz : Z)
    (anomaly : AnomalyDetectionResult) (m : CorrelatedMetric) :
  In m (trafficConversionCheck db tz anomaly)
  <-> metricType anomaly = "Traffic"
      /\ percentageChange anomaly > 0
      /\ exists recent,
          hourBucketRow db tz (page anomaly) (timestamp anomaly) = Some recent
          /\ let conversionRate := UserActionsHourly.conversionRate recent in
             let baselineRate :=
               windowBaseline UserActionsHourly.conversionRate db
                              (page anomaly) (timestamp anomaly) recent in
             conversionRate < baselineRate * 0.9
             /\ m = mkCorrelated "Conversion Rate" conversionRate
                                 ((conversionRate - baselineRate)
                                  / baselineRate * 100)
                                 "traffic_up_conversions_down".
Proof.
  unfold trafficConversionCheck; rewrite getConversionDataForPage_spec.
  rewrite <- (String.eqb_eq (metricType anomaly)), <- num_gt_true.
  destruct (metricType anomaly =? "Traffic")%string;
    [|simpl; intuition discriminate].
  destruct (num_gt (percentageChange anomaly) 0);
    [|simpl; intuition discriminate].
  cbn [andb].
  destruct (hourBucketRow db tz (page anomaly) (timestamp anomaly))
    as [recent|].
  - cbn [cd_conversionRate cd_baselineRate]; cbv zeta.
    destruct (num_lt _ _) eqn:El.
    + apply num_lt_true in El; split.
      * intros [<-|[]]; repeat split; eauto.
      * intros [_ [_ [r [[= <-] [_ ->]]]]]; left; reflexivity.
    + apply num_lt_false in El; split; [intros []|].
      intros [_ [_ [r [[= <-] [Hlt _]]]]]; lra.
  - split; [intros []|]; intros [_ [_ [r [Hr _]]]]; discriminate.
Qed.

Lemma in_loadTimeBounceCheck (db : Prisma) (tz : Z)
    (anomaly : AnomalyDetectionResult) (m : CorrelatedMetric) :
  In m (loadTimeBounceCheck db tz anomaly)
  <-> (metricType anomaly = "Performance" /\ metric anomaly = "Load Time")
      /\ percentageChange anomaly > 0
      /\ exists recent,
          hourBucketRow db tz (page anomaly) (timestamp anomaly) = Some recent
          /\ let bounceRate := UserActionsHourly.bounceRate recent in
             let baselineBounceRate :=
               windowBaseline UserActionsHourly.bounceRate db
                              (page anomaly) (timestamp anomaly) recent in
             bounceRate > baselineBounceRate * 1.1
             /\ m = mkCorrelated "Bounce Rate" bounceRate
                                 ((bounceRate - baselineBounceRate)
                                  / baselineBounceRate * 100)
                                 "load_time_up_bounce_rate_up".
Proof.
  unfold loadTimeBounceCheck; rewrite getBounceRateForPage_spec.
  rewrite <- (String.eqb_eq (metricType anomaly)),
    <- (String.eqb_eq (metric anomaly)), <- num_gt_true.
  destruct (metricType anomaly =? "Performance")%string;
    [|simpl; intuition discriminate].
  destruct (metric anomaly =? "Load Time")%string;
    [|simpl; intuition discriminate].
  destruct (num_gt (percentageChange anomaly) 0);
    [|simpl; intuition discriminate].
  cbn [andb].
  destruct (hourBucketRow db tz (page anomaly) (timestamp anomaly))
    as [recent|].
  - cbn [bd_bounceRate bd_baselineBounceRate]; cbv zeta.
    destruct (num_gt _ _) eqn:El.
    + apply num_gt_true in El; split.
      * intros [<-|[]]; repeat split; eauto.
      * intros [_ [_ [r [[= <-] [_ ->]]]]]; left; reflexivity.
    + apply num_gt_false in El; split; [intros []|].
      intros [_ [_ [r [[= <-] [Hlt _]]]]]; lra.
  - split; [intros []|]; intros [_ [_ [r [Hr _]]]]; discriminate.
Qed.

Lemma in_analyzeCorrelations (db : Prisma) (tz : Z)
    (anomalies : list AnomalyDetectionResult) (c : CorrelationResult) :
  In c (analyzeCorrelations db tz anomalies)
  <-> exists anomaly,
        In anomaly anomalies
        /\ correlatedFor db tz anomaly <> []
        /\ c = mkCorrelation anomaly (correlatedFor db tz anomaly).
Proof.
  unfold analyzeCorrelations; rewrite in_flat_map; split.
  - intros [a [Ha Hc]]; exists a; cbv zeta in Hc.
    destruct (correlatedFor db tz a) as [|x l]; simpl in Hc; [tauto|].
    destruct Hc as [<-|[]]; repeat split; auto; discriminate.
  - intros [a [Ha [Hne ->]]]; exists a; split; [exact Ha|]; cbv zeta.
    destruct (correlatedFor db tz a) as [|x l]; [congruence|].
    left; reflexivity.
Qed.

(** The correlation found at [boundaryDb]: the row stamped exactly 30 hours
    before the anomaly is part of the baseline. *)
Lemma boundary_baseline :
  hourBucketRow boundaryDb 0 "/goa-beach-resort" (hours 100)
  = Some (goaActions 100 4)
  /\ windowBaseline UserActionsHourly.conversionRate boundaryDb
                    "/goa-beach-resort" (hours 100) (goaActions 100 4) = 5
  /\ openWindowBaseline UserActionsHourly.conversionRate boundaryDb
                        "/goa-beach-resort" (hours 100) (goaActions 100 4) = 4.
Proof.
  split; [reflexivity|split].
  - unfold windowBaseline.
    change (filter _ (userActionsHourly boundaryDb)) with [goaActions 70 5].
    unfold calculateMean; simpl; lra.
  - reflexivity.
Qed.

Lemma boundary_correlated :
  correlatedFor boundaryDb 0 goaSurge
  = [mkCorrelated "Conversion Rate" 4 ((4 - 5) / 5 * 100)
                  "traffic_up_conversions_down"].
Proof.
  destruct boundary_baseline as [Hrow [Hbase _]].
  unfold correlatedFor.
  change (loadTimeBounceCheck boundaryDb 0 goaSurge) with (@nil CorrelatedMetric).
  rewrite app_nil_r; unfold trafficConversionCheck.
  rewrite getConversionDataForPage_spec.
  change (page goaSurge) with "/goa-beach-resort".
  change (timestamp goaSurge) with (hours 100).
  rewrite Hrow, Hbase.
  change (metricType goaSurge =? "Traffic")%string with true.
  change (percentageChange goaSurge) with 125.
  replace (num_gt 125 0) with true by (symmetry; apply num_gt_true; lra).
  cbn [andb cd_conversionRate cd_baselineRate UserActionsHourly.conversionRate
       goaActions].
  replace (num_lt 4 (5 * 0.9)) with true by (symmetry; apply num_lt_true; lra).
  reflexivity.
Qed.

(** ** C9: nothing detected *)

Lemma generateBusinessInsights_quiet (db : Prisma)
    (tz nowAggregated nowGranular : Z) (nowScoring : nat -> Z) :
  detectAnomalies db nowAggregated = [] ->
  detectGranularAnomalies db nowGranular = [] ->
  generateBusinessInsights db tz nowAggregated nowGranular nowScoring = [].
Proof.
  intros Ha Hg.
  unfold generateBusinessInsights, scoredInsightsOf, insightsOf,
    uniqueAnomaliesOf.
  rewrite Ha, Hg; reflexivity.
Qed.

(** C9. When neither detection pass yields an anomaly,
    [generateBusinessInsights] returns the empty sequence; the handler then
    answers with [success = true] and an empty insight list and writes nothing
    to the repository.  (The handler sets [success = true] on every path that
    returns.) *)
Theorem C9_no_anomalies_empty_success :
  forall (db : Prisma) (tz nowAggregated nowGranular : Z)
         (nowScoring : nat -> Z) (createFails : nat -> bool) (now : Z),
    detectAnomalies db nowAggregated = [] ->
    detectGranularAnomalies db nowGranular = [] ->
    let response :=
      fst (getBusinessInsights db tz nowAggregated nowGranular nowScoring
                               createFails now) in
    generateBusinessInsights db tz nowAggregated nowGranular nowScoring = []
    /\ success response = true
    /\ insights response = []
    /\ snd (getBusinessInsights db tz nowAggregated nowGranular nowScoring
                                createFails now) = db.
Proof.
  intros db tz nowAggregated nowGranular nowScoring createFails now Ha Hg.
  pose proof (generateBusinessInsights_quiet db tz nowAggregated nowGranular
                nowScoring Ha Hg) as Hgen.
  unfold getBusinessInsights; cbv zeta; rewrite Hgen.
  repeat split; reflexivity.
Qed.

(** C9 at two repositories: the empty one, and [referrerDb], which holds
    traffic rows but nothing beyond the threshold. *)
Lemma C9_no_anomalies_empty_success_witness :
  (generateBusinessInsights (mkPrisma [] [] [] []) 0 (hours 100) (hours 100)
                            (fun _ => hours 100) = []
   /\ success (fst (getBusinessInsights (mkPrisma [] [] [] []) 0 (hours 100)
                      (hours 100) (fun _ => hours 100) (fun _ => false)
                      (hours 100))) = true)
  /\ (generateBusinessInsights referrerDb 0 (hours 100) (hours 100)
                               (fun _ => hours 100) = []
      /\ success (fst (getBusinessInsights referrerDb 0 (hours 100)
                         (hours 100) (fun _ => hours 100) (fun _ => false)
                         (hours 100))) = true).
Proof.
  split.
  - destruct (C9_no_anomalies_empty_success (mkPrisma [] [] [] []) 0
                (hours 100) (hours 100) (fun _ => hours 100)
                (fun _ => false) (hours 100))
      as [Hgen [Hok _]]; [reflexivity|reflexivity|].
    split; [exact Hgen|exact Hok].
  - destruct (C9_no_anomalies_empty_success referrerDb 0
                (hours 100) (hours 100) (fun _ => hours 100)
                (fun _ => false) (hours 100))
      as [Hgen [Hok _]];
      [exact referrerDb_aggregate_quiet|exact referrerDb_granular_quiet|].
    split; [exact Hgen|exact Hok].
Defined.

(** ** The sample repository, end to end *)

Ltac flag_yes :=
  rewrite flagged_true_beyond;
  [ | cbn; unfold Rabs; destruct (Rcase_abs _); lra | lra ].

Ltac flag_no :=
  rewrite flagged_false_within;
  [ | cbn; unfold Rabs; destruct (Rcase_abs _); lra ].

Lemma sample_trek_traffic :
  detectTrafficAnomalies sampleDb "/coorg-adventure-trek"
                         (hours 94) (hours 70) (hours 94) = [trekSurge].
Proof.
  rewrite (detectTrafficAnomalies_eval sampleDb "/coorg-adventure-trek"
             (hours 94) (hours 70) (hours 94) [100; 120; 110; 90; 105] 105 10
             [trekViews 98 400]);
    [ | reflexivity | discriminate | exact sample_traffic_mean
      | exact sample_traffic_stddev | reflexivity ].
  cbn [flat_map app]; flag_yes; reflexivity.
Qed.

Lemma sample_bike_traffic :
  detectTrafficAnomalies sampleDb "/ladakh-bike-trip"
                         (hours 94) (hours 70) (hours 94) = [bikeSurge].
Proof.
  rewrite (detectTrafficAnomalies_eval sampleDb "/ladakh-bike-trip"
             (hours 94) (hours 70) (hours 94) [50; 50] 50 0
             [bikeViews 98 50; bikeViews 99 51]);
    [ | reflexivity | discriminate
      | apply calculateMean_const; [discriminate|repeat constructor]
      | apply calculateStdDev_const; repeat constructor | reflexivity ].
  cbn [flat_map app]; flag_no; flag_yes; reflexivity.
Qed.

Lemma sample_maldives_traffic :
  detectTrafficAnomalies sampleDb "/maldives-packages"
                         (hours 94) (hours 70) (hours 94) = [].
Proof.
  rewrite (detectTrafficAnomalies_eval sampleDb "/maldives-packages"
             (hours 94) (hours 70) (hours 94) [70] 70 0
             [maldivesViews 98 70]);
    [ | reflexivity | discriminate
      | apply calculateMean_const; [discriminate|repeat constructor]
      | apply calculateStdDev_const; repeat constructor | reflexivity ].
  cbn [flat_map app]; flag_no; reflexivity.
Qed.

Lemma sample_conversion_spread : 0 <= sqrt 0.021875 < 0.15.
Proof. split; [apply sqrt_pos|apply sqrt_lt_of_sq; lra]. Qed.

Lemma sample_bike_engagement :
  detectEngagementAnomalies sampleDb "/ladakh-bike-trip"
                            (hours 94) (hours 70) (hours 94)
  = [bikeConversionDrop].
Proof.
  unfold detectEngagementAnomalies; cbv zeta.
  rewrite (detectMetricAnomaly_eval sampleDb "/ladakh-bike-trip"
             (hours 94) (hours 70) (hours 94) "avgSessionDuration"
             "UserActions" "Session Duration" get_avgSessionDuration
             [200; 200; 200; 200] 200 0 [UserActionsRow (bikeActions 98 1.8)]);
    [ | reflexivity | discriminate
      | apply calculateMean_const; [discriminate|repeat constructor]
      | apply calculateStdDev_const; repeat constructor | reflexivity ].
  rewrite (detectMetricAnomaly_eval sampleDb "/ladakh-bike-trip"
             (hours 94) (hours 70) (hours 94) "bounceRate"
             "Engagement" "Bounce Rate" get_bounceRate
             [35; 35; 35; 35] 35 0 [UserActionsRow (bikeActions 98 1.8)]);
    [ | reflexivity | discriminate
      | apply calculateMean_const; [discriminate|repeat constructor]
      | apply calculateStdDev_const; repeat constructor | reflexivity ].
  rewrite (detectMetricAnomaly_eval sampleDb "/ladakh-bike-trip"
             (hours 94) (hours 70) (hours 94) "conversionRate"
             "Conversion" "Conversion Rate" get_conversionRate
             [3.0; 3.2; 2.8; 3.1] 3.025 (sqrt 0.021875)
             [UserActionsRow (bikeActions 98 1.8)]);
    [ | reflexivity | discriminate | exact sample_conversion_mean
      | exact sample_conversion_stddev | reflexivity ].
  pose proof sample_conversion_spread.
  cbn [flat_map app]; flag_no; flag_no; flag_yes; reflexivity.
Qed.

Lemma sample_maldives_performance :
  detectPerformanceAnomalies sampleDb "/maldives-packages"
                             (hours 94) (hours 70) (hours 94)
  = [maldivesSlowdown].
Proof.
  unfold detectPerformanceAnomalies; cbv zeta.
  rewrite (detectMetricAnomaly_eval sampleDb "/maldives-packages"
             (hours 94) (hours 70) (hours 94) "avgLoadTime"
             "Performance" "Load Time" get_avgLoadTime
             [1200; 1200; 1200] 1200 0 [PerformanceRow (maldivesLoad 98 3000)]);
    [ | reflexivity | discriminate
      | apply calculateMean_const; [discriminate|repeat constructor]
      | apply calculateStdDev_const; repeat constructor | reflexivity ].
  rewrite (detectMetricAnomaly_eval sampleDb "/maldives-packages"
             (hours 94) (hours 70) (hours 94) "errorRate"
             "Performance" "Error Rate" get_errorRate
             [1; 1; 1] 1 0 [PerformanceRow (maldivesLoad 98 3000)]);
    [ | reflexivity | discriminate
      | apply calculateMean_const; [discriminate|repeat constructor]
      | apply calculateStdDev_const; repeat constructor | reflexivity ].
  cbn [flat_map app]; flag_yes; flag_no; reflexivity.
Qed.

Lemma sample_aggregated :
  detectAnomalies sampleDb (hours 100)
  = [trekSurge; bikeSurge; bikeConversionDrop; maldivesSlowdown].
Proof.
  unfold detectAnomalies.
  change (getUniquePages sampleDb)
    with ["/coorg-adventure-trek"; "/ladakh-bike-trip"; "/maldives-packages"].
  cbv zeta; cbn [flat_map].
  change (hours 100 - 6 * 60 * 60 * 1000)%Z with (hours 94).
  change (hours 100 - 30 * 60 * 60 * 1000)%Z with (hours 70).
  rewrite sample_trek_traffic, sample_bike_traffic, sample_maldives_traffic,
    sample_bike_engagement, sample_maldives_performance.
  reflexivity.
Qed.

Lemma sample_granular :
  detectGranularAnomalies sampleDb (hours 100) = [trekSurge; bikeSurge].
Proof.
  rewrite detectGranularAnomalies_is_page_traffic.
  change (getUniquePages sampleDb)
    with ["/coorg-adventure-trek"; "/ladakh-bike-trip"; "/maldives-packages"].
  cbn [flat_map].
  change (hours 100 - 6 * 60 * 60 * 1000)%Z with (hours 94).
  change (hours 100 - 30 * 60 * 60 * 1000)%Z with (hours 70).
  rewrite sample_trek_traffic, sample_bike_traffic, sample_maldives_traffic.
  reflexivity.
Qed.

Lemma sample_unique :
  uniqueAnomaliesOf sampleDb (hours 100) (hours 100)
  = [trekSurge; bikeSurge; bikeConversionDrop; maldivesSlowdown].
Proof.
  unfold uniqueAnomaliesOf; cbv zeta.
  rewrite sample_aggregated, sample_granular; reflexivity.
Qed.

Lemma no_row_no_correlation (db : Prisma) (tz : Z)
    (anomaly : AnomalyDetectionResult) :
  hourBucketRow db tz (page anomaly) (timestamp anomaly) = None ->
  correlatedFor db tz anomaly = [].
Proof.
  intros Hrow; unfold correlatedFor, trafficConversionCheck,
    loadTimeBounceCheck.
  rewrite getConversionDataForPage_spec, getBounceRateForPage_spec, Hrow.
  repeat destruct (_ && _); reflexivity.
Qed.

Lemma sample_correlations :
  analyzeCorrelations sampleDb 0
    [trekSurge; bikeSurge; bikeConversionDrop; maldivesSlowdown] = [].
Proof.
  unfold analyzeCorrelations; cbn [flat_map].
  rewrite (no_row_no_correlation sampleDb 0 trekSurge) by reflexivity.
  rewrite (no_row_no_correlation sampleDb 0 bikeSurge) by reflexivity.
  rewrite (no_row_no_correlation sampleDb 0 maldivesSlowdown) by reflexivity.
  reflexivity.
Qed.

(** [toFixed] once the rounded magnitude is known. *)
Lemma toFixed_nonneg (x : number) (f : nat) (n : Z) :
  0 <= x -> IZR n <= x * 10 ^ f + / 2 < IZR n + 1 ->
  toFixed x f = fixedDigits n f.
Proof.
  intros Hx Hn; unfold toFixed.
  replace (num_lt x 0) with false by (symmetry; apply num_lt_false; exact Hx).
  rewrite (Zfloor_eq n) by exact Hn; reflexivity.
Qed.

Lemma toFixed_neg (x : number) (f : nat) (n : Z) :
  x < 0 -> IZR n <= - x * 10 ^ f + / 2 < IZR n + 1 ->
  toFixed x f = ("-" ++ fixedDigits n f)%string.
Proof.
  intros Hx Hn; unfold toFixed.
  replace (num_lt x 0) with true by (symmetry; apply num_lt_true; exact Hx).
  rewrite (Zfloor_eq n) by exact Hn; reflexivity.
Qed.

Lemma num_ge_true (a b : number) : num_ge a b = true <-> a >= b.
Proof.
  unfold num_ge; destruct (Rge_dec a b); split; intros; auto; discriminate.
Qed.

Lemma num_ge_false (a b : number) : num_ge a b = false <-> a < b.
Proof.
  unfold num_ge; destruct (Rge_dec a b); split; intros; auto;
    try discriminate; lra.
Qed.

(** The insight of the README example: a surge of +340% from Instagram. *)
Lemma surge_insight_generated :
  generateInsightForAnomaly surgeAnomaly [] = Some surgeInsight.
Proof.
  unfold generateInsightForAnomaly; cbv zeta.
  change (percentageChange surgeAnomaly) with 340.
  replace (num_ge 340 0) with true by (symmetry; apply num_ge_true; lra).
  rewrite (toFixed_nonneg 340 0 340) by (simpl; lra).
  change ((metricType surgeAnomaly =? "Traffic")%string
          && (metric surgeAnomaly =? "PageViews")%string) with true.
  cbv iota; unfold generateTrafficInsight; cbv zeta.
  change (percentageChange surgeAnomaly) with 340.
  replace (num_gt 340 0) with true by (symmetry; apply num_gt_true; lra).
  reflexivity.
Qed.

Lemma sample_changes :
  percentageChange trekSurge > 0
  /\ percentageChange bikeSurge > 0
  /\ toFixed (percentageChange trekSurge) 0 = "281"
  /\ toFixed (percentageChange bikeSurge) 0 = "2"
  /\ toFixed (percentageChange bikeConversionDrop) 0 = "-40"
  /\ toFixed (percentageChange maldivesSlowdown) 0 = "150"
  /\ percentageChange bikeConversionDrop < 0
  /\ percentageChange maldivesSlowdown > 0.
Proof.
  repeat split.
  - cbn; lra.
  - cbn; lra.
  - rewrite (toFixed_nonneg _ 0 281); [reflexivity|cbn; lra|cbn; lra].
  - rewrite (toFixed_nonneg _ 0 2); [reflexivity|cbn; lra|cbn; lra].
  - rewrite (toFixed_neg _ 0 40); [reflexivity|cbn; lra|cbn; lra].
  - rewrite (toFixed_nonneg _ 0 150); [reflexivity|cbn; lra|cbn; lra].
  - cbn; lra.
  - cbn; lra.
Qed.

Lemma sample_insights :
  insightsOf sampleDb 0 (hours 100) (hours 100)
  = [trekInsight; bikeInsight; bikeConversionInsight; maldivesInsight].
Proof.
  destruct sample_changes as [Ht [Hb [Ft [Fb [Fc [Fm [Hc Hm]]]]]]].
  unfold insightsOf; cbv zeta.
  rewrite sample_unique, sample_correlations.
  cbn [flat_map]; unfold generateInsightForAnomaly; cbv zeta.
  rewrite Ft, Fb, Fc, Fm.
  replace (num_ge (percentageChange trekSurge) 0) with true
    by (symmetry; apply num_ge_true; lra).
  replace (num_ge (percentageChange bikeSurge) 0) with true
    by (symmetry; apply num_ge_true; lra).
  replace (num_ge (percentageChange bikeConversionDrop) 0) with false
    by (symmetry; apply num_ge_false; lra).
  replace (num_ge (percentageChange maldivesSlowdown) 0) with true
    by (symmetry; apply num_ge_true; lra).
  reflexivity.
Qed.

Lemma sample_insight_types :
  BusinessInsight.type trekInsight = "Traffic Surge"
  /\ BusinessInsight.type bikeInsight = "Traffic Surge"
  /\ BusinessInsight.type bikeConversionInsight = "Conversion Drop"
  /\ BusinessInsight.type maldivesInsight = "Performance Issue".
Proof.
  destruct sample_changes as [Ht [Hb _]].
  unfold trekInsight, bikeInsight, generateTrafficInsight;
    cbn [BusinessInsight.type].
  replace (num_gt (percentageChange trekSurge) 0) with true
    by (symmetry; apply num_gt_true; lra).
  replace (num_gt (percentageChange bikeSurge) 0) with true
    by (symmetry; apply num_gt_true; lra).
  repeat split.
Qed.

Lemma calculateImpactScore_eval (insight : BusinessInsight.t)
    (allAnomalies : list AnomalyDetectionResult) (now : Z)
    (anomaly : AnomalyDetectionResult) (criticality hoursAgo : number)
    (score : Z) :
  findAnomalyFor insight allAnomalies = Some anomaly ->
  criticalityScore (BusinessInsight.type insight) = criticality ->
  (IZR now - IZR (BusinessInsight.detectedAt insight)) / (1000 * 60 * 60)
  = hoursAgo ->
  IZR score - / 2
  <= Rmin (Rabs (percentageChange anomaly) / 5) 100 * 0.3
     + criticality * 0.4
     + Rmax 0 (100 - hoursAgo * 10) * 0.3
  < IZR score + / 2 ->
  calculateImpactScore insight allAnomalies now = score.
Proof.
  intros Hfind <- <- Hbound; unfold calculateImpactScore; rewrite Hfind.
  apply Math_round_eq; exact Hbound.
Qed.

Ltac score_bound :=
  cbn [percentageChange trekSurge bikeSurge bikeConversionDrop maldivesSlowdown
       trafficAnomaly metricAnomaly get_conversionRate get_avgLoadTime
       PageViewsHourly.viewCount UserActionsHourly.conversionRate
       PerformanceHourly.avgLoadTime trekViews bikeViews bikeActions
       maldivesLoad];
  unfold Rmin, Rmax, Rabs;
  repeat match goal with
         | |- context [Rcase_abs ?a] => destruct (Rcase_abs a)
         end;
  repeat match goal with
         | |- context [Rle_dec ?a ?b] => destruct (Rle_dec a b)
         end; lra.

Lemma sample_hoursAgo (h : Z) :
  (IZR (hours 100) - IZR (hours h)) / (1000 * 60 * 60) = 100 - IZR h.
Proof.
  unfold hours; rewrite !mult_IZR; field.
Qed.


Lemma sample_scored :
  scoredInsightsOf sampleDb 0 (hours 100) (hours 100) (fun _ => hours 100)
  = [withImpactScore trekInsight 65; withImpactScore bikeInsight 51;
     withImpactScore bikeConversionInsight 62;
     withImpactScore maldivesInsight 61].
Proof.
  destruct sample_insight_types as [Tt [Tb [Tc Tm]]].
  unfold scoredInsightsOf; rewrite sample_insights, sample_unique.
  cbn [scoreInsights].
  rewrite (calculateImpactScore_eval trekInsight _ (hours 100) trekSurge 60
             (100 - 98) 65);
    [ | reflexivity | rewrite Tt; reflexivity | apply sample_hoursAgo
      | score_bound ].
  rewrite (calculateImpactScore_eval bikeInsight _ (hours 100) bikeSurge 60
             (100 - 99) 51);
    [ | reflexivity | rewrite Tb; reflexivity | apply sample_hoursAgo
      | score_bound ].
  rewrite (calculateImpactScore_eval bikeConversionInsight _ (hours 100)
             bikeConversionDrop 90 (100 - 98) 62);
    [ | reflexivity | rewrite Tc; reflexivity | apply sample_hoursAgo
      | score_bound ].
  rewrite (calculateImpactScore_eval maldivesInsight _ (hours 100)
             maldivesSlowdown 70 (100 - 98) 61);
    [ | reflexivity | rewrite Tm; reflexivity | apply sample_hoursAgo
      | score_bound ].
  reflexivity.
Qed.

(** The response for the sample repository: four insights, ranked. *)
Lemma sample_ranked :
  generateBusinessInsights sampleDb 0 (hours 100) (hours 100)
                           (fun _ => hours 100)
  = [withImpactScore trekInsight 65;
     withImpactScore bikeConversionInsight 62;
     withImpactScore maldivesInsight 61;
     withImpactScore bikeInsight 51].
Proof.
  unfold generateBusinessInsights; rewrite sample_scored; reflexivity.
Qed.

Lemma sample_headlines :
  map headline
      (generateBusinessInsights sampleDb 0 (hours 100) (hours 100)
                                (fun _ => hours 100))
  = [("Traffic Surge", "/coorg-adventure-trek", "+281%", 65%Z);
     ("Conversion Drop", "/ladakh-bike-trip", "-40%", 62%Z);
     ("Performance Issue", "/maldives-packages", "+150%", 61%Z);
     ("Traffic Surge", "/ladakh-bike-trip", "+2%", 51%Z)].
Proof.
  destruct sample_insight_types as [Tt [Tb [Tc Tm]]].
  rewrite sample_ranked; unfold headline; cbn [map withImpactScore
    BusinessInsight.type BusinessInsight.page BusinessInsight.change
    BusinessInsight.impactScore].
  rewrite Tt, Tb, Tc, Tm; reflexivity.
Qed.

Lemma sample_top_insight_text :
  BusinessInsight.businessInsight trekInsight
  = "Traffic surge of +281% detected on /coorg-adventure-trek. Organic traffic spike from Instagram campaign — likely viral post engagement. Primary traffic from South India."
  /\ BusinessInsight.suggestedAction trekInsight
     = "Increase ad spend for South India audiences. Create follow-up content to maintain momentum.".
Proof.
  destruct sample_changes as [Ht _].
  unfold trekInsight, generateTrafficInsight; cbv zeta.
  cbn [BusinessInsight.businessInsight BusinessInsight.suggestedAction].
  replace (num_gt (percentageChange trekSurge) 0) with true
    by (symmetry; apply num_gt_true; lra).
  split; reflexivity.
Qed.

(** C3 at the sample repository: four insights are found, all four are
    returned, in descending order of score. *)
Lemma C3_ranked_output_sorted_top5_witness :
  (List.length (insightsOf sampleDb 0 (hours 100) (hours 100)) < 5)%nat
  /\ Permutation
       (generateBusinessInsights sampleDb 0 (hours 100) (hours 100)
                                 (fun _ => hours 100))
       (scoredInsightsOf sampleDb 0 (hours 100) (hours 100)
                         (fun _ => hours 100))
  /\ StronglySorted scoreGe
       (generateBusinessInsights sampleDb 0 (hours 100) (hours 100)
                                 (fun _ => hours 100))
  /\ map BusinessInsight.impactScore
         (generateBusinessInsights sampleDb 0 (hours 100) (hours 100)
                                   (fun _ => hours 100))
     = [65; 62; 61; 51]%Z.
Proof.
  assert (Hfew : (List.length (insightsOf sampleDb 0 (hours 100) (hours 100))
                  < 5)%nat)
    by (rewrite sample_insights; simpl; lia).
  destruct (C3_ranked_output_sorted_top5 sampleDb 0 (hours 100) (hours 100)
              (fun _ => hours 100)) as [Hsorted [_ [_ [_ [_ [Hall _]]]]]].
  destruct (Hall Hfew) as [Hperm _].
  repeat split; auto.
  rewrite sample_ranked; reflexivity.
Defined.

(** * Further properties of the engine *)

(** ** Deduplication keeps members *)

Lemma in_deduplicateAnomalies (l : list AnomalyDetectionResult)
    (a : AnomalyDetectionResult) :
  In a (deduplicateAnomalies l) -> In a l.
Proof.
  rewrite deduplicateAnomalies_firstOccurrences, in_firstOccurrences.
  intros [pre [post [-> _]]]; apply in_or_app; right; left; reflexivity.
Qed.

(** ** Where an anomaly record comes from *)

Lemma detectMetricAnomaly_source (db : Prisma) (pg : string)
    (recentStart baselineStart baselineEnd : Z)
    (metricField metricType metricName : string)
    (valueExtractor : MetricRow -> number) (a : AnomalyDetectionResult) :
  In a (detectMetricAnomaly db pg recentStart baselineStart baselineEnd
                            metricField metricType metricName valueExtractor) ->
  exists d,
    (if usesUserActions metricField
     then exists u, d = UserActionsRow u /\ In u (userActionsHourly db)
     else exists p, d = PerformanceRow p /\ In p (performanceHourly db))
    /\ row_page d = pg
    /\ a = metricAnomaly metricType metricName valueExtractor d
             (baselineMean a) (baselineStdDev a).
Proof.
  intros Ha; apply detectMetricAnomaly_origin in Ha.
  destruct Ha as [d [M [S [Hd ->]]]].
  apply findMetricRows_spec in Hd; destruct Hd as [Hrow [Hpg _]].
  exists d; repeat split; assumption.
Qed.

Lemma detectAnomalies_source :
  forall (db : Prisma) (now : Z) (a : AnomalyDetectionResult),
    In a (detectAnomalies db now) ->
    In (page a) (getUniquePages db) /\ readFromRow db a.
Proof.
  intros db now a.
  unfold detectAnomalies, detectEngagementAnomalies, detectPerformanceAnomalies.
  rewrite in_flat_map; intros [pg [Hpg Ha]].
  repeat rewrite in_app_iff in Ha.
  destruct Ha as [Ha|[[Ha|[Ha|Ha]]|[Ha|Ha]]].
  - apply detectTrafficAnomalies_origin in Ha.
    destruct Ha as [r [M [S [Hr ->]]]].
    apply findTraffic_spec in Hr; destruct Hr as [Hin [Hp _]].
    split; [rewrite <- Hp in Hpg; exact Hpg|].
    left; split; [reflexivity|exists r; repeat split; assumption].
  - apply detectMetricAnomaly_source in Ha.
    destruct Ha as [d [[u [-> Hu]] [Hp ->]]]; simpl in Hp.
    split; [rewrite <- Hp in Hpg; exact Hpg|].
    right; left; split; [simpl; auto|exists u; repeat split; assumption].
  - apply detectMetricAnomaly_source in Ha.
    destruct Ha as [d [[u [-> Hu]] [Hp ->]]]; simpl in Hp.
    split; [rewrite <- Hp in Hpg; exact Hpg|].
    right; left; split; [simpl; auto|exists u; repeat split; assumption].
  - apply detectMetricAnomaly_source in Ha.
    destruct Ha as [d [[u [-> Hu]] [Hp ->]]]; simpl in Hp.
    split; [rewrite <- Hp in Hpg; exact Hpg|].
    right; left; split; [simpl; auto|exists u; repeat split; assumption].
  - apply detectMetricAnomaly_source in Ha.
    destruct Ha as [d [[p [-> Hu]] [Hp ->]]]; simpl in Hp.
    split; [rewrite <- Hp in Hpg; exact Hpg|].
    right; right; split; [reflexivity|exists p; repeat split; assumption].
  - apply detectMetricAnomaly_source in Ha.
    destruct Ha as [d [[p [-> Hu]] [Hp ->]]]; simpl in Hp.
    split; [rewrite <- Hp in Hpg; exact Hpg|].
    right; right; split; [reflexivity|exists p; repeat split; assumption].
Qed.

(** X3. Every anomaly of the page-aggregate pass names a page that has
    page-view rows (pages known only to the user-action or performance tables
    are never analysed), and it was read from a stored row of the table of its
    metric, whose page, instant and tags it carries. *)
Theorem X3_anomalies_stem_from_stored_rows :
  forall (db : Prisma) (now : Z) (a : AnomalyDetectionResult),
    In a (detectAnomalies db now) ->
    (exists v, In v (pageViewsHourly db) /\ PageViewsHourly.page v = page a)
    /\ readFromRow db a.
Proof.
  intros db now a Ha.
  destruct (detectAnomalies_source db now a Ha) as [Hpage Hrow].
  split; [|exact Hrow].
  apply getUniquePages_In; exact Hpage.
Qed.

Lemma X3_anomalies_stem_from_stored_rows_witness :
  In maldivesSlowdown (detectAnomalies sampleDb (hours 100))
  /\ (exists v, In v (pageViewsHourly sampleDb)
        /\ PageViewsHourly.page v = page maldivesSlowdown)
  /\ readFromRow sampleDb maldivesSlowdown.
Proof.
  assert (Hin : In maldivesSlowdown (detectAnomalies sampleDb (hours 100)))
    by (rewrite sample_aggregated; simpl; auto).
  split; [exact Hin|].
  exact (X3_anomalies_stem_from_stored_rows sampleDb (hours 100)
           maldivesSlowdown Hin).
Defined.

(** ** Deduplication and the merge of the two passes *)

Lemma firstOccurrences_fixed (l : list AnomalyDetectionResult) :
  forall seen,
    NoDup (map anomalyKey l) ->
    (forall a, In a l -> ~ In (anomalyKey a) seen) ->
    firstOccurrences seen l = l.
Proof.
  induction l as [|x l IH]; intros seen Hnd Hfresh; simpl; [reflexivity|].
  inversion Hnd as [|k ks Hx Hnd']; subst.
  replace (existsb (String.eqb (anomalyKey x)) seen) with false
    by (symmetry; apply seen_has_not, Hfresh; left; reflexivity).
  f_equal; apply IH; [exact Hnd'|].
  intros a Ha [Hk|Hk].
  - apply Hx; rewrite Hk; apply in_map; exact Ha.
  - apply (Hfresh a); [right; exact Ha|exact Hk].
Qed.

Lemma firstOccurrences_length (l : list AnomalyDetectionResult) :
  forall seen, (List.length (firstOccurrences seen l) <= List.length l)%nat.
Proof.
  induction l as [|x l IH]; intros seen; simpl; [lia|].
  destruct (existsb _ seen); simpl;
    [specialize (IH seen)|specialize (IH (anomalyKey x :: seen))]; lia.
Qed.

Lemma firstOccurrences_keys (l : list AnomalyDetectionResult) :
  forall seen a,
    In a l ->
    In (anomalyKey a) seen
    \/ In (anomalyKey a) (map anomalyKey (firstOccurrences seen l)).
Proof.
  induction l as [|x l IH]; intros seen a Ha; [destruct Ha|]; simpl.
  destruct (existsb (String.eqb (anomalyKey x)) seen) eqn:E.
  - destruct Ha as [<-|Ha]; [left; apply seen_has; exact E|apply IH; exact Ha].
  - simpl; destruct Ha as [<-|Ha]; [right; left; reflexivity|].
    destruct (IH (anomalyKey x :: seen) a Ha) as [[Hk|Hk]|Hk]; auto.
Qed.

Lemma deduplicateAnomalies_fixed (l : list AnomalyDetectionResult) :
  NoDup (map anomalyKey l) -> deduplicateAnomalies l = l.
Proof.
  intros Hnd; rewrite deduplicateAnomalies_firstOccurrences.
  apply firstOccurrences_fixed; [exact Hnd|intros a _ []].
Qed.

(** X4. Deduplication returns a list of pairwise distinct keys unchanged;
    applying it twice is the same as applying it once; its result is never
    longer than its input; and no key is lost: every anomaly of the input has
    a representative with the same key in the result. *)
Theorem X4_deduplication_fixed_points :
  forall L : list AnomalyDetectionResult,
    (NoDup (map anomalyKey L) -> deduplicateAnomalies L = L)
    /\ deduplicateAnomalies (deduplicateAnomalies L) = deduplicateAnomalies L
    /\ (List.length (deduplicateAnomalies L) <= List.length L)%nat
    /\ (forall a, In a L ->
          exists b, In b (deduplicateAnomalies L)
                    /\ anomalyKey b = anomalyKey a).
Proof.
  intros L; split; [apply deduplicateAnomalies_fixed|].
  split.
  { apply deduplicateAnomalies_fixed.
    rewrite deduplicateAnomalies_firstOccurrences.
    apply firstOccurrences_NoDup. }
  split.
  { rewrite deduplicateAnomalies_firstOccurrences.
    apply firstOccurrences_length. }
  intros a Ha; rewrite deduplicateAnomalies_firstOccurrences.
  destruct (firstOccurrences_keys L [] a Ha) as [[]|Hk].
  apply in_map_iff in Hk; destruct Hk as [b [Hk Hb]]; eauto.
Qed.

(** X5. When both detection passes read the same instant, the granular pass
    adds nothing to the merged list: the anomalies that reach insight
    generation are those of the page-aggregate pass, deduplicated. *)
Theorem X5_same_instant_merge_is_aggregate_pass :
  forall (db : Prisma) (now : Z),
    uniqueAnomaliesOf db now now = deduplicateAnomalies (detectAnomalies db now).
Proof.
  intros db now; unfold uniqueAnomaliesOf; cbv zeta.
  rewrite !deduplicateAnomalies_firstOccurrences, firstOccurrences_app.
  rewrite (firstOccurrences_covered (detectGranularAnomalies db now)).
  - apply app_nil_r.
  - intros a Ha; rewrite app_nil_r; apply in_map.
    apply detectGranularAnomalies_incl; exact Ha.
Qed.

(** ** From anomaly to insight *)

(** The seven ways [generateInsightForAnomaly] can go: one per template, and
    the fall-through. *)
Lemma generateInsightForAnomaly_cases (anomaly : AnomalyDetectionResult)
    (correlations : list CorrelationResult) :
  let correlation :=
    find (fun c => (page (primaryAnomaly c) =? page anomaly)%string
                   && (timestamp (primaryAnomaly c) =? timestamp anomaly)%Z)
         correlations in
  let change :=
    ((if num_ge (percentageChange anomaly) 0 then "+" else "")
     ++ toFixed (percentageChange anomaly) 0 ++ "%")%string in
  (metricType anomaly = "Traffic" /\ metric anomaly = "PageViews"
   /\ generateInsightForAnomaly anomaly correlations
      = Some (generateTrafficInsight anomaly change correlation))
  \/ (metricType anomaly = "Performance" /\ metric anomaly = "Load Time"
      /\ generateInsightForAnomaly anomaly correlations
         = Some (generatePerformanceInsight anomaly change correlation))
  \/ (metricType anomaly = "UserActions" /\ metric anomaly = "Session Duration"
      /\ generateInsightForAnomaly anomaly correlations
         = Some (generateEngagementInsight anomaly change correlation))
  \/ (metricType anomaly = "Conversion" /\ metric anomaly = "Conversion Rate"
      /\ generateInsightForAnomaly anomaly correlations
         = Some (generateConversionInsight anomaly change correlation))
  \/ (metricType anomaly = "Engagement" /\ metric anomaly = "Bounce Rate"
      /\ generateInsightForAnomaly anomaly correlations
         = Some (generateBounceRateInsight anomaly change correlation))
  \/ (metricType anomaly = "Performance" /\ metric anomaly = "Error Rate"
      /\ generateInsightForAnomaly anomaly correlations
         = Some (generateErrorRateInsight anomaly change correlation))
  \/ (~ In (metricType anomaly, metric anomaly) trackedPairs
      /\ generateInsightForAnomaly anomaly correlations = None).
Proof.
  intros correlation change; unfold generateInsightForAnomaly; cbv zeta.
  fold correlation; fold change.
  destruct ((metricType anomaly =? "Traffic")%string
            && (metric anomaly =? "PageViews")%string) eqn:E1;
    [apply andb_true_iff in E1; rewrite !String.eqb_eq in E1; tauto|].
  destruct ((metricType anomaly =? "Performance")%string
            && (metric anomaly =? "Load Time")%string) eqn:E2;
    [apply andb_true_iff in E2; rewrite !String.eqb_eq in E2; tauto|].
  destruct ((metricType anomaly =? "UserActions")%string
            && (metric anomaly =? "Session Duration")%string) eqn:E3;
    [apply andb_true_iff in E3; rewrite !String.eqb_eq in E3; tauto|].
  destruct ((metricType anomaly =? "Conversion")%string
            && (metric anomaly =? "Conversion Rate")%string) eqn:E4;
    [apply andb_true_iff in E4; rewrite !String.eqb_eq in E4; tauto|].
  destruct ((metricType anomaly =? "Engagement")%string
            && (metric anomaly =? "Bounce Rate")%string) eqn:E5;
    [apply andb_true_iff in E5; rewrite !String.eqb_eq in E5; tauto|].
  destruct ((metricType anomaly =? "Performance")%string
            && (metric anomaly =? "Error Rate")%string) eqn:E6;
    [apply andb_true_iff in E6; rewrite !String.eqb_eq in E6; tauto|].
  do 6 right; split; [|reflexivity].
  unfold trackedPairs; simpl.
  intros [H|[H|[H|[H|[H|[H|[]]]]]]]; inversion H as [[Ht Hm]];
    rewrite <- Ht, <- Hm, !String.eqb_refl in *; discriminate.
Qed.

(** X6. [generateInsightForAnomaly] yields an insight exactly for the six
    tracked (metricType, metric) pairs and nothing for any other pair; the
    insight carries the anomaly's page, metric label and instant, the change
    text (sign, rounded percentage, percent sign) and an impact score of 0,
    which the scoring step overwrites. *)
Theorem X6_insight_exactly_for_tracked_pairs :
  forall (anomaly : AnomalyDetectionResult)
         (correlations : list CorrelationResult),
    (generateInsightForAnomaly anomaly correlations = None
     <-> ~ In (metricType anomaly, metric anomaly) trackedPairs)
    /\ (forall insight,
          generateInsightForAnomaly anomaly correlations = Some insight ->
          BusinessInsight.page insight = page anomaly
          /\ BusinessInsight.metric insight = metric anomaly
          /\ BusinessInsight.detectedAt insight = timestamp anomaly
          /\ BusinessInsight.impactScore insight = 0%Z
          /\ BusinessInsight.change insight
             = ((if num_ge (percentageChange anomaly) 0 then "+" else "")
                ++ toFixed (percentageChange anomaly) 0 ++ "%")%string).
Proof.
  intros anomaly correlations.
  pose proof (generateInsightForAnomaly_cases anomaly correlations) as H.
  cbv zeta in H.
  destruct H as [[Ht [Hm Hg]]|[[Ht [Hm Hg]]|[[Ht [Hm Hg]]|[[Ht [Hm Hg]]
                |[[Ht [Hm Hg]]|[[Ht [Hm Hg]]|[Hn Hg]]]]]]]; rewrite Hg.
  1-6: split;
    [split; [discriminate|];
     intros Hn; exfalso; apply Hn; rewrite Ht, Hm; unfold trackedPairs;
     simpl; auto 10
    |intros insight [= <-]; rewrite Hm; repeat split].
  split; [tauto|intros insight; discriminate].
Qed.

Ltac insight_type_case :=
  first [reflexivity
        |discriminate
        |unfold criticalityScore; simpl; lra
        |match goal with
         | H : _ \/ _ |- _ => destruct H; discriminate
         end].

(** X7. The type of a generated insight and its criticality in the impact
    score: a page-view anomaly gives a "Traffic Surge" when its change is
    positive and a "Traffic Drop" otherwise (criticality 60); a
    conversion-rate anomaly gives a "Conversion Drop" whatever the direction
    of the change (90); load-time and error-rate anomalies give a
    "Performance Issue" and session-duration and bounce-rate anomalies an
    "Engagement Drop", again whatever the direction (70).  No generated type
    contains the word Error, so an error-rate insight is rated 70, not 90,
    and the default criticality 50 is never used. *)
Theorem X7_insight_type_and_criticality :
  forall (anomaly : AnomalyDetectionResult)
         (correlations : list CorrelationResult) (insight : BusinessInsight.t),
    generateInsightForAnomaly anomaly correlations = Some insight ->
    let type := BusinessInsight.type insight in
    (metric anomaly = "PageViews" ->
     type = (if num_gt (percentageChange anomaly) 0
             then "Traffic Surge" else "Traffic Drop")
     /\ criticalityScore type = 60)
    /\ (metric anomaly = "Conversion Rate" ->
        type = "Conversion Drop" /\ criticalityScore type = 90)
    /\ (metric anomaly = "Load Time" \/ metric anomaly = "Error Rate" ->
        type = "Performance Issue" /\ criticalityScore type = 70)
    /\ (metric anomaly = "Session Duration" \/ metric anomaly = "Bounce Rate" ->
        type = "Engagement Drop" /\ criticalityScore type = 70)
    /\ includes "Error" type = false
    /\ 60 <= criticalityScore type <= 90.
Proof.
  intros anomaly correlations insight Hsome type; subst type.
  pose proof (generateInsightForAnomaly_cases anomaly correlations) as H.
  cbv zeta in H.
  destruct H as [[Ht [Hm Hg]]|[[Ht [Hm Hg]]|[[Ht [Hm Hg]]|[[Ht [Hm Hg]]
                |[[Ht [Hm Hg]]|[[Ht [Hm Hg]]|[Hn Hg]]]]]]];
    rewrite Hg in Hsome; [| | | | | |discriminate];
    injection Hsome as <-; rewrite Hm.
  - cbn [generateTrafficInsight BusinessInsight.type].
    destruct (num_gt (percentageChange anomaly) 0);
      repeat split; insight_type_case.
  - cbn [generatePerformanceInsight BusinessInsight.type].
    repeat split; insight_type_case.
  - cbn [generateEngagementInsight BusinessInsight.type].
    repeat split; insight_type_case.
  - cbn [generateConversionInsight BusinessInsight.type].
    repeat split; insight_type_case.
  - cbn [generateBounceRateInsight BusinessInsight.type].
    repeat split; insight_type_case.
  - cbn [generateErrorRateInsight BusinessInsight.type].
    repeat split; insight_type_case.
Qed.

Lemma X7_insight_type_and_criticality_witness :
  generateInsightForAnomaly surgeAnomaly [] = Some surgeInsight
  /\ criticalityScore (BusinessInsight.type surgeInsight) = 60
  /\ includes "Error" (BusinessInsight.type surgeInsight) = false.
Proof.
  split; [exact surge_insight_generated|].
  destruct (X7_insight_type_and_criticality surgeAnomaly [] surgeInsight
              surge_insight_generated) as [Htraffic [_ [_ [_ [Herr _]]]]].
  split; [apply Htraffic; reflexivity|exact Herr].
Defined.

(** ** Which anomaly an insight is scored with *)

Lemma find_first {A : Type} (f : A -> bool) (l : list A) (a : A) :
  In a l -> f a = true ->
  exists a' pre post,
    find f l = Some a'
    /\ l = pre ++ a' :: post
    /\ f a' = true
    /\ forall b, In b pre -> f b = false.
Proof.
  induction l as [|x l IH]; intros Hin Hf; [destruct Hin|]; simpl.
  destruct (f x) eqn:Ex.
  - exists x, [], l; repeat split; auto; intros b [].
  - destruct Hin as [->|Hin]; [congruence|].
    destruct (IH Hin Hf) as [a' [pre [post [Hfind [-> [Ha' Hpre]]]]]].
    exists a', (x :: pre), post; repeat split; auto.
    intros b [<-|Hb]; auto.
Qed.

Lemma samePageInstant_spec (a : AnomalyDetectionResult) (pg : string) (t : Z) :
  (page a =? pg)%string && (timestamp a =? t)%Z = true
  <-> page a = pg /\ timestamp a = t.
Proof. rewrite andb_true_iff, String.eqb_eq, Z.eqb_eq; tauto. Qed.

Lemma samePageInstant_not (a : AnomalyDetectionResult) (pg : string) (t : Z) :
  (page a =? pg)%string && (timestamp a =? t)%Z = false
  <-> page a <> pg \/ timestamp a <> t.
Proof.
  rewrite andb_false_iff, String.eqb_neq, Z.eqb_neq; tauto.
Qed.

Lemma generated_page_instant (anomaly : AnomalyDetectionResult)
    (correlations : list CorrelationResult) (insight : BusinessInsight.t) :
  generateInsightForAnomaly anomaly correlations = Some insight ->
  BusinessInsight.page insight = page anomaly
  /\ BusinessInsight.detectedAt insight = timestamp anomaly.
Proof.
  intros Hsome.
  pose proof (generateInsightForAnomaly_cases anomaly correlations) as H.
  cbv zeta in H.
  destruct H as [[_ [_ Hg]]|[[_ [_ Hg]]|[[_ [_ Hg]]|[[_ [_ Hg]]
                |[[_ [_ Hg]]|[[_ [_ Hg]]|[_ Hg]]]]]]];
    rewrite Hg in Hsome; [| | | | | |discriminate];
    injection Hsome as <-; split; reflexivity.
Qed.

Lemma findAnomalyFor_generated (L : list AnomalyDetectionResult)
    (a : AnomalyDetectionResult) (correlations : list CorrelationResult)
    (insight : BusinessInsight.t) :
  In a L ->
  generateInsightForAnomaly a correlations = Some insight ->
  exists a' pre post,
    findAnomalyFor insight L = Some a'
    /\ L = pre ++ a' :: post
    /\ page a' = page a
    /\ timestamp a' = timestamp a
    /\ forall b, In b pre -> page b <> page a \/ timestamp b <> timestamp a.
Proof.
  intros Hin Hsome.
  destruct (generated_page_instant a correlations insight Hsome) as [Hp Ht].
  unfold findAnomalyFor; rewrite Hp, Ht.
  destruct (find_first
              (fun x => (page x =? page a)%string
                        && (timestamp x =? timestamp a)%Z) L a Hin)
    as [a' [pre [post [Hfind [HL [Ha' Hpre]]]]]].
  { apply samePageInstant_spec; split; reflexivity. }
  apply samePageInstant_spec in Ha'; destruct Ha' as [Hp' Ht'].
  exists a', pre, post; repeat split; auto.
  intros b Hb; apply samePageInstant_not, Hpre; exact Hb.
Qed.

(** X8. An insight generated from an anomaly of the list it is scored against
    always finds a matching anomaly, so the default score 50 is never used for
    it.  The match is made on page and instant only: it is the first anomaly
    of the list with the insight's page and instant, whatever its metric.
    Two insights of the same page and instant are therefore scored with the
    same anomaly, even when they stem from different metrics. *)
Theorem X8_insight_scored_with_first_anomaly_of_page_and_instant :
  forall (L : list AnomalyDetectionResult) (a : AnomalyDetectionResult)
         (correlations : list CorrelationResult) (insight : BusinessInsight.t),
    In a L ->
    generateInsightForAnomaly a correlations = Some insight ->
    (exists a' pre post,
        findAnomalyFor insight L = Some a'
        /\ L = pre ++ a' :: post
        /\ page a' = page a
        /\ timestamp a' = timestamp a
        /\ forall b, In b pre -> page b <> page a \/ timestamp b <> timestamp a)
    /\ (forall a2 correlations2 insight2,
          generateInsightForAnomaly a2 correlations2 = Some insight2 ->
          page a2 = page a -> timestamp a2 = timestamp a ->
          findAnomalyFor insight2 L = findAnomalyFor insight L).
Proof.
  intros L a correlations insight Hin Hsome.
  split; [exact (findAnomalyFor_generated L a correlations insight Hin Hsome)|].
  intros a2 correlations2 insight2 Hsome2 Hp Ht.
  destruct (generated_page_instant a correlations insight Hsome) as [Hp1 Ht1].
  destruct (generated_page_instant a2 correlations2 insight2 Hsome2)
    as [Hp2 Ht2].
  unfold findAnomalyFor; rewrite Hp1, Ht1, Hp2, Ht2, Hp, Ht; reflexivity.
Qed.

(** X8 at a list that holds two readings of one page and instant: the insight
    of the second reading is scored with the first. *)
Lemma X8_insight_scored_with_first_anomaly_of_page_and_instant_witness :
  In surgeAnomaly [surgeAnomalyDesktop; surgeAnomaly]
  /\ generateInsightForAnomaly surgeAnomaly [] = Some surgeInsight
  /\ exists a' pre post,
       findAnomalyFor surgeInsight [surgeAnomalyDesktop; surgeAnomaly]
       = Some a'
       /\ [surgeAnomalyDesktop; surgeAnomaly] = pre ++ a' :: post
       /\ page a' = page surgeAnomaly
       /\ timestamp a' = timestamp surgeAnomaly.
Proof.
  assert (Hin : In surgeAnomaly [surgeAnomalyDesktop; surgeAnomaly])
    by (simpl; auto).
  split; [exact Hin|split; [exact surge_insight_generated|]].
  destruct (X8_insight_scored_with_first_anomaly_of_page_and_instant
              [surgeAnomalyDesktop; surgeAnomaly] surgeAnomaly []
              surgeInsight Hin surge_insight_generated)
    as [[a' [pre [post [Hfind [HL [Hp [Ht _]]]]]]] _].
  exists a', pre, post; repeat split; assumption.
Defined.

(** ** The impact score over time *)

Lemma hoursAgo_mono (now now' detectedAt : Z) :
  (now <= now')%Z ->
  (IZR now - IZR detectedAt) / (1000 * 60 * 60)
  <= (IZR now' - IZR detectedAt) / (1000 * 60 * 60).
Proof.
  intros H; apply IZR_le in H; unfold Rdiv.
  apply Rmult_le_compat_r; [|lra].
  apply Rlt_le, Rinv_0_lt_compat; lra.
Qed.

Lemma div_bounds (x k c : number) :
  0 < c -> (k * c <= x -> k <= x / c) /\ (x <= k * c -> x / c <= k).
Proof.
  intros Hc.
  assert (Hx : x / c * c = x) by (field; lra).
  split; intros H; apply Rmult_le_reg_r with c; try exact Hc;
    rewrite Hx; exact H.
Qed.

Lemma hoursAgo_shift (now detectedAt k : Z) :
  (detectedAt + k * (60 * 60 * 1000) <= now)%Z ->
  IZR k <= (IZR now - IZR detectedAt) / (1000 * 60 * 60).
Proof.
  intros H; apply IZR_le in H.
  rewrite plus_IZR, !mult_IZR in H.
  apply (div_bounds _ _ (1000 * 60 * 60)); lra.
Qed.

Lemma hoursAgo_ahead (now detectedAt k : Z) :
  (now + k * (60 * 60 * 1000) <= detectedAt)%Z ->
  (IZR now - IZR detectedAt) / (1000 * 60 * 60) <= - IZR k.
Proof.
  intros H; apply IZR_le in H.
  rewrite plus_IZR, !mult_IZR in H.
  apply (div_bounds _ _ (1000 * 60 * 60)); lra.
Qed.

Lemma Math_round_mono (x y : number) :
  x <= y -> (Math_round x <= Math_round y)%Z.
Proof. intros H; unfold Math_round; apply Zfloor_le; lra. Qed.

Lemma recency_mono (h h' : number) :
  h <= h' -> Rmax 0 (100 - h' * 10) <= Rmax 0 (100 - h * 10).
Proof.
  intros H; unfold Rmax.
  destruct (Rle_dec 0 (100 - h' * 10)), (Rle_dec 0 (100 - h * 10)); lra.
Qed.

Lemma recency_spent (h : number) : 10 <= h -> Rmax 0 (100 - h * 10) = 0.
Proof.
  intros H; unfold Rmax; destruct (Rle_dec 0 (100 - h * 10)); lra.
Qed.

(** X9. The impact score of an insight never grows as time passes: scored
    later, an insight scores the same or less; and from ten hours after
    detection on the score no longer changes, the recency part being spent. *)
Theorem X9_impact_score_decays_with_age :
  forall (insight : BusinessInsight.t)
         (allAnomalies : list AnomalyDetectionResult) (now now' : Z),
    (now <= now')%Z ->
    (calculateImpactScore insight allAnomalies now'
     <= calculateImpactScore insight allAnomalies now)%Z
    /\ ((BusinessInsight.detectedAt insight + 10 * (60 * 60 * 1000) <= now)%Z ->
        calculateImpactScore insight allAnomalies now'
        = calculateImpactScore insight allAnomalies now).
Proof.
  intros insight allAnomalies now now' Hle.
  unfold calculateImpactScore.
  destruct (findAnomalyFor insight allAnomalies) as [anomaly|];
    [|split; [lia|reflexivity]].
  cbv zeta.
  pose proof (hoursAgo_mono now now' (BusinessInsight.detectedAt insight) Hle)
    as Hh.
  split.
  - apply Math_round_mono.
    pose proof (recency_mono _ _ Hh); lra.
  - intros Hold.
    pose proof (hoursAgo_shift now (BusinessInsight.detectedAt insight) 10 Hold)
      as H10.
    rewrite !recency_spent by lra; reflexivity.
Qed.

(** X9 at the scoring scenario: one hour later the surge scores no more. *)
Lemma X9_impact_score_decays_with_age_witness :
  (hours 100 <= hours 101)%Z
  /\ (calculateImpactScore surgeInsight [surgeAnomaly] (hours 101)
      <= calculateImpactScore surgeInsight [surgeAnomaly] (hours 100))%Z.
Proof.
  assert (Hle : (hours 100 <= hours 101)%Z) by (vm_compute; discriminate).
  split; [exact Hle|].
  apply (X9_impact_score_decays_with_age surgeInsight [surgeAnomaly]
           (hours 100) (hours 101) Hle).
Defined.

(** X10. An impact score is never below 20, whenever the insight is scored;
    scored no earlier than detection it is at most 96, so the top of the
    0..100 scale is out of reach; and an insight with a matching anomaly whose
    detection instant lies 17 hours or more after the instant of scoring
    (a row stamped in the future) scores above 100. *)
Theorem X10_impact_score_tight_range :
  forall (insight : BusinessInsight.t)
         (allAnomalies : list AnomalyDetectionResult) (now : Z),
    (20 <= calculateImpactScore insight allAnomalies now)%Z
    /\ ((BusinessInsight.detectedAt insight <= now)%Z ->
        (calculateImpactScore insight allAnomalies now <= 96)%Z)
    /\ (forall anomaly,
          findAnomalyFor insight allAnomalies = Some anomaly ->
          (now + 17 * (60 * 60 * 1000)
           <= BusinessInsight.detectedAt insight)%Z ->
          (100 < calculateImpactScore insight allAnomalies now)%Z).
Proof.
  intros insight allAnomalies now.
  unfold calculateImpactScore.
  destruct (findAnomalyFor insight allAnomalies) as [anomaly|];
    [|split; [lia|split; [lia|discriminate]]].
  cbv zeta.
  pose proof (magnitude_range (percentageChange anomaly)) as Hm.
  pose proof (criticalityIs_range _ _
                (criticalityScore_spec (BusinessInsight.type insight))) as Hc.
  set (hoursAgo := (IZR now - IZR (BusinessInsight.detectedAt insight))
                   / (1000 * 60 * 60)).
  pose proof (Rmax_l 0 (100 - hoursAgo * 10)) as Hr0.
  split; [|split].
  - unfold Math_round; apply Zfloor_lub; lra.
  - intros Hnow.
    pose proof (recency_range _ (hoursAgo_nonneg _ _ Hnow)) as Hr.
    fold hoursAgo in Hr.
    assert (H : (Math_round
                   (Rmin (Rabs (percentageChange anomaly) / 5) 100 * 0.3
                    + criticalityScore (BusinessInsight.type insight) * 0.4
                    + Rmax 0 (100 - hoursAgo * 10) * 0.3)
                 <= Math_round 96)%Z) by (apply Math_round_mono; lra).
    rewrite (Math_round_eq 96 96) in H by lra; exact H.
  - intros a _ Hahead.
    pose proof (hoursAgo_ahead now (BusinessInsight.detectedAt insight) 17
                  Hahead) as Hh; fold hoursAgo in Hh.
    pose proof (Rmax_r 0 (100 - hoursAgo * 10)) as Hr.
    assert (H : (101 <= Math_round
                          (Rmin (Rabs (percentageChange anomaly) / 5) 100 * 0.3
                           + criticalityScore (BusinessInsight.type insight)
                             * 0.4
                           + Rmax 0 (100 - hoursAgo * 10) * 0.3))%Z)
      by (unfold Math_round; apply Zfloor_lub; lra).
    lia.
Qed.

(** ** The shape of correlation results *)

Lemma trafficConversionCheck_shape (db : Prisma) (tz : Z)
    (anomaly : AnomalyDetectionResult) :
  trafficConversionCheck db tz anomaly = []
  \/ (metricType anomaly = "Traffic"
      /\ percentageChange anomaly > 0
      /\ exists m, trafficConversionCheck db tz anomaly = [m]
                   /\ cm_correlation m = "traffic_up_conversions_down").
Proof.
  unfold trafficConversionCheck.
  destruct (metricType anomaly =? "Traffic")%string eqn:Et; [|left; reflexivity].
  destruct (num_gt (percentageChange anomaly) 0) eqn:Ep; [|left; reflexivity].
  cbn [andb].
  destruct (getConversionDataForPage db tz (page anomaly) (timestamp anomaly))
    as [cd|]; [|left; reflexivity].
  destruct (num_lt _ _); [|left; reflexivity].
  right; apply String.eqb_eq in Et; apply num_gt_true in Ep.
  repeat split; auto; eexists; split; reflexivity.
Qed.

Lemma loadTimeBounceCheck_shape (db : Prisma) (tz : Z)
    (anomaly : AnomalyDetectionResult) :
  loadTimeBounceCheck db tz anomaly = []
  \/ (metricType anomaly = "Performance"
      /\ metric anomaly = "Load Time"
      /\ percentageChange anomaly > 0
      /\ exists m, loadTimeBounceCheck db tz anomaly = [m]
                   /\ cm_correlation m = "load_time_up_bounce_rate_up").
Proof.
  unfold loadTimeBounceCheck.
  destruct (metricType anomaly =? "Performance")%string eqn:Et;
    [|left; reflexivity].
  destruct (metric anomaly =? "Load Time")%string eqn:Em; [|left; reflexivity].
  destruct (num_gt (percentageChange anomaly) 0) eqn:Ep; [|left; reflexivity].
  cbn [andb].
  destruct (getBounceRateForPage db tz (page anomaly) (timestamp anomaly))
    as [bd|]; [|left; reflexivity].
  destruct (num_gt (bd_bounceRate bd) _); [|left; reflexivity].
  right; apply String.eqb_eq in Et; apply String.eqb_eq in Em.
  apply num_gt_true in Ep.
  repeat split; auto; eexists; split; reflexivity.
Qed.

Lemma correlatedFor_shape (db : Prisma) (tz : Z)
    (anomaly : AnomalyDetectionResult) :
  correlatedFor db tz anomaly = []
  \/ (percentageChange anomaly > 0
      /\ exists m,
          correlatedFor db tz anomaly = [m]
          /\ ((metricType anomaly = "Traffic"
               /\ cm_correlation m = "traffic_up_conversions_down")
              \/ (metricType anomaly = "Performance"
                  /\ metric anomaly = "Load Time"
                  /\ cm_correlation m = "load_time_up_bounce_rate_up"))).
Proof.
  unfold correlatedFor.
  destruct (trafficConversionCheck_shape db tz anomaly)
    as [Ht|[Hty [Hpc [m [Ht Htag]]]]];
    destruct (loadTimeBounceCheck_shape db tz anomaly)
      as [Hl|[Hty' [Hm' [Hpc' [m' [Hl Htag']]]]]];
    rewrite Ht, Hl; simpl.
  - left; reflexivity.
  - right; split; [exact Hpc'|]; exists m'; split; [reflexivity|tauto].
  - right; split; [exact Hpc|]; exists m; split; [reflexivity|tauto].
  - rewrite Hty in Hty'; discriminate.
Qed.

Lemma analyzeCorrelations_length (db : Prisma) (tz : Z)
    (anomalies : list AnomalyDetectionResult) :
  (List.length (analyzeCorrelations db tz anomalies)
   <= List.length anomalies)%nat.
Proof.
  unfold analyzeCorrelations; induction anomalies as [|a l IH];
    cbn [flat_map]; [simpl; lia|].
  cbv zeta; rewrite length_app.
  destruct (0 <? List.length (correlatedFor db tz a))%nat; simpl in *; lia.
Qed.

(** X11. Every correlation result belongs to an anomaly of the input whose
    change is positive and which is either a Traffic anomaly or a Load Time
    anomaly; it holds exactly one correlated metric, tagged by the kind of its
    anomaly (the two checks never both fire); anomalies of the other metrics
    never get one; and there are at most as many results as anomalies. *)
Theorem X11_correlation_results_single_metric :
  forall (db : Prisma) (tz : Z) (anomalies : list AnomalyDetectionResult),
    (List.length (analyzeCorrelations db tz anomalies)
     <= List.length anomalies)%nat
    /\ forall c,
         In c (analyzeCorrelations db tz anomalies) ->
         In (primaryAnomaly c) anomalies
         /\ percentageChange (primaryAnomaly c) > 0
         /\ exists m,
              correlatedMetrics c = [m]
              /\ ((metricType (primaryAnomaly c) = "Traffic"
                   /\ cm_metric m = "Conversion Rate"
                   /\ cm_correlation m = "traffic_up_conversions_down")
                  \/ (metricType (primaryAnomaly c) = "Performance"
                      /\ metric (primaryAnomaly c) = "Load Time"
                      /\ cm_metric m = "Bounce Rate"
                      /\ cm_correlation m = "load_time_up_bounce_rate_up")).
Proof.
  intros db tz anomalies; split; [apply analyzeCorrelations_length|].
  intros c Hc; apply in_analyzeCorrelations in Hc.
  destruct Hc as [a [Ha [Hne ->]]]; cbn [primaryAnomaly correlatedMetrics].
  split; [exact Ha|].
  destruct (correlatedFor_shape db tz a) as [Hnil|[Hpc [m [Hm Hkind]]]];
    [congruence|].
  split; [exact Hpc|]; exists m; split; [exact Hm|].
  assert (Hin : In m (correlatedFor db tz a)) by (rewrite Hm; left; reflexivity).
  unfold correlatedFor in Hin; apply in_app_or in Hin.
  destruct Hkind as [[Hty Htag]|[Hty [Hmet Htag]]]; [left|right];
    repeat split; auto;
    destruct Hin as [Hin|Hin];
    try (apply in_trafficConversionCheck in Hin;
         destruct Hin as [Hty' [_ [r [_ [_ ->]]]]]);
    try (apply in_loadTimeBounceCheck in Hin;
         destruct Hin as [[Hty' _] [_ [r [_ [_ ->]]]]]);
    try reflexivity; try (rewrite Hty in Hty'; discriminate);
    simpl in Htag; discriminate.
Qed.

(** ** Correlations over non-negative rates *)

Lemma windowBaseline_rows (field : UserActionsHourly.t -> number) (db : Prisma)
    (anomaly : AnomalyDetectionResult) (recent : UserActionsHourly.t) :
  windowBaseline field db (page anomaly) (timestamp anomaly) recent
  = match correlationBaselineRows db anomaly with
    | [] => field recent
    | rows => calculateMean (map field rows)
    end.
Proof.
  unfold windowBaseline, correlationBaselineRows, findUserActions; cbv zeta.
  destruct (filter _ (userActionsHourly db)); reflexivity.
Qed.

Lemma relative_drop (v b : number) :
  0 <= v -> v < b * 0.9 -> -100 <= (v - b) / b * 100 < -10.
Proof.
  intros Hv Hlt.
  assert (Hb : 0 < b) by lra.
  replace ((v - b) / b * 100) with (v / b * 100 - 100) by (field; lra).
  destruct (div_bounds v 0.9 b Hb) as [_ Hup].
  destruct (div_bounds v 0 b Hb) as [Hlo _].
  assert (v / b <= 0.9) by (apply Hup; lra).
  assert (0 <= v / b) by (apply Hlo; lra).
  assert (v / b <> 0.9).
  { intros E; assert (Hx : v / b * b = v) by (field; lra).
    rewrite E in Hx; lra. }
  lra.
Qed.

Lemma relative_rise (v b : number) :
  0 < b -> v > b * 1.1 -> (v - b) / b * 100 > 10.
Proof.
  intros Hb Hgt.
  replace ((v - b) / b * 100) with (v / b * 100 - 100) by (field; lra).
  destruct (div_bounds v 1.1 b Hb) as [Hlo _].
  assert (1.1 <= v / b) by (apply Hlo; lra).
  assert (v / b <> 1.1).
  { intros E; assert (Hx : v / b * b = v) by (field; lra).
    rewrite E in Hx; lra. }
  lra.
Qed.

(** X12. Over stored rates that are never negative, a correlation is only
    recorded against a real baseline: the 30h..6h window before the anomaly
    holds at least one user-action row of the page (the fallback, which takes
    the recent value as its own baseline, never yields a correlation); the
    recorded value is not negative; a conversion correlation reports a change
    between -100% and -10%; and a bounce-rate correlation whose baseline is
    positive reports a change above +10%. *)
Theorem X12_correlation_needs_baseline_and_reports_beyond_ten_percent :
  forall (db : Prisma) (tz : Z) (anomaly : AnomalyDetectionResult)
         (m : CorrelatedMetric),
    nonNegativeRates db ->
    In m (correlatedFor db tz anomaly) ->
    correlationBaselineRows db anomaly <> []
    /\ 0 <= cm_value m
    /\ (cm_correlation m = "traffic_up_conversions_down" ->
        -100 <= cm_change m < -10)
    /\ (cm_correlation m = "load_time_up_bounce_rate_up" ->
        forall recent,
          hourBucketRow db tz (page anomaly) (timestamp anomaly) = Some recent ->
          0 < windowBaseline UserActionsHourly.bounceRate db (page anomaly)
                             (timestamp anomaly) recent ->
          cm_change m > 10).
Proof.
  intros db tz anomaly m Hnn Hin.
  unfold correlatedFor in Hin; apply in_app_or in Hin; destruct Hin as [Hin|Hin].
  - apply in_trafficConversionCheck in Hin.
    destruct Hin as [_ [_ [recent [Hrow [Hlt ->]]]]]; cbv zeta in Hlt.
    apply hourBucketRow_in in Hrow; destruct Hrow as [Hst _].
    destruct (Hnn recent Hst) as [Hc _].
    cbn [cm_value cm_change cm_correlation].
    split; [|split; [exact Hc|split; [|discriminate]]].
    + intros Hnil; rewrite windowBaseline_rows, Hnil in Hlt; lra.
    + intros _; apply relative_drop; assumption.
  - apply in_loadTimeBounceCheck in Hin.
    destruct Hin as [_ [_ [recent [Hrow [Hgt ->]]]]]; cbv zeta in Hgt.
    pose proof Hrow as Hrow'.
    apply hourBucketRow_in in Hrow'; destruct Hrow' as [Hst _].
    destruct (Hnn recent Hst) as [_ Hb].
    cbn [cm_value cm_change cm_correlation].
    split; [|split; [exact Hb|split; [discriminate|]]].
    + intros Hnil; rewrite windowBaseline_rows, Hnil in Hgt; lra.
    + intros _ recent' Hrow2 Hpos.
      rewrite Hrow in Hrow2; injection Hrow2 as <-.
      apply relative_rise; assumption.
Qed.

(** X12 at [boundaryDb]: the change recorded for the surge is -20%. *)
Lemma X12_correlation_needs_baseline_and_reports_beyond_ten_percent_witness :
  nonNegativeRates boundaryDb
  /\ In (mkCorrelated "Conversion Rate" 4 ((4 - 5) / 5 * 100)
                      "traffic_up_conversions_down")
        (correlatedFor boundaryDb 0 goaSurge)
  /\ -100 <= (4 - 5) / 5 * 100 < -10.
Proof.
  assert (Hnn : nonNegativeRates boundaryDb).
  { intros u [<-|[<-|[]]]; simpl; lra. }
  assert (Hin : In (mkCorrelated "Conversion Rate" 4 ((4 - 5) / 5 * 100)
                                 "traffic_up_conversions_down")
                   (correlatedFor boundaryDb 0 goaSurge))
    by (rewrite boundary_correlated; left; reflexivity).
  split; [exact Hnn|split; [exact Hin|]].
  destruct (X12_correlation_needs_baseline_and_reports_beyond_ten_percent
              boundaryDb 0 goaSurge _ Hnn Hin) as [_ [_ [Hchange _]]].
  apply Hchange; reflexivity.
Defined.

(** ** Repositories without a baseline or without recent rows *)










(** ** Granular detection for a tagged combination *)

Lemma whereTag_holds (tag : option string) (value : string) :
  whereTag tag value = true -> tagHolds tag (Some value).
Proof.
  intros H s -> Hne; simpl in H.
  destruct (s =? "")%string eqn:E; [apply String.eqb_eq in E; contradiction|].
  apply String.eqb_eq in H; rewrite H; reflexivity.
Qed.

Lemma whereTag_dropEmptyTag (tag : option string) (value : string) :
  whereTag (dropEmptyTag tag) value = whereTag tag value.
Proof.
  destruct tag as [s|]; [|reflexivity]; simpl.
  destruct (s =? "")%string eqn:E; [reflexivity|simpl; rewrite E; reflexivity].
Qed.

Lemma findTrafficCombo_spec (db : Prisma) (combo : Combination) (gte : Z)
    (lt : option Z) (r : PageViewsHourly.t) :
  In r (findTrafficCombo db combo gte lt) ->
  In r (pageViewsHourly db)
  /\ PageViewsHourly.page r = combo_page combo
  /\ (gte <= PageViewsHourly.timestamp r)%Z
  /\ whereTag (combo_deviceType combo) (PageViewsHourly.deviceType r) = true
  /\ whereTag (combo_referrer combo) (PageViewsHourly.referrer r) = true
  /\ whereTag (combo_region combo) (PageViewsHourly.region r) = true.
Proof.
  unfold findTrafficCombo; rewrite filter_In, !andb_true_iff, String.eqb_eq,
    Z.leb_le; tauto.
Qed.

(** X14. The anomalies that [detectTrafficAnomaliesGranular] reports for a
    combination are traffic anomalies of the combination's page, stamped
    within the recent window, and carry every tag (device type, referrer,
    region) the combination gives; a tag given as the empty text constrains
    nothing, exactly like an absent one. *)
Theorem X14_granular_anomalies_carry_combination_tags :
  forall (db : Prisma) (combo : Combination)
         (recentStart baselineStart baselineEnd : Z),
    (forall a,
        In a (detectTrafficAnomaliesGranular db combo recentStart
                                             baselineStart baselineEnd) ->
        page a = combo_page combo
        /\ metricType a = "Traffic"
        /\ (recentStart <= timestamp a)%Z
        /\ tagHolds (combo_deviceType combo) (ctx_deviceType (context a))
        /\ tagHolds (combo_referrer combo) (ctx_referrer (context a))
        /\ tagHolds (combo_region combo) (ctx_region (context a)))
    /\ detectTrafficAnomaliesGranular db
         (mkCombo (combo_page combo)
                  (dropEmptyTag (combo_deviceType combo))
                  (dropEmptyTag (combo_referrer combo))
                  (dropEmptyTag (combo_region combo)))
         recentStart baselineStart baselineEnd
       = detectTrafficAnomaliesGranular db combo recentStart baselineStart
                                        baselineEnd.
Proof.
  intros db combo recentStart baselineStart baselineEnd; split.
  - intros a Ha; apply detectTrafficAnomaliesGranular_origin in Ha.
    destruct Ha as [r [M [S [Hr ->]]]].
    apply findTrafficCombo_spec in Hr.
    destruct Hr as [_ [Hp [Ht [Hd [Hf Hg]]]]].
    cbn [trafficAnomaly page metricType timestamp context ctx_deviceType
         ctx_referrer ctx_region].
    split; [exact Hp|split; [reflexivity|split; [exact Ht|]]].
    split; [|split]; apply whereTag_holds; assumption.
  - assert (Hq : forall gte lt,
               findTrafficCombo db
                 (mkCombo (combo_page combo)
                          (dropEmptyTag (combo_deviceType combo))
                          (dropEmptyTag (combo_referrer combo))
                          (dropEmptyTag (combo_region combo))) gte lt
               = findTrafficCombo db combo gte lt).
    { intros gte lt; unfold findTrafficCombo; apply filter_ext; intros d.
      cbn [combo_page combo_deviceType combo_referrer combo_region].
      rewrite !whereTag_dropEmptyTag; reflexivity. }
    unfold detectTrafficAnomaliesGranular; rewrite !Hq; reflexivity.
Qed.

(** ** Persistence and the response *)

Lemma storeInsights_spec (createFails : nat -> bool) (l : list BusinessInsight.t) :
  forall (k : nat) (db : Prisma),
    exists n,
      (n <= List.length l)%nat
      /\ fst (storeInsights createFails k l db)
         = mkPrisma (pageViewsHourly db) (userActionsHourly db)
                    (performanceHourly db)
                    (businessInsight db ++ map storedOf (firstn n l))
      /\ (forall j, (j < n)%nat -> createFails (k + j)%nat = false)
      /\ (if snd (storeInsights createFails k l db)
          then n = List.length l
          else (n < List.length l)%nat /\ createFails (k + n)%nat = true).
Proof.
  induction l as [|x l IH]; intros k db; cbn [storeInsights].
  - exists 0%nat; simpl; rewrite app_nil_r.
    destruct db; repeat split; auto; intros j Hj; lia.
  - destruct (createFails k) eqn:E.
    + exists 0%nat; simpl; rewrite app_nil_r, Nat.add_0_r.
      destruct db; repeat split; auto; try lia; intros j Hj; lia.
    + destruct (IH (S k)
                  (mkPrisma (pageViewsHourly db) (userActionsHourly db)
                            (performanceHourly db)
                            (businessInsight db ++ [storedOf x])))
        as [n [Hn [Hdb [Hok Hres]]]].
      exists (S n); cbn [List.length firstn map].
      split; [lia|split; [|split]].
      * rewrite Hdb; cbn [pageViewsHourly userActionsHourly performanceHourly
                          businessInsight].
        rewrite <- app_assoc; reflexivity.
      * intros [|j] Hj; [rewrite Nat.add_0_r; exact E|].
        replace (k + S j)%nat with (S k + j)%nat by lia; apply Hok; lia.
      * destruct (snd (storeInsights createFails (S k) l _)).
        { lia. }
        replace (k + S n)%nat with (S k + n)%nat by lia.
        split; [lia|tauto].
Qed.

(** X15. [storeInsights] writes the insights in order and stops at the first
    [create] that fails: the insight table grows by the stored form of a
    leading part of the list, all of it exactly when the call returns
    normally, and otherwise the part before the failing write (rows written
    before a failure stay); the three metric tables are never touched. *)
Theorem X15_store_insights_appends_prefix :
  forall (createFails : nat -> bool) (k : nat) (l : list BusinessInsight.t)
         (db : Prisma),
    let db' := fst (storeInsights createFails k l db) in
    let returned := snd (storeInsights createFails k l db) in
    pageViewsHourly db' = pageViewsHourly db
    /\ userActionsHourly db' = userActionsHourly db
    /\ performanceHourly db' = performanceHourly db
    /\ exists n,
         (n <= List.length l)%nat
         /\ businessInsight db'
            = businessInsight db ++ map storedOf (firstn n l)
         /\ (forall j, (j < n)%nat -> createFails (k + j)%nat = false)
         /\ (if returned then n = List.length l
             else (n < List.length l)%nat /\ createFails (k + n)%nat = true).
Proof.
  intros createFails k l db db' returned; subst db' returned.
  destruct (storeInsights_spec createFails l k db) as [n [Hn [Hdb [Hok Hres]]]].
  rewrite Hdb; cbn [pageViewsHourly userActionsHourly performanceHourly
                    businessInsight].
  repeat split; auto.
  exists n; repeat split; auto.
Qed.

Lemma insight_copy (l : list BusinessInsight.t) :
  map (fun insight =>
         BusinessInsight.mk (BusinessInsight.type insight)
                            (BusinessInsight.metric insight)
                            (BusinessInsight.page insight)
                            (BusinessInsight.change insight)
                            (BusinessInsight.businessInsight insight)
                            (BusinessInsight.suggestedAction insight)
                            (BusinessInsight.impactScore insight)
                            (BusinessInsight.detectedAt insight)
                            (BusinessInsight.context insight)) l
  = l.
Proof.
  induction l as [|x l IH]; simpl; [reflexivity|].
  rewrite IH; destruct x; reflexivity.
Qed.

(** X16. The handler answers [success = true] with exactly the generated
    insights, the instant it read and a cache deadline 15 minutes later,
    whether or not the insights could be stored: the response does not depend
    on failing writes.  The metric tables are left as they were; when no
    write fails the insight table grows by the stored form of every returned
    insight, and when the first write fails the repository is unchanged. *)
Theorem X16_response_independent_of_storage :
  forall (db : Prisma) (tz nowAggregated nowGranular : Z)
         (nowScoring : nat -> Z) (createFails : nat -> bool) (now : Z),
    let generated :=
      generateBusinessInsights db tz nowAggregated nowGranular nowScoring in
    let result :=
      getBusinessInsights db tz nowAggregated nowGranular nowScoring
                          createFails now in
    fst result = mkResponse true now (now + 900000)%Z generated
    /\ fst result
       = fst (getBusinessInsights db tz nowAggregated nowGranular nowScoring
                                  (fun _ => false) now)
    /\ pageViewsHourly (snd result) = pageViewsHourly db
    /\ userActionsHourly (snd result) = userActionsHourly db
    /\ performanceHourly (snd result) = performanceHourly db
    /\ ((forall k, createFails k = false) ->
        businessInsight (snd result)
        = businessInsight db ++ map storedOf generated)
    /\ (createFails 0%nat = true -> snd result = db).
Proof.
  intros db tz nowAggregated nowGranular nowScoring createFails now
         generated result.
  subst result; unfold getBusinessInsights; cbv zeta; fold generated.
  cbn [fst snd]; rewrite insight_copy.
  split; [reflexivity|split; [reflexivity|]].
  destruct (storeInsights_spec createFails generated 0 db)
    as [n [Hn [Hdb [Hok Hres]]]].
  destruct generated as [|x g] eqn:Eg.
  - simpl; repeat split; auto; intros _; rewrite app_nil_r; reflexivity.
  - change (0 <? List.length (x :: g))%nat with true; cbv iota.
    rewrite Hdb; cbn [pageViewsHourly userActionsHourly performanceHourly
                      businessInsight].
    split; [reflexivity|split; [reflexivity|split; [reflexivity|split]]].
    + intros Hnone.
      destruct (snd (storeInsights createFails 0 (x :: g) db)).
      * rewrite Hres, firstn_all; reflexivity.
      * destruct Hres as [_ Hf]; rewrite Hnone in Hf; discriminate.
    + intros Hfail.
      destruct n as [|n].
      * simpl; rewrite app_nil_r; destruct db; reflexivity.
      * pose proof (Hok 0%nat ltac:(lia)) as H0; simpl in H0.
        rewrite H0 in Hfail; discriminate.
Qed.

(** ** Seeding *)

Lemma getRandomInt_range (random : number) (min max : Z) :
  0 <= random < 1 -> (min <= max)%Z ->
  (min <= getRandomInt random min max <= max)%Z.
Proof.
  intros [H0 H1] Hle; unfold getRandomInt.
  assert (Hn : 1 <= IZR (max - min + 1)) by (apply IZR_le; lia).
  assert (Hlo : (0 <= Zfloor (random * IZR (max - min + 1)))%Z).
  { apply Zfloor_lub; apply Rmult_le_pos; lra. }
  assert (Hhi : (Zfloor (random * IZR (max - min + 1)) < max - min + 1)%Z).
  { apply lt_IZR.
    pose proof (Zfloor_bound (random * IZR (max - min + 1))) as [Hb _].
    assert (random * IZR (max - min + 1) < 1 * IZR (max - min + 1))
      by (apply Rmult_lt_compat_r; lra).
    lra. }
  lia.
Qed.

Lemma getRandomInt_reaches (min max z : Z) :
  (min <= z <= max)%Z ->
  let random := IZR (z - min) / IZR (max - min + 1) in
  0 <= random < 1 /\ getRandomInt random min max = z.
Proof.
  intros Hz random; subst random.
  assert (Hn : 0 < IZR (max - min + 1)) by (apply IZR_lt; lia).
  assert (Hk : 0 <= IZR (z - min)) by (apply IZR_le; lia).
  assert (Hk' : IZR (z - min) < IZR (max - min + 1)) by (apply IZR_lt; lia).
  assert (Hx : IZR (z - min) / IZR (max - min + 1) * IZR (max - min + 1)
               = IZR (z - min)) by (field; lra).
  split.
  - destruct (div_bounds (IZR (z - min)) 0 (IZR (max - min + 1)) Hn)
      as [Hlo _].
    split; [apply Hlo; lra|].
    apply Rmult_lt_reg_r with (IZR (max - min + 1)); [exact Hn|].
    rewrite Hx; lra.
  - unfold getRandomInt; rewrite Hx, ZfloorZ; lia.
Qed.

(** X17. For integers [min <= max], [getRandomInt] returns an integer from
    [min] to [max], both included, for every value [Math.random] can return;
    and every integer of that range is returned for some such value. *)
Theorem X17_getRandomInt_covers_closed_range :
  forall min max : Z,
    (min <= max)%Z ->
    (forall random,
        0 <= random < 1 ->
        (min <= getRandomInt random min max <= max)%Z)
    /\ (forall z,
          (min <= z <= max)%Z ->
          exists random,
            0 <= random < 1 /\ getRandomInt random min max = z).
Proof.
  intros min max Hle; split.
  - intros random Hr; apply getRandomInt_range; assumption.
  - intros z Hz; eexists; exact (getRandomInt_reaches min max z Hz).
Qed.

(** X17 at the range of the seeded base views: 500 itself can be drawn. *)
Lemma X17_getRandomInt_covers_closed_range_witness :
  (50 <= 500)%Z
  /\ exists random, 0 <= random < 1 /\ getRandomInt random 50 500 = 500%Z.
Proof.
  assert (Hle : (50 <= 500)%Z) by lia.
  split; [exact Hle|].
  destruct (X17_getRandomInt_covers_closed_range 50 500 Hle) as [_ Hreach].
  apply Hreach; lia.
Defined.

Lemma in_seedCells (c : SeedCell) :
  In c seedCells ->
  (0 <= cell_i c <= 48)%Z
  /\ In (cell_page c) pages
  /\ (cell_j c < 5)%nat /\ (cell_k c < 3)%nat /\ (cell_l c < 3)%nat.
Proof.
  unfold seedCells.
  rewrite in_flat_map; intros [i [Hi H]].
  rewrite in_flat_map in H; destruct H as [pg [Hpg H]].
  rewrite in_flat_map in H; destruct H as [j [Hj H]].
  rewrite in_flat_map in H; destruct H as [k [Hk H]].
  rewrite in_map_iff in H; destruct H as [l [<- Hl]].
  rewrite in_map_iff in Hi; destruct Hi as [n [<- Hn]].
  rewrite in_seq in Hn, Hj, Hk, Hl.
  unfold hoursToGenerate, referrers, devices, regions in *.
  cbn [cell_i cell_page cell_j cell_k cell_l List.length] in *.
  repeat split; auto; lia.
Qed.

Lemma seed_fold_invariant (P : Prisma -> Prop) (now tz : Z)
    (random : nat -> number) :
  (forall n c db, In c seedCells -> P db ->
                  P (seedIteration now tz random n c db)) ->
  forall l n db,
    incl l seedCells -> P db ->
    P (snd (fold_left
              (fun st c =>
                 ((fst st + 6)%nat,
                  seedIteration now tz random (fst st) c (snd st)))
              l (n, db))).
Proof.
  intros Hstep; induction l as [|c l IH]; intros n db Hincl HP; simpl;
    [exact HP|].
  apply IH; [intros x Hx; apply Hincl; right; exact Hx|].
  apply Hstep; [apply Hincl; left; reflexivity|exact HP].
Qed.

Lemma seedDatabase_invariant (P : Prisma -> Prop) (db : Prisma) (now tz : Z)
    (random : nat -> number) :
  P (mkPrisma [] [] [] []) ->
  (forall n c db, In c seedCells -> P db ->
                  P (seedIteration now tz random n c db)) ->
  P (seedDatabase db now tz random).
Proof.
  intros H0 Hstep; unfold seedDatabase; cbv zeta.
  apply seed_fold_invariant; [exact Hstep|apply incl_refl|exact H0].
Qed.

Lemma draw_range (random : number) (lo hi : Z) :
  0 <= random < 1 -> (lo <= hi)%Z ->
  IZR lo <= IZR (getRandomInt random lo hi) <= IZR hi.
Proof.
  intros Hr Hle; destruct (getRandomInt_range random lo hi Hr Hle).
  split; apply IZR_le; assumption.
Qed.

Lemma Math_round_range (x : number) (lo hi : Z) :
  IZR lo <= x <= IZR hi -> IZR lo <= IZR (Math_round x) <= IZR hi.
Proof.
  intros H; destruct (Math_round_between x lo hi H).
  split; apply IZR_le; assumption.
Qed.

Lemma weight_nonneg (j : nat) (weights : list number) :
  Forall (fun w => 0 <= w) weights -> 0 <= nth j weights 0.
Proof.
  intros H; revert j; induction H as [|w l Hw _ IH]; intros [|j]; simpl;
    try lra; auto.
Qed.

Lemma seeded_views_nonneg (now tz : Z) (random : nat -> number) (n : nat)
    (c : SeedCell) :
  0 <= random n < 1 ->
  let views :=
    Math_round (IZR (getRandomInt (random n) 50 500)
                * nth (cell_j c) referrerWeights 0
                * nth (cell_k c) deviceWeights 0
                * nth (cell_l c) regionWeights 0) in
  (0 <= views)%Z /\ (0 <= Math_round (IZR views * 4.4))%Z.
Proof.
  intros Hr views.
  pose proof (draw_range (random n) 50 500 Hr ltac:(lia)) as Hb.
  assert (H1 : 0 <= nth (cell_j c) referrerWeights 0)
    by (apply weight_nonneg; unfold referrerWeights;
        repeat constructor; lra).
  assert (H2 : 0 <= nth (cell_k c) deviceWeights 0)
    by (apply weight_nonneg; unfold deviceWeights; repeat constructor; lra).
  assert (H3 : 0 <= nth (cell_l c) regionWeights 0)
    by (apply weight_nonneg; unfold regionWeights; repeat constructor; lra).
  assert (Hv : (0 <= views)%Z).
  { unfold views, Math_round; apply Zfloor_lub.
    assert (0 <= IZR (getRandomInt (random n) 50 500)
                 * nth (cell_j c) referrerWeights 0
                 * nth (cell_k c) deviceWeights 0
                 * nth (cell_l c) regionWeights 0)
      by (repeat apply Rmult_le_pos; lra).
    lra. }
  split; [exact Hv|].
  unfold Math_round; apply Zfloor_lub.
  apply IZR_le in Hv; lra.
Qed.

Lemma seedIteration_values (now tz : Z) (random : nat -> number) (n : nat)
    (c : SeedCell) (db : Prisma) :
  (forall m, 0 <= random m < 1) ->
  Forall (fun r => (1 <= PageViewsHourly.viewCount r)%Z) (pageViewsHourly db)
  /\ Forall seededActionValues (userActionsHourly db)
  /\ Forall seededPerformanceValues (performanceHourly db) ->
  Forall (fun r => (1 <= PageViewsHourly.viewCount r)%Z)
         (pageViewsHourly (seedIteration now tz random n c db))
  /\ Forall seededActionValues
            (userActionsHourly (seedIteration now tz random n c db))
  /\ Forall seededPerformanceValues
            (performanceHourly (seedIteration now tz random n c db)).
Proof.
  intros Hr [Hpv [Hua Hpf]].
  destruct (seeded_views_nonneg now tz random n c (Hr n)) as [Hviews Hsurge].
  cbv zeta in Hviews, Hsurge.
  pose proof (draw_range _ 800 2000 (Hr (n + 1)%nat) ltac:(lia)) as Hload.
  pose proof (draw_range _ 120 300 (Hr (n + 2)%nat) ltac:(lia)) as Hsess.
  pose proof (draw_range _ 20 50 (Hr (n + 3)%nat) ltac:(lia)) as Hbounce.
  pose proof (draw_range _ 200 500 (Hr (n + 4)%nat) ltac:(lia)) as Hconv.
  pose proof (draw_range _ 0 2 (Hr (n + 5)%nat) ltac:(lia)) as Herr.
  unfold seedIteration; cbv zeta.
  cbn [pageViewsHourly userActionsHourly performanceHourly].
  set (views := Math_round _) in *.
  set (load := IZR (getRandomInt (random (n + 1)%nat) 800 2000)) in *.
  set (sess := IZR (getRandomInt (random (n + 2)%nat) 120 300)) in *.
  set (bounce := IZR (getRandomInt (random (n + 3)%nat) 20 50)) in *.
  set (conv := IZR (getRandomInt (random (n + 4)%nat) 200 500)) in *.
  set (err := IZR (getRandomInt (random (n + 5)%nat) 0 2)) in *.
  match goal with
  | |- context [if ?b then Math_round (IZR views * 4.4) else views] =>
      set (surge := b)
  end.
  match goal with
  | |- context [if ?b then IZR (Math_round (load * 2.5)) else load] =>
      set (degraded := b)
  end.
  match goal with
  | |- context [if ?b then IZR (Math_round (sess * 0.55)) else sess] =>
      set (checkout := b)
  end.
  match goal with
  | |- context [if ?b then conv / 100 * 0.62 else conv / 100] =>
      set (bike := b)
  end.
  set (viewCount := if surge then Math_round (IZR views * 4.4) else views).
  assert (Hvc : (0 <= viewCount)%Z) by (unfold viewCount; destruct surge; lia).
  assert (Hl : 800 <= (if degraded then IZR (Math_round (load * 2.5)) else load)
               <= 5000).
  { destruct degraded; [|lra].
    pose proof (Math_round_range (load * 2.5) 2000 5000) as H; lra. }
  assert (Hb : 20 <= (if degraded then IZR (Math_round (bounce * 1.25))
                      else bounce) <= 63).
  { destruct degraded; [|lra].
    pose proof (Math_round_range (bounce * 1.25) 25 63) as H; lra. }
  assert (Hs : 66 <= (if checkout then IZR (Math_round (sess * 0.55)) else sess)
               <= 300).
  { destruct checkout; [|lra].
    pose proof (Math_round_range (sess * 0.55) 66 165) as H; lra. }
  assert (Hc : 1.24 <= (if bike then conv / 100 * 0.62 else conv / 100) <= 5)
    by (destruct bike; lra).
  split; [|split]; apply Forall_app; split; auto.
  - destruct (0 <? viewCount)%Z eqn:E; constructor; [|constructor].
    apply Z.ltb_lt in E; cbn [PageViewsHourly.viewCount]; lia.
  - destruct ((cell_j c mod 3 =? 0)%nat && _)%bool; constructor;
      [|constructor].
    unfold seededActionValues;
      cbn [UserActionsHourly.avgSessionDuration UserActionsHourly.bounceRate
           UserActionsHourly.conversionRate UserActionsHourly.conversionCount].
    repeat split; try lra.
    unfold Math_round; apply Zfloor_lub.
    apply IZR_le in Hvc.
    assert (0 <= IZR viewCount
                 * (if bike then conv / 100 * 0.62 else conv / 100) / 100)
      by (unfold Rdiv at 1; apply Rmult_le_pos; [apply Rmult_le_pos|]; lra).
    lra.
  - destruct ((cell_j c mod 3 =? 0)%nat && _)%bool; constructor;
      [|constructor].
    unfold seededPerformanceValues;
      cbn [PerformanceHourly.avgLoadTime PerformanceHourly.errorRate]; lra.
Qed.

Lemma seededActionValues_nonneg (db : Prisma) :
  Forall seededActionValues (userActionsHourly db) -> nonNegativeRates db.
Proof.
  intros H u Hu; rewrite Forall_forall in H.
  destruct (H u Hu) as [_ [Hb [Hc _]]]; lra.
Qed.

(** X18. Whatever values [Math.random] returns, every seeded page-view row
    counts at least one view; every seeded user-action row has a session
    duration from 66 to 300 seconds, a bounce rate from 20 to 63, a
    conversion rate from 1.24 to 5 and no negative conversion count; every
    seeded performance row has a load time from 800 to 5000 ms and an error
    rate from 0 to 2.  In particular no seeded rate is negative. *)
Theorem X18_seeded_values_within_ranges :
  forall (db : Prisma) (now tz : Z) (random : nat -> number),
    (forall n, 0 <= random n < 1) ->
    let seeded := seedDatabase db now tz random in
    (forall r, In r (pageViewsHourly seeded) ->
               (1 <= PageViewsHourly.viewCount r)%Z)
    /\ (forall u, In u (userActionsHourly seeded) -> seededActionValues u)
    /\ (forall p, In p (performanceHourly seeded) -> seededPerformanceValues p)
    /\ nonNegativeRates seeded.
Proof.
  intros db now tz random Hr seeded; subst seeded.
  assert (H : Forall (fun r => (1 <= PageViewsHourly.viewCount r)%Z)
                     (pageViewsHourly (seedDatabase db now tz random))
              /\ Forall seededActionValues
                        (userActionsHourly (seedDatabase db now tz random))
              /\ Forall seededPerformanceValues
                        (performanceHourly (seedDatabase db now tz random))).
  { apply (seedDatabase_invariant
             (fun d =>
                Forall (fun r => (1 <= PageViewsHourly.viewCount r)%Z)
                       (pageViewsHourly d)
                /\ Forall seededActionValues (userActionsHourly d)
                /\ Forall seededPerformanceValues (performanceHourly d))).
    - simpl; repeat split; constructor.
    - intros n c d _ Hd; apply seedIteration_values; assumption. }
  destruct H as [Hpv [Hua Hpf]].
  split; [apply Forall_forall; exact Hpv|].
  split; [apply Forall_forall; exact Hua|].
  split; [apply Forall_forall; exact Hpf|].
  apply seededActionValues_nonneg; exact Hua.
Qed.

Lemma X18_seeded_values_within_ranges_witness :
  (forall n : nat, 0 <= (fun _ : nat => / 2) n < 1)
  /\ nonNegativeRates
       (seedDatabase (mkPrisma [] [] [] []) 0 0 (fun _ => / 2)).
Proof.
  assert (Hr : forall n : nat, 0 <= (fun _ : nat => / 2) n < 1)
    by (intros n; lra).
  split; [exact Hr|].
  destruct (X18_seeded_values_within_ranges (mkPrisma [] [] [] []) 0 0
              (fun _ => / 2) Hr) as [_ [_ [_ H]]].
  exact H.
Defined.

Lemma startOfHour_aligned (tz t : Z) :
  startOfHour tz (startOfHour tz t) = startOfHour tz t.
Proof.
  unfold startOfHour.
  assert (H : ((t - (t + tz) mod (60 * 60 * 1000) + tz)
               mod (60 * 60 * 1000) = 0)%Z).
  { pose proof (Z.div_mod (t + tz) (60 * 60 * 1000) ltac:(lia)) as Hd.
    replace (t - (t + tz) mod (60 * 60 * 1000) + tz)%Z
      with ((t + tz) / (60 * 60 * 1000) * (60 * 60 * 1000))%Z by lia.
    apply Z.mod_mul; lia. }
  rewrite H; lia.
Qed.

Lemma seeded_instant (now tz i : Z) :
  (0 <= i <= 48)%Z ->
  seededInstant now tz (startOfHour tz (now - i * 60 * 60 * 1000)).
Proof.
  intros Hi; split; [apply startOfHour_aligned|].
  pose proof (startOfHour_bucket tz (now - i * 60 * 60 * 1000)); lia.
Qed.

Lemma action_row_dimensions (c : SeedCell) :
  (cell_j c < 5)%nat -> (cell_k c < 3)%nat ->
  createsActionRow c = true ->
  In (nth (cell_j c) referrers "") ["Instagram"; "Direct"]
  /\ In (nth (cell_k c) devices "") ["Mobile"; "Tablet"].
Proof.
  unfold createsActionRow; intros Hj Hk H.
  apply andb_true_iff in H; destruct H as [H3 H2].
  destruct (cell_j c) as [|[|[|[|[|j]]]]]; try discriminate; try lia;
    destruct (cell_k c) as [|[|[|k]]]; try discriminate; try lia;
    simpl; auto.
Qed.

Lemma seedIteration_places (now tz : Z) (random : nat -> number) (n : nat)
    (c : SeedCell) (db : Prisma) :
  In c seedCells ->
  let P d :=
    Forall (fun r =>
              seededInstant now tz (PageViewsHourly.timestamp r)
              /\ In (PageViewsHourly.page r, PageViewsHourly.pageCategory r)
                    pages
              /\ In (PageViewsHourly.referrer r) referrers
              /\ In (PageViewsHourly.deviceType r) devices
              /\ In (PageViewsHourly.region r) regions)
           (pageViewsHourly d)
    /\ Forall (fun u =>
                 seededInstant now tz (UserActionsHourly.timestamp u)
                 /\ In (UserActionsHourly.page u,
                        UserActionsHourly.pageCategory u) pages
                 /\ In (UserActionsHourly.referrer u) ["Instagram"; "Direct"]
                 /\ In (UserActionsHourly.deviceType u) ["Mobile"; "Tablet"]
                 /\ In (UserActionsHourly.region u) regions)
              (userActionsHourly d)
    /\ Forall (fun p =>
                 seededInstant now tz (PerformanceHourly.timestamp p)
                 /\ In (PerformanceHourly.page p,
                        PerformanceHourly.pageCategory p) pages
                 /\ In (PerformanceHourly.deviceType p) ["Mobile"; "Tablet"]
                 /\ In (PerformanceHourly.region p) regions)
              (performanceHourly d)
    /\ businessInsight d = [] in
  P db -> P (seedIteration now tz random n c db).
Proof.
  intros Hc P [Hpv [Hua [Hpf Hbi]]]; subst P; cbv beta.
  apply in_seedCells in Hc; destruct Hc as [Hi [Hpg [Hj [Hk Hl]]]].
  pose proof (seeded_instant now tz (cell_i c) Hi) as Ht.
  assert (Hpage : In (fst (cell_page c), snd (cell_page c)) pages)
    by (destruct (cell_page c); exact Hpg).
  assert (Hreg : In (nth (cell_l c) regions "") regions)
    by (apply nth_In; exact Hl).
  assert (Hdev : In (nth (cell_k c) devices "") devices)
    by (apply nth_In; exact Hk).
  assert (Href : In (nth (cell_j c) referrers "") referrers)
    by (apply nth_In; exact Hj).
  pose proof (action_row_dimensions c Hj Hk) as Hdim.
  unfold seedIteration; cbv zeta.
  cbn [pageViewsHourly userActionsHourly performanceHourly businessInsight].
  fold (createsActionRow c).
  split; [|split; [|split; [|exact Hbi]]]; apply Forall_app; split; auto.
  - match goal with
    | |- context [if (0 <? ?v)%Z then _ else _] => destruct (0 <? v)%Z
    end; constructor; [|constructor].
    cbn [PageViewsHourly.timestamp PageViewsHourly.page
         PageViewsHourly.pageCategory PageViewsHourly.referrer
         PageViewsHourly.deviceType PageViewsHourly.region].
    repeat split; auto; apply Ht.
  - destruct (createsActionRow c); constructor; [|constructor].
    destruct (Hdim eq_refl) as [Hr Hd].
    cbn [UserActionsHourly.timestamp UserActionsHourly.page
         UserActionsHourly.pageCategory UserActionsHourly.referrer
         UserActionsHourly.deviceType UserActionsHourly.region].
    repeat split; auto; apply Ht.
  - destruct (createsActionRow c); constructor; [|constructor].
    destruct (Hdim eq_refl) as [Hr Hd].
    cbn [PerformanceHourly.timestamp PerformanceHourly.page
         PerformanceHourly.pageCategory PerformanceHourly.deviceType
         PerformanceHourly.region].
    repeat split; auto; apply Ht.
Qed.

Lemma seedIteration_lengths (now tz : Z) (random : nat -> number) (n : nat)
    (c : SeedCell) (db : Prisma) :
  let out := seedIteration now tz random n c db in
  List.length (userActionsHourly out)
  = (List.length (userActionsHourly db)
     + if createsActionRow c then 1 else 0)%nat
  /\ List.length (performanceHourly out)
     = (List.length (performanceHourly db)
        + if createsActionRow c then 1 else 0)%nat
  /\ (List.length (pageViewsHourly out)
      <= List.length (pageViewsHourly db) + 1)%nat.
Proof.
  unfold seedIteration; cbv zeta.
  cbn [pageViewsHourly userActionsHourly performanceHourly].
  fold (createsActionRow c).
  rewrite !length_app.
  match goal with
  | |- context [if (0 <? ?v)%Z then _ else _] => destruct (0 <? v)%Z
  end; destruct (createsActionRow c); cbn [List.length]; lia.
Qed.

Lemma seed_fold_counts (now tz : Z) (random : nat -> number) :
  forall l n db,
    let out :=
      snd (fold_left
             (fun st c =>
                ((fst st + 6)%nat,
                 seedIteration now tz random (fst st) c (snd st)))
             l (n, db)) in
    List.length (userActionsHourly out)
    = (List.length (userActionsHourly db)
       + List.length (filter createsActionRow l))%nat
    /\ List.length (performanceHourly out)
       = (List.length (performanceHourly db)
          + List.length (filter createsActionRow l))%nat
    /\ (List.length (pageViewsHourly out)
        <= List.length (pageViewsHourly db) + List.length l)%nat.
Proof.
  induction l as [|c l IH]; intros n db; cbn [fold_left fst snd].
  - simpl; lia.
  - cbv zeta in IH |- *.
    destruct (IH (n + 6)%nat (seedIteration now tz random n c db))
      as [Hua [Hpf Hpv]].
    destruct (seedIteration_lengths now tz random n c db) as [Lua [Lpf Lpv]].
    rewrite Hua, Hpf, Lua, Lpf; cbn [filter List.length].
    destruct (createsActionRow c); cbn [List.length]; lia.
Qed.

Lemma seedCells_counts :
  Z.of_nat (List.length seedCells) = 24255%Z
  /\ Z.of_nat (List.length (filter createsActionRow seedCells)) = 6468%Z.
Proof. split; vm_compute; reflexivity. Qed.

Lemma seedDatabase_counts (db : Prisma) (now tz : Z) (random : nat -> number) :
  List.length (userActionsHourly (seedDatabase db now tz random))
  = List.length (filter createsActionRow seedCells)
  /\ List.length (performanceHourly (seedDatabase db now tz random))
     = List.length (filter createsActionRow seedCells)
  /\ (List.length (pageViewsHourly (seedDatabase db now tz random))
      <= List.length seedCells)%nat.
Proof.
  destruct (seed_fold_counts now tz random seedCells 0 (mkPrisma [] [] [] []))
    as [Hua [Hpf Hpv]].
  split; [exact Hua|split; [exact Hpf|exact Hpv]].
Qed.

(** X19. Seeding replaces whatever the repository held: the insight table is
    left empty and the result does not depend on the previous content.  Every
    seeded row is stamped on the hour, within the 49 hours up to the seeding
    instant, and names one of the eleven pages with its category and one of
    the three regions.  User-action and performance rows are created for the
    referrers Instagram and Direct and the device types Mobile and Tablet
    only, 6468 rows in each table, so a Google, Facebook or Email referrer and
    a Desktop device never appear in them; page-view rows number at most
    24255. *)
Theorem X19_seeded_rows_structure :
  forall (db : Prisma) (now tz : Z) (random : nat -> number),
    let seeded := seedDatabase db now tz random in
    businessInsight seeded = []
    /\ seeded = seedDatabase (mkPrisma [] [] [] []) now tz random
    /\ (forall r, In r (pageViewsHourly seeded) ->
          seededInstant now tz (PageViewsHourly.timestamp r)
          /\ In (PageViewsHourly.page r, PageViewsHourly.pageCategory r) pages
          /\ In (PageViewsHourly.referrer r) referrers
          /\ In (PageViewsHourly.deviceType r) devices
          /\ In (PageViewsHourly.region r) regions)
    /\ (forall u, In u (userActionsHourly seeded) ->
          seededInstant now tz (UserActionsHourly.timestamp u)
          /\ In (UserActionsHourly.page u, UserActionsHourly.pageCategory u)
                pages
          /\ In (UserActionsHourly.referrer u) ["Instagram"; "Direct"]
          /\ In (UserActionsHourly.deviceType u) ["Mobile"; "Tablet"]
          /\ In (UserActionsHourly.region u) regions)
    /\ (forall p, In p (performanceHourly seeded) ->
          seededInstant now tz (PerformanceHourly.timestamp p)
          /\ In (PerformanceHourly.page p, PerformanceHourly.pageCategory p)
                pages
          /\ In (PerformanceHourly.deviceType p) ["Mobile"; "Tablet"]
          /\ In (PerformanceHourly.region p) regions)
    /\ Z.of_nat (List.length (userActionsHourly seeded)) = 6468%Z
    /\ Z.of_nat (List.length (performanceHourly seeded)) = 6468%Z
    /\ (Z.of_nat (List.length (pageViewsHourly seeded)) <= 24255)%Z.
Proof.
  intros db now tz random seeded; subst seeded.
  pose proof (seedDatabase_invariant _ db now tz random
                (conj (Forall_nil _)
                      (conj (Forall_nil _) (conj (Forall_nil _) eq_refl)))
                (fun n c d Hc => seedIteration_places now tz random n c d Hc))
    as [Hpv [Hua [Hpf Hbi]]].
  destruct seedCells_counts as [Hall Hact].
  destruct (seedDatabase_counts db now tz random) as [Cua [Cpf Cpv]].
  split; [exact Hbi|split; [unfold seedDatabase; reflexivity|]].
  split; [apply Forall_forall; exact Hpv|].
  split; [apply Forall_forall; exact Hua|].
  split; [apply Forall_forall; exact Hpf|].
  split; [rewrite Cua; exact Hact|split; [rewrite Cpf; exact Hact|]].
  apply Nat2Z.inj_le in Cpv; rewrite Hall in Cpv; exact Cpv.
Qed.

(** ** The pipeline from anomalies to ranked insights *)

Lemma detected_tracked (db : Prisma) (nowAggregated nowGranular : Z)
    (a : AnomalyDetectionResult) :
  In a (uniqueAnomaliesOf db nowAggregated nowGranular) ->
  In (metricType a, metric a) trackedPairs.
Proof.
  unfold uniqueAnomaliesOf; intros Ha.
  apply in_deduplicateAnomalies, in_app_or in Ha; destruct Ha as [Ha|Ha].
  - apply detectAnomalies_labels in Ha; unfold trackedPairs.
    simpl in Ha |- *; intuition.
  - apply detectGranularAnomalies_labels in Ha; destruct Ha as [Ht Hm].
    rewrite Ht, Hm; left; reflexivity.
Qed.

Lemma detected_instant_stored (db : Prisma) (nowAggregated nowGranular : Z)
    (a : AnomalyDetectionResult) :
  In a (uniqueAnomaliesOf db nowAggregated nowGranular) ->
  In (timestamp a) (storedInstants db).
Proof.
  unfold uniqueAnomaliesOf, storedInstants; intros Ha.
  apply in_deduplicateAnomalies, in_app_or in Ha.
  rewrite !in_app_iff, !in_map_iff.
  destruct Ha as [Ha|Ha].
  - destruct (detectAnomalies_source db nowAggregated a Ha) as [_ Hrow].
    destruct Hrow as [[_ [r [Hr [_ [Ht _]]]]]
                     |[[_ [u [Hu [_ [Ht _]]]]]|[_ [p [Hp [_ [Ht _]]]]]]];
      eauto.
  - rewrite detectGranularAnomalies_is_page_traffic in Ha.
    apply in_flat_map in Ha; destruct Ha as [pg [_ Ha]].
    apply detectTrafficAnomalies_origin in Ha.
    destruct Ha as [r [M [S [Hr ->]]]].
    apply findTraffic_spec in Hr; destruct Hr as [Hin _].
    left; exists r; split; [reflexivity|exact Hin].
Qed.

Lemma insights_one_each (correlations : list CorrelationResult)
    (l : list AnomalyDetectionResult) :
  (forall a, In a l -> In (metricType a, metric a) trackedPairs) ->
  Forall2 (fun a insight =>
             generateInsightForAnomaly a correlations = Some insight)
          l
          (flat_map (fun anomaly =>
                       match generateInsightForAnomaly anomaly correlations with
                       | Some insight => [insight]
                       | None => []
                       end) l).
Proof.
  induction l as [|a l IH]; intros Htr; cbn [flat_map]; [constructor|].
  destruct (generateInsightForAnomaly a correlations) as [insight|] eqn:E.
  - constructor; [exact E|].
    apply IH; intros b Hb; apply Htr; right; exact Hb.
  - exfalso.
    pose proof (generateInsightForAnomaly_cases a correlations) as H.
    cbv zeta in H; rewrite E in H.
    destruct H as [[_ [_ H]]|[[_ [_ H]]|[[_ [_ H]]|[[_ [_ H]]
                  |[[_ [_ H]]|[[_ [_ H]]|[Hn _]]]]]]]; try discriminate.
    apply Hn, Htr; left; reflexivity.
Qed.

(** X20. Every anomaly that survives deduplication gets exactly one insight:
    the insights before ranking correspond one to one, in order, to the
    unique anomalies, each generated from its anomaly against the correlations
    of the whole set; so there are as many scored insights as unique
    anomalies, and the response holds five of them, or all when there are
    fewer. *)
Theorem X20_one_insight_per_unique_anomaly :
  forall (db : Prisma) (tz nowAggregated nowGranular : Z)
         (nowScoring : nat -> Z),
    let unique := uniqueAnomaliesOf db nowAggregated nowGranular in
    Forall2 (fun a insight =>
               generateInsightForAnomaly
                 a (analyzeCorrelations db tz unique) = Some insight)
            unique (insightsOf db tz nowAggregated nowGranular)
    /\ List.length (scoredInsightsOf db tz nowAggregated nowGranular nowScoring)
       = List.length unique
    /\ List.length
         (generateBusinessInsights db tz nowAggregated nowGranular nowScoring)
       = Nat.min 5 (List.length unique).
Proof.
  intros db tz nowAggregated nowGranular nowScoring unique.
  assert (H2 : Forall2 (fun a insight =>
                          generateInsightForAnomaly
                            a (analyzeCorrelations db tz unique) = Some insight)
                       unique (insightsOf db tz nowAggregated nowGranular)).
  { unfold insightsOf; cbv zeta; fold unique.
    apply insights_one_each; intros a Ha.
    exact (detected_tracked db nowAggregated nowGranular a Ha). }
  assert (Hlen : List.length
                   (scoredInsightsOf db tz nowAggregated nowGranular nowScoring)
                 = List.length unique).
  { unfold scoredInsightsOf; rewrite scoreInsights_length.
    symmetry; exact (Forall2_length H2). }
  split; [exact H2|split; [exact Hlen|]].
  unfold generateBusinessInsights; cbv zeta.
  rewrite length_firstn, (Permutation_length (jsSort_perm byImpactDesc _)), Hlen.
  reflexivity.
Qed.

Lemma generated_criticality (anomaly : AnomalyDetectionResult)
    (correlations : list CorrelationResult) (insight : BusinessInsight.t) :
  generateInsightForAnomaly anomaly correlations = Some insight ->
  60 <= criticalityScore (BusinessInsight.type insight) <= 90.
Proof.
  intros Hsome.
  pose proof (generateInsightForAnomaly_cases anomaly correlations) as H.
  cbv zeta in H.
  destruct H as [[_ [_ Hg]]|[[_ [_ Hg]]|[[_ [_ Hg]]|[[_ [_ Hg]]
                |[[_ [_ Hg]]|[[_ [_ Hg]]|[_ Hg]]]]]]];
    rewrite Hg in Hsome; [| | | | | |discriminate];
    injection Hsome as <-.
  - cbn [generateTrafficInsight BusinessInsight.type].
    destruct (num_gt (percentageChange anomaly) 0);
      unfold criticalityScore; simpl; lra.
  - cbn [generatePerformanceInsight BusinessInsight.type].
    unfold criticalityScore; simpl; lra.
  - cbn [generateEngagementInsight BusinessInsight.type].
    unfold criticalityScore; simpl; lra.
  - cbn [generateConversionInsight BusinessInsight.type].
    unfold criticalityScore; simpl; lra.
  - cbn [generateBounceRateInsight BusinessInsight.type].
    unfold criticalityScore; simpl; lra.
  - cbn [generateErrorRateInsight BusinessInsight.type].
    unfold criticalityScore; simpl; lra.
Qed.

Lemma in_scoreInsights (nowAt : nat -> Z)
    (uniqueAnomalies : list AnomalyDetectionResult)
    (insights : list BusinessInsight.t) :
  forall (i : nat) (x : BusinessInsight.t),
    In x (scoreInsights nowAt i insights uniqueAnomalies) ->
    exists j insight,
      In insight insights
      /\ x = withImpactScore insight
               (calculateImpactScore insight uniqueAnomalies (nowAt j)).
Proof.
  induction insights as [|y l IH]; intros i x Hx; [destruct Hx|].
  cbn [scoreInsights] in Hx; destruct Hx as [<-|Hx].
  - exists i, y; split; [left; reflexivity|reflexivity].
  - destruct (IH (S i) x Hx) as [j [insight [Hin ->]]].
    exists j, insight; split; [right; exact Hin|reflexivity].
Qed.

Lemma in_generateBusinessInsights (db : Prisma)
    (tz nowAggregated nowGranular : Z) (nowScoring : nat -> Z)
    (x : BusinessInsight.t) :
  In x (generateBusinessInsights db tz nowAggregated nowGranular nowScoring) ->
  let unique := uniqueAnomaliesOf db nowAggregated nowGranular in
  exists a insight j,
    In a unique
    /\ generateInsightForAnomaly a (analyzeCorrelations db tz unique)
       = Some insight
    /\ x = withImpactScore insight
             (calculateImpactScore insight unique (nowScoring j)).
Proof.
  unfold generateBusinessInsights; cbv zeta; intros Hx.
  apply in_firstn in Hx.
  apply (Permutation_in _ (jsSort_perm byImpactDesc _)) in Hx.
  unfold scoredInsightsOf in Hx; apply in_scoreInsights in Hx.
  destruct Hx as [j [insight [Hin ->]]].
  unfold insightsOf in Hin; cbv zeta in Hin.
  apply in_flat_map in Hin; destruct Hin as [a [Ha Hgen]].
  destruct (generateInsightForAnomaly a _) as [i0|] eqn:E; [|destruct Hgen].
  destruct Hgen as [<-|[]].
  exists a, i0, j; repeat split; assumption.
Qed.

(** X21. Every insight of the ranked response stems from a unique anomaly,
    whose page, metric label and instant it carries, and its impact score is
    at least 24; when no stored row is stamped after the instants at which
    the insights are scored, the score is at most 96. *)
Theorem X21_returned_insights_score_between_24_and_96 :
  forall (db : Prisma) (tz nowAggregated nowGranular : Z)
         (nowScoring : nat -> Z) (x : BusinessInsight.t),
    In x (generateBusinessInsights db tz nowAggregated nowGranular nowScoring) ->
    (exists a,
        In a (uniqueAnomaliesOf db nowAggregated nowGranular)
        /\ BusinessInsight.page x = page a
        /\ BusinessInsight.metric x = metric a
        /\ BusinessInsight.detectedAt x = timestamp a)
    /\ (24 <= BusinessInsight.impactScore x)%Z
    /\ ((forall t j, In t (storedInstants db) -> (t <= nowScoring j)%Z) ->
        (BusinessInsight.impactScore x <= 96)%Z).
Proof.
  intros db tz nowAggregated nowGranular nowScoring x Hx.
  apply in_generateBusinessInsights in Hx; cbv zeta in Hx.
  destruct Hx as [a [insight [j [Ha [Hgen ->]]]]].
  set (unique := uniqueAnomaliesOf db nowAggregated nowGranular) in *.
  destruct (generated_page_instant a _ insight Hgen) as [Hp Ht].
  cbn [withImpactScore BusinessInsight.page BusinessInsight.metric
       BusinessInsight.detectedAt BusinessInsight.impactScore].
  split.
  { exists a; repeat split; auto.
    pose proof (generateInsightForAnomaly_cases
                  a (analyzeCorrelations db tz unique)) as H.
    cbv zeta in H; rewrite Hgen in H.
    destruct H as [[_ [Hm H]]|[[_ [Hm H]]|[[_ [Hm H]]|[[_ [Hm H]]
                  |[[_ [Hm H]]|[[_ [Hm H]]|[_ H]]]]]]]; try discriminate;
      injection H as ->; rewrite Hm; reflexivity. }
  destruct (findAnomalyFor_generated unique a _ insight Ha Hgen)
    as [a' [pre [post [Hfind _]]]].
  unfold calculateImpactScore; rewrite Hfind; cbv zeta.
  pose proof (magnitude_range (percentageChange a')) as Hm.
  pose proof (generated_criticality a _ insight Hgen) as Hc.
  set (hoursAgo := (IZR (nowScoring j)
                    - IZR (BusinessInsight.detectedAt insight))
                   / (1000 * 60 * 60)).
  pose proof (Rmax_l 0 (100 - hoursAgo * 10)) as Hr0.
  split.
  - unfold Math_round; apply Zfloor_lub; lra.
  - intros Hpast.
    assert (Hnow : (BusinessInsight.detectedAt insight <= nowScoring j)%Z).
    { rewrite Ht; apply Hpast.
      exact (detected_instant_stored db nowAggregated nowGranular a Ha). }
    pose proof (recency_range _ (hoursAgo_nonneg _ _ Hnow)) as Hr.
    fold hoursAgo in Hr.
    assert (H : (Math_round
                   (Rmin (Rabs (percentageChange a') / 5) 100 * 0.3
                    + criticalityScore (BusinessInsight.type insight) * 0.4
                    + Rmax 0 (100 - hoursAgo * 10) * 0.3)
                 <= Math_round 96)%Z) by (apply Math_round_mono; lra).
    rewrite (Math_round_eq 96 96) in H by lra; exact H.
Qed.

(** X21 at the sample repository: the lowest score returned is 51. *)
Lemma X21_returned_insights_score_between_24_and_96_witness :
  In (withImpactScore bikeInsight 51)
     (generateBusinessInsights sampleDb 0 (hours 100) (hours 100)
                               (fun _ => hours 100))
  /\ (24 <= BusinessInsight.impactScore (withImpactScore bikeInsight 51))%Z.
Proof.
  assert (Hin : In (withImpactScore bikeInsight 51)
                   (generateBusinessInsights sampleDb 0 (hours 100) (hours 100)
                                             (fun _ => hours 100)))
    by (rewrite sample_ranked; simpl; auto).
  split; [exact Hin|].
  destruct (X21_returned_insights_score_between_24_and_96 sampleDb 0
              (hours 100) (hours 100) (fun _ => hours 100) _ Hin)
    as [_ [Hlow _]].
  exact Hlow.
Defined.

(** ** Ties in the ranking *)

Lemma filter_insertBy (s : Z) (x : BusinessInsight.t)
    (l : list BusinessInsight.t) :
  filter (fun y => (BusinessInsight.impactScore y =? s)%Z)
         (insertBy byImpactDesc x l)
  = filter (fun y => (BusinessInsight.impactScore y =? s)%Z) (x :: l).
Proof.
  induction l as [|y l IH]; [reflexivity|].
  cbn [insertBy]; unfold byImpactDesc at 1.
  destruct (BusinessInsight.impactScore y - BusinessInsight.impactScore x <=? 0)%Z
    eqn:E; [reflexivity|].
  apply Z.leb_gt in E.
  cbn [filter] in IH |- *; rewrite IH.
  destruct (BusinessInsight.impactScore x =? s)%Z eqn:Ex;
    destruct (BusinessInsight.impactScore y =? s)%Z eqn:Ey; try reflexivity.
  apply Z.eqb_eq in Ex; apply Z.eqb_eq in Ey; lia.
Qed.

Lemma filter_jsSort (s : Z) (l : list BusinessInsight.t) :
  filter (fun y => (BusinessInsight.impactScore y =? s)%Z)
         (jsSort byImpactDesc l)
  = filter (fun y => (BusinessInsight.impactScore y =? s)%Z) l.
Proof.
  induction l as [|x l IH]; [reflexivity|].
  unfold jsSort in *; cbn [fold_right].
  rewrite filter_insertBy; cbn [filter]; rewrite IH; reflexivity.
Qed.

(** X22. Ranking does not reorder ties: among the scored insights of one
    score, the ranked list keeps the order of generation, and the response,
    cut after five entries, keeps the earliest generated of them. *)
Theorem X22_ranking_keeps_generation_order_among_ties :
  forall (db : Prisma) (tz nowAggregated nowGranular : Z)
         (nowScoring : nat -> Z) (s : Z),
    let tie := fun y => (BusinessInsight.impactScore y =? s)%Z in
    let scored :=
      scoredInsightsOf db tz nowAggregated nowGranular nowScoring in
    filter tie (jsSort byImpactDesc scored) = filter tie scored
    /\ exists dropped,
         filter tie scored
         = filter tie (generateBusinessInsights db tz nowAggregated
                                                nowGranular nowScoring)
           ++ dropped.
Proof.
  intros db tz nowAggregated nowGranular nowScoring s tie scored.
  split; [apply filter_jsSort|].
  exists (filter tie (skipn 5 (jsSort byImpactDesc scored))).
  unfold generateBusinessInsights; cbv zeta; fold scored.
  rewrite <- filter_app, firstn_skipn; symmetry; apply filter_jsSort.
Qed.

(** ** The correlation an insight is written with *)

Lemma find_split {A : Type} (f : A -> bool) (l : list A) (x : A) :
  find f l = Some x ->
  exists pre post,
    l = pre ++ x :: post /\ f x = true /\ forall b, In b pre -> f b = false.
Proof.
  induction l as [|y l IH]; simpl; [discriminate|].
  destruct (f y) eqn:E.
  - intros [= <-]; exists [], l; repeat split; auto; intros b [].
  - intros H; destruct (IH H) as [pre [post [-> [Hx Hpre]]]].
    exists (y :: pre), post; repeat split; auto.
    intros b [<-|Hb]; auto.
Qed.

Lemma find_analyzeCorrelations (db : Prisma) (tz : Z)
    (q : AnomalyDetectionResult -> bool) (l : list AnomalyDetectionResult) :
  find (fun c => q (primaryAnomaly c)) (analyzeCorrelations db tz l)
  = match find (fun a => q a
                         && (0 <? List.length (correlatedFor db tz a))%nat) l with
    | Some a => Some (mkCorrelation a (correlatedFor db tz a))
    | None => None
    end.
Proof.
  unfold analyzeCorrelations; induction l as [|a l IH]; [reflexivity|].
  cbn [flat_map find]; cbv zeta.
  destruct (0 <? List.length (correlatedFor db tz a))%nat.
  - cbn [app find primaryAnomaly]; destruct (q a); [reflexivity|exact IH].
  - rewrite andb_false_r; exact IH.
Qed.

Lemma correlated_nonempty (db : Prisma) (tz : Z) (a : AnomalyDetectionResult) :
  (0 <? List.length (correlatedFor db tz a))%nat = false
  <-> correlatedFor db tz a = [].
Proof.
  destruct (correlatedFor db tz a); simpl; split; intros; auto; discriminate.
Qed.

(** X23. The correlation an insight is written with is looked up by page and
    instant only: it is the correlation result of the first anomaly of the set
    that has the insight's page and instant and a correlated metric, which
    need not be the anomaly the insight is about; there is none exactly when
    no anomaly of that page and instant has a correlated metric.  When the
    result found belongs to a Traffic anomaly it holds no bounce-rate metric,
    so a load-time insight of the same page and instant is written without its
    bounce-rate correlation; when it belongs to a Performance anomaly it holds
    no conversion metric. *)
Theorem X23_insight_correlation_found_by_page_and_instant :
  forall (db : Prisma) (tz : Z) (anomalies : list AnomalyDetectionResult)
         (anomaly : AnomalyDetectionResult),
    let correlation :=
      find (fun c => (page (primaryAnomaly c) =? page anomaly)%string
                     && (timestamp (primaryAnomaly c) =? timestamp anomaly)%Z)
           (analyzeCorrelations db tz anomalies) in
    (correlation = None
     <-> forall b,
           In b anomalies ->
           page b = page anomaly -> timestamp b = timestamp anomaly ->
           correlatedFor db tz b = [])
    /\ forall c,
         correlation = Some c ->
         (exists pre post,
             anomalies = pre ++ primaryAnomaly c :: post
             /\ page (primaryAnomaly c) = page anomaly
             /\ timestamp (primaryAnomaly c) = timestamp anomaly
             /\ correlatedMetrics c = correlatedFor db tz (primaryAnomaly c)
             /\ correlatedMetrics c <> []
             /\ forall b,
                  In b pre ->
                  page b = page anomaly -> timestamp b = timestamp anomaly ->
                  correlatedFor db tz b = [])
         /\ (metricType (primaryAnomaly c) = "Traffic" ->
             findCorrelated (Some c) "load_time_up_bounce_rate_up" = None)
         /\ (metricType (primaryAnomaly c) = "Performance" ->
             hasCorrelation (Some c) "traffic_up_conversions_down" = false).
Proof.
  intros db tz anomalies anomaly correlation; subst correlation.
  rewrite (find_analyzeCorrelations db tz
             (fun a => (page a =? page anomaly)%string
                       && (timestamp a =? timestamp anomaly)%Z)).
  split.
  - destruct (find _ anomalies) as [a|] eqn:E; split.
    + discriminate.
    + intros Hnone; exfalso.
      apply find_some in E; destruct E as [Hin Hq].
      apply andb_true_iff in Hq; destruct Hq as [Hq Hne].
      apply samePageInstant_spec in Hq; destruct Hq as [Hp Ht].
      rewrite (Hnone a Hin Hp Ht) in Hne; discriminate.
    + intros _ b Hb Hp Ht.
      pose proof (find_none _ _ E b Hb) as Hq; cbv beta in Hq.
      replace ((page b =? page anomaly)%string
               && (timestamp b =? timestamp anomaly)%Z) with true in Hq
        by (symmetry; apply samePageInstant_spec; split; assumption).
      apply correlated_nonempty; exact Hq.
    + reflexivity.
  - intros c Hc.
    destruct (find _ anomalies) as [a|] eqn:E; [|discriminate].
    injection Hc as <-; cbn [primaryAnomaly correlatedMetrics].
    apply find_split in E; destruct E as [pre [post [Hl [Hq Hpre]]]].
    apply andb_true_iff in Hq; destruct Hq as [Hq Hne].
    apply samePageInstant_spec in Hq; destruct Hq as [Hp Ht].
    assert (Hne' : correlatedFor db tz a <> [])
      by (intros E; rewrite E in Hne; discriminate).
    split; [|split].
    + exists pre, post; repeat split; auto.
      intros b Hb Hpb Htb.
      pose proof (Hpre b Hb) as Hq; cbv beta in Hq.
      replace ((page b =? page anomaly)%string
               && (timestamp b =? timestamp anomaly)%Z) with true in Hq
        by (symmetry; apply samePageInstant_spec; split; assumption).
      apply correlated_nonempty; exact Hq.
    + intros Hty; unfold findCorrelated; cbn [correlatedMetrics].
      destruct (correlatedFor_shape db tz a)
        as [Hnil|[_ [m [Hm [[_ Htag]|[Hty' _]]]]]];
        [contradiction| |rewrite Hty in Hty'; discriminate].
      rewrite Hm; cbn [find]; rewrite Htag; reflexivity.
    + intros Hty; unfold hasCorrelation; cbn [correlatedMetrics].
      destruct (correlatedFor_shape db tz a)
        as [Hnil|[_ [m [Hm [[Hty' _]|[_ [_ Htag]]]]]]];
        [contradiction|rewrite Hty in Hty'; discriminate|].
      rewrite Hm; cbn [existsb]; rewrite Htag; reflexivity.
Qed.

(** * Properties in binary64

    The statements below are about the definitions of [Binary64]: the
    statistics, thresholds, percentages and scores are the values the engine
    computes, each operation rounded. *)

(** ** C1: the flagging rule *)

Lemma in_flag_loop64 {A : Type} (flag : A -> bool)
    (mk : A -> Binary64.AnomalyDetectionResult) (l : list A)
    (a : Binary64.AnomalyDetectionResult) :
  In a (flat_map (fun r => if flag r then [mk r] else []) l)
  <-> exists r, In r l /\ flag r = true /\ a = mk r.
Proof.
  rewrite in_flat_map; split.
  - intros [r [Hin Ha]]; exists r.
    destruct (flag r); simpl in Ha; [|tauto].
    destruct Ha as [<-|[]]; auto.
  - intros [r [Hin [Hf ->]]]; exists r; rewrite Hf; simpl; auto.
Qed.

Lemma flag_loop64_nil {A : Type} (flag : A -> bool)
    (mk : A -> Binary64.AnomalyDetectionResult) (l : list A) :
  (forall r, flag r = false) ->
  flat_map (fun r => if flag r then [mk r] else []) l = [].
Proof.
  intros H; induction l as [|r l IH]; simpl; [reflexivity|].
  rewrite IH, H; reflexivity.
Qed.

Lemma detectTrafficAnomalies64_unfold (db : Binary64.Prisma) (page : string)
    (recentStart baselineStart baselineEnd : Z) :
  let values := trafficBaselineValues64 db page baselineStart baselineEnd in
  let M := Binary64.calculateMean values in
  let S := Binary64.calculateStdDev values M in
  values <> [] ->
  Binary64.detectTrafficAnomalies db page recentStart baselineStart baselineEnd
  = flat_map
      (fun recent =>
         if ((2.5 * S
              <? PrimFloat.abs
                   (Binary64.ofInteger (PageViewsHourly.viewCount recent) - M))
             && (0 <? M))%float
         then [Binary64.trafficAnomaly recent M S] else [])
      (Binary64.findTraffic db page recentStart None).
Proof.
  intros values M S Hne; apply map_neq_nil in Hne.
  subst S M values.
  unfold Binary64.detectTrafficAnomalies, trafficBaselineValues64.
  destruct (Binary64.findTraffic db page baselineStart (Some baselineEnd));
    [congruence|reflexivity].
Qed.

Lemma detectMetricAnomaly64_unfold (db : Binary64.Prisma) (page : string)
    (recentStart baselineStart baselineEnd : Z)
    (metricField metricType metricName : string)
    (valueExtractor : Binary64.MetricRow -> float) :
  let values :=
    metricBaselineValues64 db metricField page valueExtractor
                           baselineStart baselineEnd in
  let M := Binary64.calculateMean values in
  let S := Binary64.calculateStdDev values M in
  values <> [] ->
  Binary64.detectMetricAnomaly db page recentStart baselineStart baselineEnd
                               metricField metricType metricName valueExtractor
  = flat_map
      (fun recent =>
         if ((2.5 * S <? PrimFloat.abs (valueExtractor recent - M))
             && (0 <? M))%float
         then [Binary64.metricAnomaly metricType metricName valueExtractor
                                      recent M S]
         else [])
      (Binary64.findMetricRows db metricField page recentStart None).
Proof.
  intros values M S Hne; apply map_neq_nil in Hne.
  subst S M values.
  unfold Binary64.detectMetricAnomaly, metricBaselineValues64.
  destruct (Binary64.findMetricRows db metricField page baselineStart
                                    (Some baselineEnd));
    [congruence|reflexivity].
Qed.

Lemma traffic_detection64 (db : Binary64.Prisma) (page : string)
    (recentStart baselineStart baselineEnd : Z) :
  let values := trafficBaselineValues64 db page baselineStart baselineEnd in
  let M := Binary64.calculateMean values in
  let S := Binary64.calculateStdDev values M in
  let out :=
    Binary64.detectTrafficAnomalies db page recentStart baselineStart
                                    baselineEnd in
  values <> [] ->
  (forall recent,
     In recent (Binary64.findTraffic db page recentStart None) ->
     let V := Binary64.ofInteger (PageViewsHourly.viewCount recent) in
     (In (Binary64.trafficAnomaly recent M S) out
      <-> (2.5 * S <? PrimFloat.abs (V - M))%float = true
          /\ (0 <? M)%float = true)
     /\ Binary64.percentageChange (Binary64.trafficAnomaly recent M S)
        = ((V - M) / M * 100)%float)
  /\ (forall a, In a out ->
        exists recent,
          In recent (Binary64.findTraffic db page recentStart None)
          /\ a = Binary64.trafficAnomaly recent M S)
  /\ ((0 <? M)%float = false -> out = []).
Proof.
  intros values M S out Hne; subst out.
  rewrite (detectTrafficAnomalies64_unfold db page recentStart baselineStart
             baselineEnd Hne); fold values M S.
  split; [|split].
  - intros recent Hin V; split; [|reflexivity].
    rewrite in_flag_loop64, <- andb_true_iff; split.
    + intros [r [_ [Hf Heq]]].
      apply (f_equal Binary64.currentValue) in Heq; simpl in Heq.
      fold V in Heq; rewrite Heq; exact Hf.
    + intros Hf; exists recent; auto.
  - intros a Ha; apply in_flag_loop64 in Ha.
    destruct Ha as [r [Hin [_ ->]]]; eauto.
  - intros HM; apply flag_loop64_nil; intros r.
    rewrite HM; apply andb_false_r.
Qed.

Lemma metric_detection64 (db : Binary64.Prisma) (page : string)
    (recentStart baselineStart baselineEnd : Z)
    (metricField metricType metricName : string)
    (valueExtractor : Binary64.MetricRow -> float) :
  let values :=
    metricBaselineValues64 db metricField page valueExtractor
                           baselineStart baselineEnd in
  let M := Binary64.calculateMean values in
  let S := Binary64.calculateStdDev values M in
  let out :=
    Binary64.detectMetricAnomaly db page recentStart baselineStart baselineEnd
                                 metricField metricType metricName
                                 valueExtractor in
  values <> [] ->
  (forall recent,
     In recent (Binary64.findMetricRows db metricField page recentStart None) ->
     let V := valueExtractor recent in
     (In (Binary64.metricAnomaly metricType metricName valueExtractor recent
                                 M S) out
      <-> (2.5 * S <? PrimFloat.abs (V - M))%float = true
          /\ (0 <? M)%float = true)
     /\ Binary64.percentageChange
          (Binary64.metricAnomaly metricType metricName valueExtractor recent
                                  M S)
        = ((V - M) / M * 100)%float)
  /\ (forall a, In a out ->
        exists recent,
          In recent (Binary64.findMetricRows db metricField page recentStart
                                             None)
          /\ a = Binary64.metricAnomaly metricType metricName valueExtractor
                                        recent M S)
  /\ ((0 <? M)%float = false -> out = []).
Proof.
  intros values M S out Hne; subst out.
  rewrite (detectMetricAnomaly64_unfold db page recentStart baselineStart
             baselineEnd metricField metricType metricName valueExtractor Hne);
    fold values M S.
  split; [|split].
  - intros recent Hin V; split; [|reflexivity].
    rewrite in_flag_loop64, <- andb_true_iff; split.
    + intros [r [_ [Hf Heq]]].
      apply (f_equal Binary64.currentValue) in Heq; simpl in Heq.
      fold V in Heq; rewrite Heq; exact Hf.
    + intros Hf; exists recent; auto.
  - intros a Ha; apply in_flag_loop64 in Ha.
    destruct Ha as [r [Hin [_ ->]]]; eauto.
  - intros HM; apply flag_loop64_nil; intros r.
    rewrite HM; apply andb_false_r.
Qed.

(** C1 (amended). For a page and metric whose baseline window is not empty, a
    recent observation with value [V] is flagged (its anomaly record is
    emitted) if and only if [deviation > threshold] and [baselineMean > 0],
    where [baselineMean] and [baselineStdDev] are the statistics as computed,
    [deviation = |V - baselineMean|] and [threshold = 2.5 * baselineStdDev],
    all in binary64; the record carries
    [percentageChange = (V - baselineMean) / baselineMean * 100] as computed
    in binary64; every emitted record stems from a recent observation; and
    nothing is flagged unless [baselineMean > 0].  Stated for the page-view
    routine [detectTrafficAnomalies] and for [detectMetricAnomaly], which
    serves the other five metrics. *)
Theorem C1_flagged_iff_beyond_threshold :
  forall (db : Binary64.Prisma) (page : string)
         (recentStart baselineStart baselineEnd : Z),
    (let values := trafficBaselineValues64 db page baselineStart baselineEnd in
     let M := Binary64.calculateMean values in
     let S := Binary64.calculateStdDev values M in
     let out :=
       Binary64.detectTrafficAnomalies db page recentStart baselineStart
                                       baselineEnd in
     values <> [] ->
     (forall recent,
        In recent (Binary64.findTraffic db page recentStart None) ->
        let V := Binary64.ofInteger (PageViewsHourly.viewCount recent) in
        (In (Binary64.trafficAnomaly recent M S) out
         <-> (2.5 * S <? PrimFloat.abs (V - M))%float = true
             /\ (0 <? M)%float = true)
        /\ Binary64.percentageChange (Binary64.trafficAnomaly recent M S)
           = ((V - M) / M * 100)%float)
     /\ (forall a, In a out ->
           exists recent,
             In recent (Binary64.findTraffic db page recentStart None)
             /\ a = Binary64.trafficAnomaly recent M S)
     /\ ((0 <? M)%float = false -> out = []))
    /\
    (forall (metricField metricType metricName : string)
            (valueExtractor : Binary64.MetricRow -> float),
       let values :=
         metricBaselineValues64 db metricField page valueExtractor
                                baselineStart baselineEnd in
       let M := Binary64.calculateMean values in
       let S := Binary64.calculateStdDev values M in
       let out :=
         Binary64.detectMetricAnomaly db page recentStart baselineStart
                                      baselineEnd metricField metricType
                                      metricName valueExtractor in
       values <> [] ->
       (forall recent,
          In recent (Binary64.findMetricRows db metricField page recentStart
                                             None) ->
          let V := valueExtractor recent in
          (In (Binary64.metricAnomaly metricType metricName valueExtractor
                                      recent M S) out
           <-> (2.5 * S <? PrimFloat.abs (V - M))%float = true
               /\ (0 <? M)%float = true)
          /\ Binary64.percentageChange
               (Binary64.metricAnomaly metricType metricName valueExtractor
                                       recent M S)
             = ((V - M) / M * 100)%float)
       /\ (forall a, In a out ->
             exists recent,
               In recent (Binary64.findMetricRows db metricField page
                                                  recentStart None)
               /\ a = Binary64.metricAnomaly metricType metricName
                                             valueExtractor recent M S)
       /\ ((0 <? M)%float = false -> out = [])).
Proof.
  intros db page recentStart baselineStart baselineEnd; split.
  - apply traffic_detection64.
  - intros; apply metric_detection64; assumption.
Qed.

(** The statistics of the two sample baselines, as computed. *)
Lemma sample64_statistics :
  trafficBaselineValues64 sampleDb64 "/coorg-adventure-trek" (hours 70)
                          (hours 94)
  = [100; 120; 110; 90; 105]%float
  /\ Binary64.calculateMean [100; 120; 110; 90; 105]%float = 105%float
  /\ Binary64.calculateStdDev [100; 120; 110; 90; 105]%float 105 = 10%float
  /\ metricBaselineValues64 sampleDb64 "conversionRate" "/ladakh-bike-trip"
                            Binary64.get_conversionRate (hours 70) (hours 94)
     = [3.0; 3.2; 2.8; 3.1]%float
  /\ Binary64.calculateMean [3.0; 3.2; 2.8; 3.1]%float
     = 3.025%float
  /\ Binary64.calculateStdDev [3.0; 3.2; 2.8; 3.1]%float 3.025
     = 0.14790199457749054%float.
Proof. repeat split; vm_compute; reflexivity. Qed.

(** C1 at the sample repository: the view count 400 against the baseline
    (mean 105, deviation 10) and the conversion rate 1.8 against its baseline
    are both flagged, with the changes the engine stores. *)
Lemma C1_flagged_iff_beyond_threshold_witness :
  In (Binary64.trafficAnomaly (trekViews 98 400) 105 10)
     (Binary64.detectTrafficAnomalies sampleDb64 "/coorg-adventure-trek"
                                      (hours 94) (hours 70) (hours 94))
  /\ In (Binary64.metricAnomaly "Conversion" "Conversion Rate"
           Binary64.get_conversionRate
           (Binary64.UserActionsRow (bikeActions64 98 1.8))
           3.025 0.14790199457749054)
        (Binary64.detectMetricAnomaly sampleDb64 "/ladakh-bike-trip"
           (hours 94) (hours 70) (hours 94)
           "conversionRate" "Conversion" "Conversion Rate"
           Binary64.get_conversionRate).
Proof.
  destruct sample64_statistics as [Tv [Tm [Ts [Cv [Cm Cs]]]]].
  destruct (C1_flagged_iff_beyond_threshold sampleDb64 "/coorg-adventure-trek"
              (hours 94) (hours 70) (hours 94)) as [Ht _].
  destruct (C1_flagged_iff_beyond_threshold sampleDb64 "/ladakh-bike-trip"
              (hours 94) (hours 70) (hours 94)) as [_ Hm].
  specialize (Hm "conversionRate" "Conversion" "Conversion Rate"
                 Binary64.get_conversionRate).
  cbv zeta in Ht, Hm.
  rewrite Tv, Tm, Ts in Ht; rewrite Cv, Cm, Cs in Hm.
  split.
  - destruct Ht as [Ht _]; [discriminate|].
    destruct (Ht (trekViews 98 400)) as [[_ Hflag] _].
    + vm_compute; auto 10.
    + apply Hflag; split; vm_compute; reflexivity.
  - destruct Hm as [Hm _]; [discriminate|].
    destruct (Hm (Binary64.UserActionsRow (bikeActions64 98 1.8)))
      as [[_ Hflag] _].
    + vm_compute; auto 10.
    + apply Hflag; split; vm_compute; reflexivity.
Defined.

(** The baseline of [thirdsDb] in exact arithmetic: mean 4/3, standard
    deviation 2/3, so that the deviation of the recent count 3 equals the
    threshold. *)
Lemma thirds_exact_statistics :
  trafficBaselineValues thirdsDb "/goa-beach-resort" (hours 70) (hours 94)
  = [1; 1; 1; 1; 1; 1; 1; 2; 3]%R
  /\ calculateMean [1; 1; 1; 1; 1; 1; 1; 2; 3]%R = (4 / 3)%R
  /\ calculateStdDev [1; 1; 1; 1; 1; 1; 1; 2; 3]%R (4 / 3) = (2 / 3)%R
  /\ Rabs (3 - 4 / 3) = (2.5 * (2 / 3))%R.
Proof.
  split; [reflexivity|split; [|split]].
  - unfold calculateMean; simpl; lra.
  - unfold calculateStdDev; simpl.
    replace (_ / _)%R with ((2 / 3) * (2 / 3))%R by lra.
    apply sqrt_square; lra.
  - rewrite Rabs_right by lra; lra.
Qed.

(** C1 as worded, over the real numbers, fails at [thirdsDb]: the baseline
    counts 1, 1, 1, 1, 1, 1, 1, 2, 3 have mean 4/3 and standard deviation 2/3,
    so the deviation of the recent count 3 is exactly the threshold
    [2.5 * 2/3] and the rule does not flag it; computed in binary64 the
    threshold falls below the deviation and the count is flagged.  Likewise
    the change stored for a count of 63 against a baseline of 40 is not
    57.5 but the binary64 value below it. *)
Lemma C1_exact_tie_is_flagged :
  (trafficBaselineValues thirdsDb "/goa-beach-resort" (hours 70) (hours 94)
   = [1; 1; 1; 1; 1; 1; 1; 2; 3]%R
   /\ calculateMean [1; 1; 1; 1; 1; 1; 1; 2; 3]%R = (4 / 3)%R
   /\ calculateStdDev [1; 1; 1; 1; 1; 1; 1; 2; 3]%R (4 / 3) = (2 / 3)%R
   /\ Rabs (3 - 4 / 3) = (2.5 * (2 / 3))%R)
  /\ Binary64.findTraffic thirdsDb64 "/goa-beach-resort" (hours 94) None
     = [goaViews 98 3]
  /\ Binary64.detectTrafficAnomalies thirdsDb64 "/goa-beach-resort"
                                     (hours 94) (hours 70) (hours 94)
     = [Binary64.trafficAnomaly (goaViews 98 3) 1.3333333333333333
                                0.66666666666666663]
  /\ ((63 - 40) / 40 * 100 = 57.5)%R
  /\ map Binary64.percentageChange
         (Binary64.detectTrafficAnomalies fortyDb64 "/goa-beach-resort"
                                          (hours 94) (hours 70) (hours 94))
     = [57.499999999999993%float]
  /\ (57.499999999999993 <? 57.5)%float = true.
Proof.
  split; [exact thirds_exact_statistics|].
  split; [reflexivity|].
  split; [vm_compute; reflexivity|].
  split; [lra|].
  split; vm_compute; reflexivity.
Qed.

(** ** C10: a baseline without spread *)





(** ** C2: the impact score *)







(** ** C5: correlation analysis *)

Lemma fold_left_sum_map64 {A : Type} (f : A -> float) (l : list A) (a : float) :
  fold_left (fun sum d => (sum + f d)%float) l a
  = fold_left (fun sum val => (sum + val)%float) (map f l) a.
Proof.
  revert a; induction l as [|x l IH]; intros a; simpl; [|rewrite IH];
    reflexivity.
Qed.

(** The inline average of the correlation helpers is [calculateMean]. *)
Lemma inline_baseline64 (field : Binary64.UserActionsHourly.t -> float)
    (db : Binary64.Prisma) (page : string) (timestamp : Z)
    (recent : Binary64.UserActionsHourly.t) :
  (let baseline :=
     Binary64.findUserActions db page (timestamp - 30 * 60 * 60 * 1000)%Z
                              (timestamp - 6 * 60 * 60 * 1000)%Z in
   if (0 <? List.length baseline)%nat
   then (fold_left (fun sum d => sum + field d) baseline 0
         / Binary64.ofInteger (Z.of_nat (List.length baseline)))%float
   else field recent)
  = windowBaseline64 field db page timestamp recent.
Proof.
  unfold windowBaseline64, Binary64.findUserActions; cbv zeta.
  destruct (filter _ (Binary64.userActionsHourly db)) as [|x l];
    [reflexivity|].
  change (0 <? List.length (x :: l))%nat with true; cbv iota.
  unfold Binary64.calculateMean.
  rewrite fold_left_sum_map64, length_map; reflexivity.
Qed.

Lemma getConversionDataForPage64_spec (db : Binary64.Prisma) (tz : Z)
    (page : string) (timestamp : Z) :
  Binary64.getConversionDataForPage db tz page timestamp
  = match hourBucketRow64 db tz page timestamp with
    | None => None
    | Some recent =>
        Some (Binary64.mkConversionData
                (Binary64.UserActionsHourly.conversionRate recent)
                (windowBaseline64 Binary64.UserActionsHourly.conversionRate
                                  db page timestamp recent))
    end.
Proof.
  unfold Binary64.getConversionDataForPage, hourBucketRow64; cbv zeta.
  destruct (hd_error _) as [recent|]; [|reflexivity].
  rewrite <- (inline_baseline64 Binary64.UserActionsHourly.conversionRate);
    reflexivity.
Qed.

Lemma getBounceRateForPage64_spec (db : Binary64.Prisma) (tz : Z)
    (page : string) (timestamp : Z) :
  Binary64.getBounceRateForPage db tz page timestamp
  = match hourBucketRow64 db tz page timestamp with
    | None => None
    | Some recent =>
        Some (Binary64.mkBounceData
                (Binary64.UserActionsHourly.bounceRate recent)
                (windowBaseline64 Binary64.UserActionsHourly.bounceRate
                                  db page timestamp recent))
    end.
Proof.
  unfold Binary64.getBounceRateForPage, hourBucketRow64; cbv zeta.
  destruct (hd_error _) as [recent|]; [|reflexivity].
  rewrite <- (inline_baseline64 Binary64.UserActionsHourly.bounceRate);
    reflexivity.
Qed.

Lemma hourBucketRow64_in (db : Binary64.Prisma) (tz : Z) (page : string)
    (timestamp : Z) (recent : Binary64.UserActionsHourly.t) :
  hourBucketRow64 db tz page timestamp = Some recent ->
  In recent (Binary64.userActionsHourly db)
  /\ Binary64.UserActionsHourly.page recent = page
  /\ (startOfHour tz timestamp <= Binary64.UserActionsHourly.timestamp recent
      < startOfHour tz timestamp + 60 * 60 * 1000)%Z.
Proof.
  unfold hourBucketRow64, Binary64.findUserActions; intros H.
  assert (Hin : In recent
                   (filter (fun d =>
                              (Binary64.UserActionsHourly.page d =? page)%string
                              && (startOfHour tz timestamp
                                  <=? Binary64.UserActionsHourly.timestamp d)%Z
                              && (Binary64.UserActionsHourly.timestamp d
                                  <? startOfHour tz timestamp
                                     + 60 * 60 * 1000)%Z)
                           (Binary64.userActionsHourly db))).
  { destruct (filter _ _); [discriminate|].
    inversion H; left; reflexivity. }
  apply filter_In in Hin; destruct Hin as [Hin Hc].
  rewrite !andb_true_iff, String.eqb_eq, Z.leb_le, Z.ltb_lt in Hc; tauto.
Qed.

Lemma in_trafficConversionCheck64 (db : Binary64.Prisma) (tz : Z)
    (anomaly : Binary64.AnomalyDetectionResult)
    (m : Binary64.CorrelatedMetric) :
  In m (Binary64.trafficConversionCheck db tz anomaly)
  <-> Binary64.metricType anomaly = "Traffic"
      /\ (0 <? Binary64.percentageChange anomaly)%float = true
      /\ exists recent,
          hourBucketRow64 db tz (Binary64.page anomaly)
                          (Binary64.timestamp anomaly) = Some recent
          /\ let conversionRate :=
               Binary64.UserActionsHourly.conversionRate recent in
             let baselineRate :=
               windowBaseline64 Binary64.UserActionsHourly.conversionRate db
                                (Binary64.page anomaly)
                                (Binary64.timestamp anomaly) recent in
             (conversionRate <? baselineRate * 0.9)%float = true
             /\ m = Binary64.mkCorrelated
                      "Conversion Rate" conversionRate
                      ((conversionRate - baselineRate) / baselineRate * 100)%float
                      "traffic_up_conversions_down".
Proof.
  unfold Binary64.trafficConversionCheck;
    rewrite getConversionDataForPage64_spec.
  rewrite <- (String.eqb_eq (Binary64.metricType anomaly)).
  destruct (Binary64.metricType anomaly =? "Traffic")%string;
    [|simpl; intuition discriminate].
  destruct (0 <? Binary64.percentageChange anomaly)%float;
    [|simpl; intuition discriminate].
  cbn [andb].
  destruct (hourBucketRow64 db tz (Binary64.page anomaly)
                            (Binary64.timestamp anomaly)) as [recent|].
  - cbn [Binary64.cd_conversionRate Binary64.cd_baselineRate]; cbv zeta.
    match goal with
    | |- context [if ?b then _ else _] => destruct b eqn:El
    end.
    + split.
      * intros [<-|[]]; repeat split; eauto.
      * intros [_ [_ [r [[= <-] [_ ->]]]]]; left; reflexivity.
    + split; [intros []|].
      intros [_ [_ [r [[= <-] [Hlt _]]]]]; congruence.
  - split; [intros []|]; intros [_ [_ [r [Hr _]]]]; discriminate.
Qed.

Lemma in_loadTimeBounceCheck64 (db : Binary64.Prisma) (tz : Z)
    (anomaly : Binary64.AnomalyDetectionResult)
    (m : Binary64.CorrelatedMetric) :
  In m (Binary64.loadTimeBounceCheck db tz anomaly)
  <-> (Binary64.metricType anomaly = "Performance"
       /\ Binary64.metric anomaly = "Load Time")
      /\ (0 <? Binary64.percentageChange anomaly)%float = true
      /\ exists recent,
          hourBucketRow64 db tz (Binary64.page anomaly)
                          (Binary64.timestamp anomaly) = Some recent
          /\ let bounceRate := Binary64.UserActionsHourly.bounceRate recent in
             let baselineBounceRate :=
               windowBaseline64 Binary64.UserActionsHourly.bounceRate db
                                (Binary64.page anomaly)
                                (Binary64.timestamp anomaly) recent in
             (baselineBounceRate * 1.1 <? bounceRate)%float = true
             /\ m = Binary64.mkCorrelated
                      "Bounce Rate" bounceRate
                      ((bounceRate - baselineBounceRate)
                       / baselineBounceRate * 100)%float
                      "load_time_up_bounce_rate_up".
Proof.
  unfold Binary64.loadTimeBounceCheck; rewrite getBounceRateForPage64_spec.
  rewrite <- (String.eqb_eq (Binary64.metricType anomaly)),
    <- (String.eqb_eq (Binary64.metric anomaly)).
  destruct (Binary64.metricType anomaly =? "Performance")%string;
    [|simpl; intuition discriminate].
  destruct (Binary64.metric anomaly =? "Load Time")%string;
    [|simpl; intuition discriminate].
  destruct (0 <? Binary64.percentageChange anomaly)%float;
    [|simpl; intuition discriminate].
  cbn [andb].
  destruct (hourBucketRow64 db tz (Binary64.page anomaly)
                            (Binary64.timestamp anomaly)) as [recent|].
  - cbn [Binary64.bd_bounceRate Binary64.bd_baselineBounceRate]; cbv zeta.
    match goal with
    | |- context [if ?b then _ else _] => destruct b eqn:El
    end.
    + split.
      * intros [<-|[]]; repeat split; eauto.
      * intros [_ [_ [r [[= <-] [_ ->]]]]]; left; reflexivity.
    + split; [intros []|].
      intros [_ [_ [r [[= <-] [Hlt _]]]]]; congruence.
  - split; [intros []|]; intros [_ [_ [r [Hr _]]]]; discriminate.
Qed.

Lemma trafficConversionCheck64_tag (db : Binary64.Prisma) (tz : Z)
    (anomaly : Binary64.AnomalyDetectionResult)
    (m : Binary64.CorrelatedMetric) :
  In m (Binary64.trafficConversionCheck db tz anomaly) ->
  Binary64.cm_correlation m = "traffic_up_conversions_down".
Proof.
  rewrite in_trafficConversionCheck64.
  intros [_ [_ [r [_ [_ ->]]]]]; reflexivity.
Qed.

Lemma loadTimeBounceCheck64_tag (db : Binary64.Prisma) (tz : Z)
    (anomaly : Binary64.AnomalyDetectionResult)
    (m : Binary64.CorrelatedMetric) :
  In m (Binary64.loadTimeBounceCheck db tz anomaly) ->
  Binary64.cm_correlation m = "load_time_up_bounce_rate_up".
Proof.
  rewrite in_loadTimeBounceCheck64.
  intros [_ [_ [r [_ [_ ->]]]]]; reflexivity.
Qed.

Lemma in_analyzeCorrelations64 (db : Binary64.Prisma) (tz : Z)
    (anomalies : list Binary64.AnomalyDetectionResult)
    (c : Binary64.CorrelationResult) :
  In c (Binary64.analyzeCorrelations db tz anomalies)
  <-> exists anomaly,
        In anomaly anomalies
        /\ Binary64.correlatedFor db tz anomaly <> []
        /\ c = Binary64.mkCorrelation anomaly
                 (Binary64.correlatedFor db tz anomaly).
Proof.
  unfold Binary64.analyzeCorrelations; rewrite in_flat_map; split.
  - intros [a [Ha Hc]]; exists a; cbv zeta in Hc.
    destruct (Binary64.correlatedFor db tz a) as [|x l]; simpl in Hc; [tauto|].
    destruct Hc as [<-|[]]; repeat split; auto; discriminate.
  - intros [a [Ha [Hne ->]]]; exists a; split; [exact Ha|]; cbv zeta.
    destruct (Binary64.correlatedFor db tz a) as [|x l]; [congruence|].
    left; reflexivity.
Qed.

(** C5 as worded fails twice.  At [boundaryDb64] the only baseline row is
    stamped exactly 30 hours before the anomaly: [analyzeCorrelations]
    records [traffic_up_conversions_down] for the surge, although against the
    open-window baseline (no row, hence the recent value 4 itself) the
    conversion rate 4 is not below [baseline * 0.9].  At [thresholdDb64] the
    baseline rates 1.9 and 2.5 have the exact mean 2.2, of which nine tenths
    are exactly the recent rate 1.98, so the rule over the real numbers
    records nothing; the engine's binary64 product lies above 1.98 and the
    correlation is recorded. *)
Lemma C5_boundary_row_counts_in_baseline :
  (Binary64.correlatedFor boundaryDb64 0 goaSurge64
   = [Binary64.mkCorrelated "Conversion Rate" 4 (-20)
                            "traffic_up_conversions_down"]
   /\ hourBucketRow64 boundaryDb64 0 "/goa-beach-resort" (hours 100)
      = Some (goaActions64 100 4 30)
   /\ openWindowBaseline64 Binary64.UserActionsHourly.conversionRate
        boundaryDb64 "/goa-beach-resort" (hours 100) (goaActions64 100 4 30)
      = 4%float
   /\ (4 <? 4 * 0.9)%float = false)
  /\
  (Binary64.correlatedFor thresholdDb64 0 goaSurge64
   = [Binary64.mkCorrelated "Conversion Rate" 1.98 (-10.000000000000007)
                            "traffic_up_conversions_down"]
   /\ hourBucketRow64 thresholdDb64 0 "/goa-beach-resort" (hours 100)
      = Some (goaActions64 100 1.98 5)
   /\ map Binary64.UserActionsHourly.conversionRate
          (Binary64.findUserActions thresholdDb64 "/goa-beach-resort"
             (hours 100 - 30 * 60 * 60 * 1000)%Z
             (hours 100 - 6 * 60 * 60 * 1000)%Z)
      = [1.9; 2.5]%float
   /\ (calculateMean [1.9; 2.5] * 0.9 = 1.98)%R).
Proof.
  split; repeat split; try (vm_compute; reflexivity).
  unfold calculateMean; simpl; lra.
Qed.

(** C5 (amended). For every anomaly of the input set, correlation analysis
    records [traffic_up_conversions_down] exactly when the anomaly is a
    Traffic increase and the first stored user-action row of the same page in
    the anomaly's hour bucket has [conversionRate < baselineRate * 0.9], and
    records [load_time_up_bounce_rate_up] exactly when the anomaly is a Load
    Time increase and that row has [bounceRate > baselineBounceRate * 1.1];
    each baseline is the mean over the rows of the page stamped from
    [timestamp - 30h] (included) up to [timestamp - 6h] (excluded), or the
    recent value when there is none; means, products and comparisons are the
    binary64 ones the engine computes; the recorded metric carries the
    observed value and its percentage change, computed in binary64; an
    anomaly appears in the result exactly when it has a correlated metric. *)
Theorem C5_correlations_recorded_exactly :
  forall (db : Binary64.Prisma) (tz : Z)
         (anomalies : list Binary64.AnomalyDetectionResult)
         (anomaly : Binary64.AnomalyDetectionResult),
    In anomaly anomalies ->
    (forall m,
        In m (Binary64.correlatedFor db tz anomaly)
        /\ Binary64.cm_correlation m = "traffic_up_conversions_down"
        <-> Binary64.metricType anomaly = "Traffic"
            /\ (0 <? Binary64.percentageChange anomaly)%float = true
            /\ exists recent,
                hourBucketRow64 db tz (Binary64.page anomaly)
                                (Binary64.timestamp anomaly) = Some recent
                /\ let conversionRate :=
                     Binary64.UserActionsHourly.conversionRate recent in
                   let baselineRate :=
                     windowBaseline64 Binary64.UserActionsHourly.conversionRate
                                      db (Binary64.page anomaly)
                                      (Binary64.timestamp anomaly) recent in
                   (conversionRate <? baselineRate * 0.9)%float = true
                   /\ m = Binary64.mkCorrelated
                            "Conversion Rate" conversionRate
                            ((conversionRate - baselineRate)
                             / baselineRate * 100)%float
                            "traffic_up_conversions_down")
    /\ (forall m,
          In m (Binary64.correlatedFor db tz anomaly)
          /\ Binary64.cm_correlation m = "load_time_up_bounce_rate_up"
          <-> (Binary64.metricType anomaly = "Performance"
               /\ Binary64.metric anomaly = "Load Time")
              /\ (0 <? Binary64.percentageChange anomaly)%float = true
              /\ exists recent,
                  hourBucketRow64 db tz (Binary64.page anomaly)
                                  (Binary64.timestamp anomaly) = Some recent
                  /\ let bounceRate :=
                       Binary64.UserActionsHourly.bounceRate recent in
                     let baselineBounceRate :=
                       windowBaseline64 Binary64.UserActionsHourly.bounceRate
                                        db (Binary64.page anomaly)
                                        (Binary64.timestamp anomaly) recent in
                     (baselineBounceRate * 1.1 <? bounceRate)%float = true
                     /\ m = Binary64.mkCorrelated
                              "Bounce Rate" bounceRate
                              ((bounceRate - baselineBounceRate)
                               / baselineBounceRate * 100)%float
                              "load_time_up_bounce_rate_up")
    /\ (In (Binary64.mkCorrelation anomaly
              (Binary64.correlatedFor db tz anomaly))
           (Binary64.analyzeCorrelations db tz anomalies)
        <-> Binary64.correlatedFor db tz anomaly <> [])
    /\ (Binary64.correlatedFor db tz anomaly = [] ->
        forall c, In c (Binary64.analyzeCorrelations db tz anomalies) ->
                  Binary64.primaryAnomaly c <> anomaly)
    /\ (forall recent,
          hourBucketRow64 db tz (Binary64.page anomaly)
                          (Binary64.timestamp anomaly) = Some recent ->
          In recent (Binary64.userActionsHourly db)
          /\ Binary64.UserActionsHourly.page recent = Binary64.page anomaly
          /\ (startOfHour tz (Binary64.timestamp anomaly)
              <= Binary64.UserActionsHourly.timestamp recent
              < startOfHour tz (Binary64.timestamp anomaly)
                + 60 * 60 * 1000)%Z)
    /\ (startOfHour tz (Binary64.timestamp anomaly)
        <= Binary64.timestamp anomaly
        < startOfHour tz (Binary64.timestamp anomaly) + 60 * 60 * 1000)%Z.
Proof.
  intros db tz anomalies anomaly Hin.
  split; [|split; [|split; [|split; [|split;
    [exact (hourBucketRow64_in db tz (Binary64.page anomaly)
              (Binary64.timestamp anomaly))
    |apply startOfHour_bucket]]]]].
  - intros m; rewrite <- in_trafficConversionCheck64.
    unfold Binary64.correlatedFor; rewrite in_app_iff; split.
    + intros [[Hm|Hm] Htag]; [exact Hm|].
      apply loadTimeBounceCheck64_tag in Hm; congruence.
    + intros Hm; split; [left; exact Hm|].
      eapply trafficConversionCheck64_tag; exact Hm.
  - intros m; rewrite <- in_loadTimeBounceCheck64.
    unfold Binary64.correlatedFor; rewrite in_app_iff; split.
    + intros [[Hm|Hm] Htag]; [|exact Hm].
      apply trafficConversionCheck64_tag in Hm; congruence.
    + intros Hm; split; [right; exact Hm|].
      eapply loadTimeBounceCheck64_tag; exact Hm.
  - rewrite in_analyzeCorrelations64; split.
    + intros [a [_ [Hne Heq]]]; inversion Heq; subst a; exact Hne.
    + intros Hne; exists anomaly; auto.
  - intros Hnil c Hc Hprim.
    apply in_analyzeCorrelations64 in Hc.
    destruct Hc as [a [_ [Hne ->]]]; simpl in Hprim; subst a; auto.
Qed.

(** The correlated metrics at [boundaryDb64] and [thresholdDb64], as
    computed; a bounce rate that was 0 throughout the baseline gives a
    change that is not finite. *)
Lemma correlated64_values :
  Binary64.correlatedFor boundaryDb64 0 goaSurge64
  = [Binary64.mkCorrelated "Conversion Rate" 4 (-20)
                           "traffic_up_conversions_down"]
  /\ Binary64.correlatedFor thresholdDb64 0 goaSlowdown64
     = [Binary64.mkCorrelated "Bounce Rate" 5 infinity
                              "load_time_up_bounce_rate_up"].
Proof. split; vm_compute; reflexivity. Qed.

(** C5 at [boundaryDb64]: the surge is paired with the conversion-rate drop
    from its baseline 5 to 4; at [thresholdDb64] the slowdown is paired with
    the bounce rate 5 against a baseline of 0. *)
Lemma C5_correlations_recorded_exactly_witness :
  In goaSurge64 [goaSurge64]
  /\ In (Binary64.mkCorrelation goaSurge64
           [Binary64.mkCorrelated "Conversion Rate" 4 (-20)
                                  "traffic_up_conversions_down"])
        (Binary64.analyzeCorrelations boundaryDb64 0 [goaSurge64])
  /\ In (Binary64.mkCorrelation goaSlowdown64
           [Binary64.mkCorrelated "Bounce Rate" 5 infinity
                                  "load_time_up_bounce_rate_up"])
        (Binary64.analyzeCorrelations thresholdDb64 0 [goaSlowdown64]).
Proof.
  destruct correlated64_values as [Hb Ht].
  assert (Hin : In goaSurge64 [goaSurge64]) by (left; reflexivity).
  assert (Hin' : In goaSlowdown64 [goaSlowdown64]) by (left; reflexivity).
  split; [exact Hin|split].
  - destruct (C5_correlations_recorded_exactly boundaryDb64 0 [goaSurge64]
                goaSurge64 Hin) as [_ [_ [Hrec _]]].
    rewrite <- Hb; apply Hrec.
    rewrite Hb; discriminate.
  - destruct (C5_correlations_recorded_exactly thresholdDb64 0
                [goaSlowdown64] goaSlowdown64 Hin') as [_ [_ [Hrec _]]].
    rewrite <- Ht; apply Hrec.
    rewrite Ht; discriminate.
Defined.

(** ** What every anomaly record satisfies *)







